(** * word.py: Markdown to DOCX converter

    A shallow embedding of [src/misc/word.py] and the properties of its
    configuration validation, Markdown pre-processing, image insertion,
    temporary-file handling, style post-processing and table borders.

    Python values are modelled as follows.
    - [str] is a list of Unicode code points ([list N]).
    - [int] is [Z]; a finite [float] is the integer number of units of
      2^-1074 it is worth (every finite IEEE 754 double is such a multiple).
    - A raised exception is the [Raise] case of [result]; the module-level
      [logger] is a list of records threaded through the effectful code.
    - python-docx objects are records holding the attributes the converter
      reads and writes; [lxml] elements are trees. *)

From Equations Require Import Equations.
From stdpp Require Import gmap strings list.
From Stdlib Require Import ZArith Lia Floats.SpecFloat.

Local Open Scope Z_scope.
Local Open Scope list_scope.

(** ** Python strings *)

Module Py.

(** A Python [str]: a sequence of code points. *)
Definition str := list N.

(** The literal [s], character by character. *)
Fixpoint lit (s : string) : str :=
  match s with
  | EmptyString => []
  | String a s' => Ascii.N_of_ascii a :: lit s'
  end.

Definition NEWLINE : N := 10%N.

(** [str.isspace] on one code point: the characters CPython's
    [_PyUnicode_IsWhitespace] accepts. *)
Definition isspace (c : N) : bool :=
  ((9 <=? c) && (c <=? 13) || (28 <=? c) && (c <=? 32)
   || (c =? 133) || (c =? 160) || (c =? 5760)
   || (8192 <=? c) && (c <=? 8202)
   || (c =? 8232) || (c =? 8233) || (c =? 8239) || (c =? 8287)
   || (c =? 12288))%N.

(** [s.startswith(prefix)] *)
Fixpoint startswith (s prefix : str) : bool :=
  match prefix, s with
  | [], _ => true
  | _ :: _, [] => false
  | p :: prefix', c :: s' => (c =? p)%N && startswith s' prefix'
  end.

(** [s.lstrip()], [s.rstrip()] and [s.strip()] without argument. *)
Fixpoint lstrip (s : str) : str :=
  match s with
  | [] => []
  | c :: s' => if isspace c then lstrip s' else s
  end.

Definition rstrip (s : str) : str := rev (lstrip (rev s)).

Definition strip (s : str) : str := rstrip (lstrip s).

(** [s.split(sep)] for a one-character separator: never the empty list. *)
Fixpoint split (sep : N) (s : str) : list str :=
  match s with
  | [] => [[]]
  | c :: s' =>
      if (c =? sep)%N then [] :: split sep s'
      else match split sep s' with
           | [] => [[c]]
           | l :: ls => (c :: l) :: ls
           end
  end.

(** [sub in s]: substring test. *)
Fixpoint contains (sub s : str) : bool :=
  startswith s sub ||
  match s with
  | [] => false
  | _ :: s' => contains sub s'
  end.

End Py.

Import Py.

(** ** Exceptions, logging and effects *)

(** The exceptions the converter raises or lets through. *)
Inductive exn :=
| ValueError
| TypeError
| KeyError (key : string)
| IndexError
| FileNotFoundError
| IOError
| RuntimeError
| CalledProcessError
| OtherError.

Inductive result (A : Type) :=
| Ok (a : A)
| Raise (e : exn).
Arguments Ok {A} a.
Arguments Raise {A} e.

Inductive level := INFO | WARNING | ERROR.

(** What the f-string of a [logger] call reports. *)
Inductive message :=
| FoundImageReferences (n : nat)
| UnsupportedImageFormat
| ProcessingImage
| AddedImage (path : str)
| ErrorAddingImage (path : str)
| ImageNotFound
| StyleNotFound (name : string)
| FootnoteStyleNotFound (name : string)
| FootnoteWarning
| PandocCompleted
| PandocFailed
| PandocError
| LuaScriptExists
| CouldNotDeleteLua
| CouldNotDeleteTempMarkdown
| NotMarkdownFile
| CreatedImageDirectory
| ConversionSuccessful.

Definition log_record : Type := level * message.

(** Code that reads and writes a state [St] and may raise. *)
Definition M (St A : Type) : Type := St → result A * St.

#[export] Instance M_ret {St} : MRet (M St) := λ A a s, (Ok a, s).

#[export] Instance M_bind {St} : MBind (M St) :=
  λ A B k m s, match m s with
               | (Ok a, s') => k a s'
               | (Raise e, s') => (Raise e, s')
               end.

Definition raise {St A} (e : exn) : M St A := λ s, (Raise e, s).

Definition get {St} : M St St := λ s, (Ok s, s).

Definition modify {St} (f : St → St) : M St unit := λ s, (Ok tt, f s).

(** [try: body finally: cleanup], for a [cleanup] that is itself
    [try: ... except Exception: ...] and so returns normally. *)
Definition try_finally {St A} (body : M St A) (cleanup : M St unit) : M St A :=
  λ s, let '(r, s1) := body s in
       match cleanup s1 with
       | (Ok _, s2) => (r, s2)
       | (Raise e, s2) => (Raise e, s2)
       end.

(** [try: body except ...: handler], [handles] telling which exceptions
    the clause names. *)
Definition try_except {St A} (body : M St A) (handles : exn → bool)
    (handler : exn → M St A) : M St A :=
  λ s, match body s with
       | (Raise e, s1) => if handles e then handler e s1 else (Raise e, s1)
       | ok => ok
       end.

(** Where the records of the module-level [logger] go. *)
Class Logging (St : Type) := emit : log_record → St → St.

#[export] Instance log_logging : Logging (list log_record) := λ r l, l ++ [r].

Definition log {St} `{Logging St} (lv : level) (msg : message) : M St unit :=
  modify (emit (lv, msg)).

(** ** Floating point *)

Module Float.

(** A finite nonnegative double is given by the number of units of
    [2^-1074] it is worth: normal and subnormal doubles are exactly the
    integers [m * 2^s] with [m < 2^53].  Overflow is outside the model:
    results stay below [2^1024] for the lengths a document holds. *)
Definition SCALE : Z := 2 ^ 1074.

(** The integer nearest to [n / d], ties to the even one. *)
Definition round_half_even (n d : Z) : Z :=
  let q := n / d in
  match 2 * (n mod d) ?= d with
  | Lt => q
  | Gt => q + 1
  | Eq => if Z.even q then q else q + 1
  end.

(** The double nearest to [n / d] units (round to nearest, ties to even):
    53 significant bits are kept. *)
Definition round (n d : Z) : Z :=
  let s := Z.max 0 (Z.log2 (n / d) - 52) in
  round_half_even n (d * 2 ^ s) * 2 ^ s.

(** [a / b] on two [int]: the correctly rounded quotient. *)
Definition truediv (a b : Z) : Z := round (a * SCALE) b.

(** [x * y] on two [float]. *)
Definition mul (x y : Z) : Z := round (x * y) SCALE.

(** [float(n)] *)
Definition of_int (n : Z) : Z := round (n * SCALE) 1.

(** [int(x)]: truncation. *)
Definition to_int (x : Z) : Z := x / SCALE.

(** The units of an IEEE 754 value of the Standard Library's
    specification of binary64, to compare the model with. *)
Definition units (f : spec_float) : option Z :=
  match f with
  | S754_zero _ => Some 0
  | S754_finite false m e => Some (Z.pos m * 2 ^ (e + 1074))
  | _ => None
  end.

Definition binary64 (n : Z) : spec_float := binary_normalize 53 1024 n 0 false.

End Float.

(** A Python number as the configuration receives it: an [int], a finite
    [float] worth [units * 2^-1074], an infinity or a NaN. *)
Inductive number :=
| Int (z : Z)
| Finite (units : Z)
| Infinity (negative : bool)
| NaN.

(** [x < 0], [x <= 0], [x > 0] and [x >= 0] *)
Definition lt0 (x : number) : bool :=
  match x with
  | Int z | Finite z => z <? 0
  | Infinity negative => negative
  | NaN => false
  end.

Definition le0 (x : number) : bool :=
  match x with
  | Int z | Finite z => z <=? 0
  | Infinity negative => negative
  | NaN => false
  end.



(** ** DocumentConfig *)

Inductive PaperSize := LETTER | LEGAL | A4.

(** [DocumentStyle.LETTER] is [LETTER_STYLE] here, [LETTER] being the paper
    size. *)
Inductive DocumentStyle := REPORT | NOTE | LETTER_STYLE | MEMO.

(** A value stored under a heading level: a tuple of integers, or
    anything that is not a tuple. *)
Inductive color_value :=
| ColorTuple (components : list Z)
| NotATuple.

(** A value passed as [footer_text]: a dict, or anything else with its
    truth value. *)
Inductive footer_value :=
| FooterDict (d : gmap str str)
| NotADict (truthy : bool).

Record DocumentConfig := {
  style : DocumentStyle;
  paper_size : PaperSize;
  author : str;
  date : str;
  heading_colors : list (Z * color_value);
  footer_text : footer_value;
  font_name : str;
  base_font_size : Z;
  margins : list number;
  line_spacing : number;
  generate_toc : bool;
  language : str;
  center_title : bool
}.

(** The arguments of [DocumentConfig.__init__]; [None] is the default of
    [heading_colors] and [footer_text]. *)
Record init_args := {
  arg_style : DocumentStyle;
  arg_paper_size : PaperSize;
  arg_author : str;
  arg_date : str;
  arg_heading_colors : option (list (Z * color_value));
  arg_footer_text : option footer_value;
  arg_font_name : str;
  arg_base_font_size : Z;
  arg_margins : list number;
  arg_line_spacing : number;
  arg_generate_toc : bool;
  arg_language : str;
  arg_center_title : bool
}.

Definition default_heading_colors : list (Z * color_value) :=
  [(1, ColorTuple [37; 150; 190]);
   (2, ColorTuple [37; 150; 190]);
   (3, ColorTuple [37; 150; 190])].

Definition default_footer_text : footer_value :=
  FooterDict (<[lit "odd" := lit "Page"]> (<[lit "even" := lit "Page"]> ∅)).

(** [heading_colors or {...}]: an empty dict is false. *)
Definition heading_colors_or_default (a : option (list (Z * color_value)))
  : list (Z * color_value) :=
  match a with
  | None | Some [] => default_heading_colors
  | Some l => l
  end.

(** What [bool(footer_text)] is. *)
Definition footer_truthy (f : footer_value) : bool :=
  match f with
  | FooterDict d => negb (bool_decide (d = ∅))
  | NotADict truthy => truthy
  end.

(** [footer_text or {...}] *)
Definition footer_text_or_default (a : option footer_value) : footer_value :=
  match a with
  | None => default_footer_text
  | Some f => if footer_truthy f then f else default_footer_text
  end.

(** The checks of one heading color, in the order of the loop body. *)
Definition validate_color (color : color_value) : result unit :=
  match color with
  | NotATuple => Raise ValueError
  | ColorTuple cs =>
      if negb (length cs =? 3)%nat then Raise ValueError
      else if negb (forallb (λ c, (0 <=? c) && (c <=? 255)) cs)
           then Raise ValueError
      else Ok tt
  end.

Fixpoint validate_colors (items : list (Z * color_value)) : result unit :=
  match items with
  | [] => Ok tt
  | (_, color) :: rest =>
      match validate_color color with
      | Ok _ => validate_colors rest
      | Raise e => Raise e
      end
  end.

(** [isinstance(footer_text, dict) and 'odd' in ... and 'even' in ...] *)
Definition footer_has_keys (f : footer_value) : bool :=
  match f with
  | FooterDict d =>
      bool_decide (is_Some (d !! lit "odd")) &&
      bool_decide (is_Some (d !! lit "even"))
  | NotADict _ => false
  end.

Definition _validate (self : DocumentConfig) : result unit :=
  if base_font_size self <=? 0 then Raise ValueError
  else if existsb lt0 (margins self) then Raise ValueError
  else if le0 (line_spacing self) then Raise ValueError
  else match validate_colors (heading_colors self) with
       | Raise e => Raise e
       | Ok _ =>
           if negb (footer_has_keys (footer_text self)) then Raise ValueError
           else Ok tt
       end.

(** [DocumentConfig(...)]: the object, or the exception of [_validate]. *)
Definition DocumentConfig_init (a : init_args) : result DocumentConfig :=
  let self := {|
    style := arg_style a;
    paper_size := arg_paper_size a;
    author := arg_author a;
    date := arg_date a;
    heading_colors := heading_colors_or_default (arg_heading_colors a);
    footer_text := footer_text_or_default (arg_footer_text a);
    font_name := arg_font_name a;
    base_font_size := arg_base_font_size a;
    margins := arg_margins a;
    line_spacing := arg_line_spacing a;
    generate_toc := arg_generate_toc a;
    language := arg_language a;
    center_title := arg_center_title a
  |} in
  match _validate self with
  | Ok _ => Ok self
  | Raise e => Raise e
  end.

(** The defaults of the signature of [__init__]. *)
Definition default_args : init_args := {|
  arg_style := REPORT;
  arg_paper_size := LETTER;
  arg_author := [];
  arg_date := [];
  arg_heading_colors := None;
  arg_footer_text := None;
  arg_font_name := lit "Arial";
  arg_base_font_size := 12;
  arg_margins := [Int 2; Int 2; Int 2; Int 2];
  arg_line_spacing := Finite Float.SCALE;
  arg_generate_toc := true;
  arg_language := lit "en-US";
  arg_center_title := true
|}.

(** ** The preset styles *)

(** The keyword arguments of a call; [None] is a keyword that is not
    given.  For [heading_colors] and [footer_text], [Some None] is the
    keyword given as [None]. *)
Record kwargs := {
  kw_style : option DocumentStyle;
  kw_paper_size : option PaperSize;
  kw_author : option str;
  kw_date : option str;
  kw_heading_colors : option (option (list (Z * color_value)));
  kw_footer_text : option (option footer_value);
  kw_font_name : option str;
  kw_base_font_size : option Z;
  kw_margins : option (list number);
  kw_line_spacing : option number;
  kw_generate_toc : option bool;
  kw_language : option str;
  kw_center_title : option bool
}.

(** [d.update(kw)]: the keywords of [kw] replace those of [d]. *)
Definition update (d kw : kwargs) : kwargs := {|
  kw_style := kw_style kw ∪ kw_style d;
  kw_paper_size := kw_paper_size kw ∪ kw_paper_size d;
  kw_author := kw_author kw ∪ kw_author d;
  kw_date := kw_date kw ∪ kw_date d;
  kw_heading_colors := kw_heading_colors kw ∪ kw_heading_colors d;
  kw_footer_text := kw_footer_text kw ∪ kw_footer_text d;
  kw_font_name := kw_font_name kw ∪ kw_font_name d;
  kw_base_font_size := kw_base_font_size kw ∪ kw_base_font_size d;
  kw_margins := kw_margins kw ∪ kw_margins d;
  kw_line_spacing := kw_line_spacing kw ∪ kw_line_spacing d;
  kw_generate_toc := kw_generate_toc kw ∪ kw_generate_toc d;
  kw_language := kw_language kw ∪ kw_language d;
  kw_center_title := kw_center_title kw ∪ kw_center_title d
|}.

(** [cls( **kw )]: a keyword that is not given takes the default of the
    signature of [__init__]. *)
Definition call_init (kw : kwargs) : result DocumentConfig :=
  DocumentConfig_init {|
    arg_style := default (arg_style default_args) (kw_style kw);
    arg_paper_size := default (arg_paper_size default_args) (kw_paper_size kw);
    arg_author := default (arg_author default_args) (kw_author kw);
    arg_date := default (arg_date default_args) (kw_date kw);
    arg_heading_colors :=
      default (arg_heading_colors default_args) (kw_heading_colors kw);
    arg_footer_text :=
      default (arg_footer_text default_args) (kw_footer_text kw);
    arg_font_name := default (arg_font_name default_args) (kw_font_name kw);
    arg_base_font_size :=
      default (arg_base_font_size default_args) (kw_base_font_size kw);
    arg_margins := default (arg_margins default_args) (kw_margins kw);
    arg_line_spacing :=
      default (arg_line_spacing default_args) (kw_line_spacing kw);
    arg_generate_toc :=
      default (arg_generate_toc default_args) (kw_generate_toc kw);
    arg_language := default (arg_language default_args) (kw_language kw);
    arg_center_title :=
      default (arg_center_title default_args) (kw_center_title kw)
  |}.

Definition REPORT_FOOTER : footer_value :=
  FooterDict (<[lit "odd" := lit "Right text | Page"]>
                (<[lit "even" := lit "Page | Left text"]> ∅)).

Definition NOTE_FOOTER : footer_value :=
  FooterDict (<[lit "odd" := lit "Internal Note | Page"]>
                (<[lit "even" := lit "Page | Internal Note"]> ∅)).

Definition NOTE_COLORS : list (Z * color_value) :=
  [(1, ColorTuple [70; 70; 70]);
   (2, ColorTuple [100; 100; 100]);
   (3, ColorTuple [130; 130; 130])].

(** The float [1.5]. *)
Definition ONE_AND_A_HALF : number := Finite (3 * Float.SCALE / 2).

Definition create_report_style (kw : kwargs) : result DocumentConfig :=
  let default_config := {|
    kw_style := Some REPORT;
    kw_paper_size := Some LETTER;
    kw_author := None; kw_date := None;
    kw_heading_colors := Some (Some default_heading_colors);
    kw_footer_text := Some (Some REPORT_FOOTER);
    kw_font_name := None; kw_base_font_size := None; kw_margins := None;
    kw_line_spacing := None; kw_generate_toc := None; kw_language := None;
    kw_center_title := Some true
  |} in
  call_init (update default_config kw).

Definition create_note_style (kw : kwargs) : result DocumentConfig :=
  let default_config := {|
    kw_style := Some NOTE;
    kw_paper_size := Some LEGAL;
    kw_author := None; kw_date := None;
    kw_heading_colors := Some (Some NOTE_COLORS);
    kw_footer_text := Some (Some NOTE_FOOTER);
    kw_font_name := None; kw_base_font_size := None;
    kw_margins := Some [ONE_AND_A_HALF; ONE_AND_A_HALF; ONE_AND_A_HALF;
                        ONE_AND_A_HALF];
    kw_line_spacing := None; kw_generate_toc := None; kw_language := None;
    kw_center_title := Some true
  |} in
  call_init (update default_config kw).

(** ** Title extraction *)

(** The [for line in lines] loop of [_extract_title_from_markdown]. *)
Fixpoint first_h1 (lines : list str) : option str :=
  match lines with
  | [] => None
  | line :: rest =>
      if startswith line (lit "# ") then Some (strip (drop 2 line))
      else first_h1 rest
  end.

Definition _extract_title_from_markdown (content : str) : str :=
  match first_h1 (split NEWLINE content) with
  | Some title => title
  | None => lit "Untitled Document"
  end.

(** ** Image references in the Markdown source *)

(** [IMAGE_PATTERN = re.compile(r'!\[(.*?)\]\((.*?)\)')], matched by
    backtracking as [re] does.  [.] is any code point but a newline and
    [*?] tries the rest of the pattern before it takes one more. *)

(** [(.*?)\)]: the path group and the closing parenthesis.  [acc] is the
    group so far, reversed. *)
Fixpoint match_path (acc s : str) : option (str * str) :=
  match s with
  | [] => None
  | c :: s' =>
      if (c =? 41)%N then Some (rev acc, s')
      else if (c =? NEWLINE)%N then None
      else match_path (c :: acc) s'
  end.

(** [(.*?)\]\((.*?)\)]: the alt group and what follows it. *)
Fixpoint match_alt (acc s : str) : option (str * str * str) :=
  let rest_of_pattern :=
    match s with
    | 93%N :: 40%N :: s2 =>
        match match_path [] s2 with
        | Some (path, rest) => Some (rev acc, path, rest)
        | None => None
        end
    | _ => None
    end in
  match rest_of_pattern with
  | Some m => Some m
  | None =>
      match s with
      | [] => None
      | c :: s' =>
          if (c =? NEWLINE)%N then None else match_alt (c :: acc) s'
      end
  end.

(** [IMAGE_PATTERN.match(s)]: the groups and the text after the match. *)
Definition match_here (s : str) : option (str * str * str) :=
  match s with
  | 33%N :: 91%N :: s1 => match_alt [] s1
  | _ => None
  end.

(** The text a match with these groups spans. *)
Definition markup (alt path : str) : str :=
  lit "![" ++ alt ++ lit "](" ++ path ++ lit ")".

Definition inspect {A} (a : A) : {b | a = b} := exist _ a eq_refl.

(** Replace every literal by its code points. *)
Ltac lit_norm :=
  repeat match goal with
    | |- context [lit ?s] =>
        let v := eval vm_compute in (lit s) in change (lit s) with v
    | H : context [lit ?s] |- _ =>
        let v := eval vm_compute in (lit s) in change (lit s) with v in H
    end.

Lemma match_path_spec acc s path rest :
  match_path acc s = Some (path, rest) →
  ∃ p, path = rev acc ++ p ∧ s = p ++ lit ")" ++ rest.
Proof.
  lit_norm.
  revert acc. induction s as [|c s IH]; intros acc; simpl; [done|].
  destruct (N.eqb_spec c 41) as [->|Hc].
  - intros [= <- <-]. exists []. by rewrite app_nil_r.
  - destruct (c =? NEWLINE)%N; [done|]. intros H.
    destruct (IH _ H) as (p & -> & ->). exists (c :: p).
    simpl. by rewrite <- app_assoc.
Qed.

Lemma match_alt_spec acc s alt path rest :
  match_alt acc s = Some (alt, path, rest) →
  ∃ a, alt = rev acc ++ a ∧ s = a ++ lit "](" ++ path ++ lit ")" ++ rest.
Proof.
  lit_norm.
  revert acc. induction s as [|c s IH]; intros acc; [done|].
  cbn [match_alt].
  destruct (match c :: s with
            | 93%N :: 40%N :: s2 =>
                match match_path [] s2 with
                | Some (path, rest) => Some (rev acc, path, rest)
                | None => None
                end
            | _ => None
            end) as [[[a p] r]|] eqn:Hrest.
  - intros [= -> -> ->]. exists [].
    destruct c as [|c]; [done|].
    repeat (destruct c as [c|c|]; try done).
    destruct s as [|d s]; [done|]. destruct d as [|d]; [done|].
    repeat (destruct d as [d|d|]; try done).
    destruct (match_path [] s) as [[p' r']|] eqn:Hp; [|done].
    injection Hrest as <- <- <-.
    apply match_path_spec in Hp as (q & -> & ->).
    lit_norm. by rewrite app_nil_r.
  - destruct (c =? NEWLINE)%N; [done|]. intros H.
    destruct (IH _ H) as (a & -> & ->). exists (c :: a).
    simpl. by rewrite <- app_assoc.
Qed.

Lemma match_here_spec s alt path rest :
  match_here s = Some (alt, path, rest) → s = markup alt path ++ rest.
Proof.
  unfold match_here, markup. intros H.
  destruct s as [|c s]; [done|]. destruct c as [|c]; [done|].
  repeat (destruct c as [c|c|]; try done).
  destruct s as [|d s]; [done|]. destruct d as [|d]; [done|].
  repeat (destruct d as [d|d|]; try done).
  apply match_alt_spec in H as (a & -> & ->). lit_norm. simpl.
  by repeat (rewrite <- app_assoc; simpl).
Qed.

Lemma match_here_length s alt path rest :
  match_here s = Some (alt, path, rest) → (length rest < length s)%nat.
Proof.
  intros H. rewrite (match_here_spec _ _ _ _ H).
  unfold markup. lit_norm. rewrite !length_app. simpl. lia.
Qed.

(** [IMAGE_PATTERN.findall(content)]: the groups of the non-overlapping
    matches, scanning left to right. *)
Equations? findall (s : str) : list (str * str) by wf (length s) lt :=
  findall s with inspect (match_here s) => {
    | exist _ (Some (alt, path, rest)) Hm := (alt, path) :: findall rest;
    | exist _ None _ with s => {
        | [] := [];
        | _ :: s' := findall s' } }.
Proof.
  - by eapply match_here_length.
  - simpl. lia.
Qed.

Definition PLACEHOLDER : str := lit "[IMAGE_PLACEHOLDER]".

(** [IMAGE_PATTERN.sub(r'[IMAGE_PLACEHOLDER]', content)] *)
Equations? sub_placeholder (s : str) : str by wf (length s) lt :=
  sub_placeholder s with inspect (match_here s) => {
    | exist _ (Some (_, _, rest)) Hm := PLACEHOLDER ++ sub_placeholder rest;
    | exist _ None _ with s => {
        | [] := [];
        | c :: s' := c :: sub_placeholder s' } }.
Proof.
  - by eapply match_here_length.
  - simpl. lia.
Qed.

Record image_ref := {
  alt_text : str;
  path : str;
  original_markdown : str
}.

(** The body of the loop of [_extract_image_references] on one match. *)
Definition image_ref_of_match (m : str * str) : image_ref :=
  let '(alt_text, path) := m in
  let path := strip path in
  let path := if startswith path (lit "img/") then drop 4 path else path in
  {| alt_text := alt_text;
     path := path;
     original_markdown := lit "![" ++ alt_text ++ lit "](" ++ path ++ lit ")" |}.

Definition _extract_image_references {St} `{Logging St} (content : str)
  : M St (list image_ref) :=
  let matches := findall content in
  let image_refs :=
    foldl (λ image_refs m, image_refs ++ [image_ref_of_match m]) [] matches in
  log INFO (FoundImageReferences (length image_refs));;
  mret image_refs.

Definition _remove_image_references (content : str) : str :=
  sub_placeholder content.

(** ** The document object model *)

Inductive alignment := LEFT | CENTER | RIGHT.

(** The character formatting of a run or of a style; [None] is an
    attribute left as it was found. *)
Record font := {
  f_name : option str;
  f_size : option Z;              (* in points *)
  f_bold : option bool;
  f_italic : option bool;
  f_superscript : option bool;
  f_color : option (Z * Z * Z);
  f_lang : option str
}.

Definition plain_font : font := {|
  f_name := None; f_size := None; f_bold := None; f_italic := None;
  f_superscript := None; f_color := None; f_lang := None
|}.

(** A run: its text, the size in EMU of the picture it holds if any,
    and its formatting. *)
Record run := {
  r_text : str;
  r_picture : option (Z * Z);
  r_font : font
}.

Record paragraph := {
  p_style : string;               (* para.style.name *)
  p_runs : list run;
  p_alignment : option alignment;
  p_space_before : option Z;      (* in points *)
  p_space_after : option Z;
  p_line_spacing : option number
}.

(** [para.text] *)
Definition text (para : paragraph) : str := concat (r_text <$> p_runs para).

(** [para.clear()]: the content goes, the paragraph formatting stays. *)
Definition clear (para : paragraph) : paragraph := {|
  p_style := p_style para; p_runs := [];
  p_alignment := p_alignment para;
  p_space_before := p_space_before para;
  p_space_after := p_space_after para;
  p_line_spacing := p_line_spacing para
|}.

(** [para.add_run(...)] followed by the assignments to the new run. *)
Definition add_run (para : paragraph) (r : run) : paragraph := {|
  p_style := p_style para; p_runs := p_runs para ++ [r];
  p_alignment := p_alignment para;
  p_space_before := p_space_before para;
  p_space_after := p_space_after para;
  p_line_spacing := p_line_spacing para
|}.

Definition text_run (s : str) : run :=
  {| r_text := s; r_picture := None; r_font := plain_font |}.

(** [para.text = s] *)
Definition set_text (para : paragraph) (s : str) : paragraph :=
  add_run (clear para) (text_run s).

Definition set_alignment (para : paragraph) (a : alignment) : paragraph := {|
  p_style := p_style para; p_runs := p_runs para;
  p_alignment := Some a;
  p_space_before := p_space_before para;
  p_space_after := p_space_after para;
  p_line_spacing := p_line_spacing para
|}.

Definition set_style (para : paragraph) (name : string) : paragraph := {|
  p_style := name; p_runs := p_runs para;
  p_alignment := p_alignment para;
  p_space_before := p_space_before para;
  p_space_after := p_space_after para;
  p_line_spacing := p_line_spacing para
|}.

(** ** Image insertion *)

(** [Inches(n)] for an [int]: a length in EMU. *)
Definition Inches (inches : Z) : Z := inches * 914400.

Definition MAX_IMAGE_WIDTH : Z := Inches 6.

(** The resize step of [_insert_single_image] on the natural size of the
    picture: the new width and height. *)
Definition resize (width height : Z) : Z * Z :=
  if MAX_IMAGE_WIDTH <? width then
    let aspect_ratio := Float.truediv height width in
    let width := MAX_IMAGE_WIDTH in
    let height := Float.to_int (Float.mul (Float.of_int width) aspect_ratio) in
    (width, height)
  else (width, height).

(** The files the converter looks at, paths being the strings they print
    as.  [file_exists] is what [path.exists()] answers, or [None] where it
    raises [OSError] instead, as it does for a name the file system finds
    too long; [add_picture] is the natural size [run.add_picture] gives
    the picture, or [None] where it raises. *)
Record image_files := {
  joinpath : str → str → str;          (* directory / name *)
  file_exists : str → option bool;     (* path.exists() *)
  suffix_supported : str → bool;       (* path.suffix.lower() in SUPPORTED_IMAGE_EXTENSIONS *)
  add_picture : str → option (Z * Z)
}.

(** The characters a text of the document may hold: the library makes
    elements of their own of tabs and line ends and hands the rest to
    [lxml], which refuses NUL and the other control characters, the
    surrogates, U+FFFE and U+FFFF. *)
Definition xml_char (c : N) : bool :=
  ((c =? 9) || (c =? 10) || (c =? 13)
   || (32 <=? c) && negb ((55296 <=? c) && (c <=? 57343))
      && negb ((c =? 65534) || (c =? 65535)))%N.

Definition xml_compatible (s : str) : bool := forallb xml_char s.

(** What [para.text] reads once [s] is stored: a carriage return has
    become a line break. *)
Definition line_breaks (s : str) : str :=
  (λ c, if (c =? 13)%N then NEWLINE else c) <$> s.

(** [para.text = s] as the library has it: [ValueError] for a text it
    refuses. *)
Definition assign_text {St} (para : paragraph) (s : str) : M St paragraph :=
  if xml_compatible s then mret (set_text para (line_breaks s))
  else raise ValueError.

Definition _insert_single_image {St} `{Logging St} (E : image_files)
    (para : paragraph) (image_refs : list image_ref) (img_dir : str)
  : M St (paragraph * list image_ref) :=
  match image_refs with
  | [] => raise IndexError          (* image_refs.pop(0) *)
  | img_ref :: image_refs =>
      let image_path := joinpath E img_dir (path img_ref) in
      (if negb (suffix_supported E image_path)
       then log WARNING UnsupportedImageFormat else mret tt);;
      log INFO ProcessingImage;;
      match file_exists E image_path with
      | None => raise IOError         (* OSError, outside the [try] *)
      | Some true =>
          let para := clear para in
          match add_picture E image_path with
          | Some (width, height) =>
              let picture := resize width height in
              let para :=
                add_run para {| r_text := []; r_picture := Some picture;
                                r_font := plain_font |} in
              let para := set_alignment para CENTER in
              log INFO (AddedImage (path img_ref));;
              mret (para, image_refs)
          | None =>
              let para := add_run para (text_run []) in
              log ERROR (ErrorAddingImage (path img_ref));;
              para ← assign_text para
                       (lit "[Image: " ++ alt_text img_ref ++ lit "]");
              mret (para, image_refs)
          end
      | Some false =>
          log WARNING ImageNotFound;;
          para ← assign_text para
                   (lit "[Image not found: " ++ alt_text img_ref ++ lit "]");
          mret (para, image_refs)
      end
  end.

Definition DEFAULT_TITLE_SIZE : Z := 24.
Definition DEFAULT_HEADING_1_SIZE : Z := 18.
Definition DEFAULT_HEADING_2_SIZE : Z := 16.
Definition DEFAULT_HEADING_3_SIZE : Z := 14.
Definition DEFAULT_TABLE_FONT_SIZE : Z := 10.
Definition DEFAULT_FOOTNOTE_FONT_SIZE : Z := 10.
Definition DEFAULT_PARAGRAPH_SPACING : Z := 6.
Definition DEFAULT_TABLE_CELL_SPACING : Z := 2.

(** [_set_language_for_run]: the [w:lang] elements of the run properties
    are replaced by one for the configured language. *)
Definition _set_language_for_run (cfg : DocumentConfig) (f : font) : font := {|
  f_name := f_name f; f_size := f_size f; f_bold := f_bold f;
  f_italic := f_italic f; f_superscript := f_superscript f;
  f_color := f_color f; f_lang := Some (language cfg)
|}.

Definition set_font_name_size (name : str) (size : Z) (f : font) : font := {|
  f_name := Some name; f_size := Some size; f_bold := f_bold f;
  f_italic := f_italic f; f_superscript := f_superscript f;
  f_color := f_color f; f_lang := f_lang f
|}.

Definition set_bold (b : bool) (f : font) : font := {|
  f_name := f_name f; f_size := f_size f; f_bold := Some b;
  f_italic := f_italic f; f_superscript := f_superscript f;
  f_color := f_color f; f_lang := f_lang f
|}.

Definition map_font (g : font → font) (r : run) : run :=
  {| r_text := r_text r; r_picture := r_picture r; r_font := g (r_font r) |}.

Definition set_spacing (para : paragraph) (before after : Z)
    (line_spacing : number) : paragraph := {|
  p_style := p_style para; p_runs := p_runs para;
  p_alignment := p_alignment para;
  p_space_before := Some before;
  p_space_after := Some after;
  p_line_spacing := Some line_spacing
|}.

Definition map_runs (g : run → run) (para : paragraph) : paragraph := {|
  p_style := p_style para; p_runs := g <$> p_runs para;
  p_alignment := p_alignment para;
  p_space_before := p_space_before para;
  p_space_after := p_space_after para;
  p_line_spacing := p_line_spacing para
|}.

Definition _format_normal_paragraph (cfg : DocumentConfig) (para : paragraph)
  : paragraph :=
  let para := set_spacing para DEFAULT_PARAGRAPH_SPACING
                DEFAULT_PARAGRAPH_SPACING (line_spacing cfg) in
  map_runs (map_font (λ f, _set_language_for_run cfg
                             (set_font_name_size (font_name cfg)
                                (base_font_size cfg) f))) para.

(** The loop of [_process_paragraphs_and_images] over [doc.paragraphs];
    [image_refs] is the list the calls of [_insert_single_image] pop. *)
Fixpoint process_paragraphs {St} `{Logging St} (E : image_files)
    (cfg : DocumentConfig) (img_dir : str)
    (paragraphs : list paragraph) (image_refs : list image_ref)
  : M St (list paragraph * list image_ref) :=
  match paragraphs with
  | [] => mret ([], image_refs)
  | para :: rest =>
      '(para, image_refs) ←
        (if contains PLACEHOLDER (text para)
            && negb (bool_decide (image_refs = []))
         then _insert_single_image E para image_refs img_dir
         else if bool_decide (p_style para ∈
                   ["Title"; "Heading 1"; "Heading 2"; "Heading 3"]%string)
         then mret (para, image_refs)
         else if bool_decide (p_style para = "Normal"%string)
         then mret (_format_normal_paragraph cfg para, image_refs)
         else mret (para, image_refs));
      '(rest, image_refs) ← process_paragraphs E cfg img_dir rest image_refs;
      mret (para :: rest, image_refs)
  end.

(** ** Tables *)

(** An [lxml] element. *)
#[warnings="-register-all"]
Inductive element :=
| Element (tag : string) (attrib : list (string * string))
    (children : list element).

Definition tag_of (e : element) : string :=
  let 'Element tag _ _ := e in tag.

Definition children_of (e : element) : list element :=
  let 'Element _ _ children := e in children.

Definition attrib_of (e : element) : list (string * string) :=
  let 'Element _ attrib _ := e in attrib.

(** [e.find(tag)]: the first child with this tag. *)
Definition find (tag : string) (e : element) : option element :=
  List.find (λ c, bool_decide (tag_of c = tag)) (children_of e).

(** [e.append(child)] *)
Definition append (e : element) (child : element) : element :=
  let 'Element tag attrib children := e in
  Element tag attrib (children ++ [child]).

(** A table cell ([w:tc]): its properties element [w:tcPr], which comes
    first when there is one, and the paragraphs of the cell. *)
Record cell := {
  tcPr : option element;
  c_paragraphs : list paragraph
}.

(** [tc.get_or_add_tcPr()]: the cell with a properties element, and that
    element. *)
Definition get_or_add_tcPr (c : cell) : cell * element :=
  match tcPr c with
  | Some e => (c, e)
  | None =>
      let e := Element "w:tcPr" [] [] in
      ({| tcPr := Some e; c_paragraphs := c_paragraphs c |}, e)
  end.

(** The [w:top], [w:left], [w:bottom] or [w:right] child of [w:tcBorders]. *)
Definition border_edge (border : string) : element :=
  Element ("w:" +:+ border)
    [("w:val", "single"); ("w:sz", "4"); ("w:space", "0");
     ("w:color", "auto")]%string [].

Definition new_tcBorders : element :=
  foldl (λ tcBorders border, append tcBorders (border_edge border))
    (Element "w:tcBorders" [] []) ["top"; "left"; "bottom"; "right"]%string.

Definition _set_cell_borders (c : cell) : cell :=
  let '(c, tcPr_elt) := get_or_add_tcPr c in
  match find "w:tcBorders" tcPr_elt with
  | Some _ => c
  | None =>
      {| tcPr := Some (append tcPr_elt new_tcBorders);
         c_paragraphs := c_paragraphs c |}
  end.

Definition _format_table_cell (cfg : DocumentConfig) (is_header : bool)
    (c : cell) : cell :=
  let cell_font f :=
    let f := set_font_name_size (font_name cfg) DEFAULT_TABLE_FONT_SIZE f in
    if is_header then set_bold true f else f in
  let format para :=
    let para := map_runs (map_font (λ f, _set_language_for_run cfg
                                           (cell_font f))) para in
    let para :=
      match p_runs para with
      | [] => add_run para (map_font cell_font (text_run []))
      | _ => para
      end in
    set_spacing para DEFAULT_TABLE_CELL_SPACING DEFAULT_TABLE_CELL_SPACING
      (Finite Float.SCALE) in
  {| tcPr := tcPr c; c_paragraphs := format <$> c_paragraphs c |}.

(** The body of the loop of [_process_tables] on one table. *)
Definition process_table (cfg : DocumentConfig) (rows : list (list cell))
  : list (list cell) :=
  let rows : list (list cell) :=
    match rows with
    | [] => []
    | header :: rest => (_format_table_cell cfg true <$> header) :: rest
    end in
  (λ row : list cell,
     (λ c, _set_cell_borders (_format_table_cell cfg false c)) <$> row)
    <$> rows.

(** ** Styles and post-processing *)

Record docx_style := {
  st_font : font;
  st_space_before : option Z;
  st_space_after : option Z;
  st_line_spacing : option number;
  st_base_style : option string;
  st_numPr : bool                   (* a [w:numPr] in the style's [w:pPr] *)
}.

Record page_section := {
  page_width : Z;
  page_height : Z;
  top_margin : Z;
  right_margin : Z;
  bottom_margin : Z;
  left_margin : Z
}.

Record document := {
  d_styles : gmap string docx_style;
  d_default_lang : option str;
  d_sections : list page_section;
  d_paragraphs : list paragraph;
  d_tables : list (list (list cell));     (* tables, rows, cells *)
  d_footnotes : option (list paragraph)   (* the footnotes part, if any *)
}.

(** The document being post-processed and the records logged so far. *)
Record docx_state := {
  the_doc : document;
  the_log : list log_record
}.

#[export] Instance docx_logging : Logging docx_state :=
  λ r s, {| the_doc := the_doc s; the_log := the_log s ++ [r] |}.

Definition modify_doc (f : document → document) : M docx_state unit :=
  modify (λ s, {| the_doc := f (the_doc s); the_log := the_log s |}).

Definition with_styles (f : gmap string docx_style → gmap string docx_style)
    (doc : document) : document := {|
  d_styles := f (d_styles doc); d_default_lang := d_default_lang doc;
  d_sections := d_sections doc; d_paragraphs := d_paragraphs doc;
  d_tables := d_tables doc; d_footnotes := d_footnotes doc
|}.

Definition with_paragraphs (f : list paragraph → list paragraph)
    (doc : document) : document := {|
  d_styles := d_styles doc; d_default_lang := d_default_lang doc;
  d_sections := d_sections doc; d_paragraphs := f (d_paragraphs doc);
  d_tables := d_tables doc; d_footnotes := d_footnotes doc
|}.

(** [doc.styles[name]]: [KeyError] when there is no such style. *)
Definition lookup_style (name : string) : M docx_state docx_style :=
  s ← get;
  match d_styles (the_doc s) !! name with
  | Some st => mret st
  | None => raise (KeyError name)
  end.

(** An assignment to an attribute of the style object [doc.styles[name]]. *)
Definition update_style (name : string) (f : docx_style → docx_style)
  : M docx_state unit :=
  modify_doc (with_styles (alter f name)).

Definition with_font (g : font → font) (st : docx_style) : docx_style := {|
  st_font := g (st_font st);
  st_space_before := st_space_before st; st_space_after := st_space_after st;
  st_line_spacing := st_line_spacing st; st_base_style := st_base_style st;
  st_numPr := st_numPr st
|}.

Definition set_italic (b : bool) (f : font) : font := {|
  f_name := f_name f; f_size := f_size f; f_bold := f_bold f;
  f_italic := Some b; f_superscript := f_superscript f;
  f_color := f_color f; f_lang := f_lang f
|}.

Definition set_superscript (b : bool) (f : font) : font := {|
  f_name := f_name f; f_size := f_size f; f_bold := f_bold f;
  f_italic := f_italic f; f_superscript := Some b;
  f_color := f_color f; f_lang := f_lang f
|}.

Definition set_color (rgb : Z * Z * Z) (f : font) : font := {|
  f_name := f_name f; f_size := f_size f; f_bold := f_bold f;
  f_italic := f_italic f; f_superscript := f_superscript f;
  f_color := Some rgb; f_lang := f_lang f
|}.

Definition set_style_spacing (before after : Z) (line_spacing : number)
    (st : docx_style) : docx_style := {|
  st_font := st_font st;
  st_space_before := Some before; st_space_after := Some after;
  st_line_spacing := Some line_spacing; st_base_style := st_base_style st;
  st_numPr := st_numPr st
|}.

(** [style.base_style = None] and the removal of the [w:numPr] element. *)
Definition unlink_heading (st : docx_style) : docx_style := {|
  st_font := st_font st;
  st_space_before := st_space_before st; st_space_after := st_space_after st;
  st_line_spacing := st_line_spacing st; st_base_style := None;
  st_numPr := false
|}.

(** One entry of the dictionaries [_configure_standard_styles] and
    [_configure_heading_styles] build; ['color'] and ['italic'] are keys
    only the heading entries have. *)
Record style_config := {
  sc_font_size : Z;
  sc_font_name : str;
  sc_bold : bool;
  sc_space_before : Z;
  sc_space_after : Z;
  sc_line_spacing : number;
  sc_color : option color_value;
  sc_italic : option bool
}.

(** [RGBColor] applied to the unpacked color. *)
Definition RGBColor (color : color_value) : result (Z * Z * Z) :=
  match color with
  | ColorTuple [r; g; b] =>
      if forallb (λ c, (0 <=? c) && (c <=? 255)) [r; g; b]
      then Ok (r, g, b) else Raise ValueError
  | _ => Raise TypeError
  end.

Definition is_KeyError (e : exn) : bool :=
  match e with KeyError _ => true | _ => false end.

(** The body of the loop of [_apply_style_configurations]. *)
Definition apply_style_configuration (is_heading : bool) (style_name : string)
    (config : style_config) : M docx_state unit :=
  try_except
    (lookup_style style_name;;
     update_style style_name
       (with_font (set_font_name_size (sc_font_name config)
                     (sc_font_size config)));;
     update_style style_name (with_font (set_bold (sc_bold config)));;
     (if default false (sc_italic config)
      then update_style style_name (with_font (set_italic true))
      else mret tt);;
     match sc_color config with
     | Some color =>
         match RGBColor color with
         | Ok rgb => update_style style_name (with_font (set_color rgb))
         | Raise e => raise e
         end
     | None => mret tt
     end;;
     update_style style_name
       (set_style_spacing (sc_space_before config) (sc_space_after config)
          (sc_line_spacing config));;
     if is_heading then update_style style_name unlink_heading else mret tt)
    is_KeyError
    (λ _, log WARNING (StyleNotFound style_name)).

Fixpoint _apply_style_configurations (styles_config : list (string * style_config))
    (is_heading : bool) : M docx_state unit :=
  match styles_config with
  | [] => mret tt
  | (style_name, config) :: rest =>
      apply_style_configuration is_heading style_name config;;
      _apply_style_configurations rest is_heading
  end.

(** The float [1.0]. *)
Definition ONE : number := Finite Float.SCALE.

Definition _configure_standard_styles (cfg : DocumentConfig)
  : M docx_state unit :=
  _apply_style_configurations
    [("Normal"%string,
      {| sc_font_size := base_font_size cfg; sc_font_name := font_name cfg;
         sc_bold := false; sc_space_before := 0; sc_space_after := 0;
         sc_line_spacing := line_spacing cfg;
         sc_color := None; sc_italic := None |});
     ("Title"%string,
      {| sc_font_size := DEFAULT_TITLE_SIZE; sc_font_name := font_name cfg;
         sc_bold := true; sc_space_before := 12; sc_space_after := 12;
         sc_line_spacing := ONE;
         sc_color := None; sc_italic := None |})]
    false.

(** [self.config.heading_colors.get(level, (0, 0, 0))] *)
Fixpoint heading_color (colors : list (Z * color_value)) (level : Z)
  : color_value :=
  match colors with
  | [] => ColorTuple [0; 0; 0]
  | (l, c) :: rest => if l =? level then c else heading_color rest level
  end.

Definition _configure_heading_styles (cfg : DocumentConfig)
  : M docx_state unit :=
  let heading size before after level italic :=
    {| sc_font_size := size; sc_font_name := font_name cfg;
       sc_bold := true; sc_space_before := before; sc_space_after := after;
       sc_line_spacing := ONE;
       sc_color := Some (heading_color (heading_colors cfg) level);
       sc_italic := Some italic |} in
  _apply_style_configurations
    [("Heading 1"%string, heading DEFAULT_HEADING_1_SIZE 18 12 1 false);
     ("Heading 2"%string, heading DEFAULT_HEADING_2_SIZE 16 10 2 false);
     ("Heading 3"%string, heading DEFAULT_HEADING_3_SIZE 14 8 3 true)]
    true.

Definition _set_document_language (cfg : DocumentConfig) : M docx_state unit :=
  modify_doc (λ doc, {|
    d_styles := d_styles doc; d_default_lang := Some (language cfg);
    d_sections := d_sections doc; d_paragraphs := d_paragraphs doc;
    d_tables := d_tables doc; d_footnotes := d_footnotes doc |}).

(** [Inches(n / d)] for the decimal literal [n / d]. *)
Definition Inches_literal (n d : Z) : Z :=
  Float.to_int (Float.mul (Float.round (n * Float.SCALE) d)
                  (Float.of_int 914400)).

(** [Cm(x)]: [int(x * 360000)]. *)
Definition Cm (x : number) : result Z :=
  match x with
  | Int z => Ok (z * 360000)
  | Finite u =>
      let emu := Float.to_int (Float.mul (Z.abs u) (Float.of_int 360000)) in
      Ok (if u <? 0 then - emu else emu)
  | Infinity _ => Raise OtherError        (* OverflowError *)
  | NaN => Raise ValueError
  end.

(** [Cm(self.config.margins[i])] *)
Definition margin (cfg : DocumentConfig) (i : nat) : result Z :=
  match margins cfg !! i with
  | Some x => Cm x
  | None => Raise IndexError
  end.

(** The body of the loop of [_configure_section_properties]. *)
Definition configure_section (cfg : DocumentConfig) (_ : page_section)
  : result page_section :=
  let '(width, height) :=
    match paper_size cfg with
    | LETTER => (Inches_literal 85 10, Inches 11)
    | LEGAL => (Inches_literal 85 10, Inches 14)
    | A4 => (Inches_literal 827 100, Inches_literal 1169 100)
    end in
  match margin cfg 0, margin cfg 1, margin cfg 2, margin cfg 3 with
  | Ok mt, Ok mr, Ok mb, Ok ml =>
      Ok {| page_width := width; page_height := height;
            top_margin := mt; right_margin := mr;
            bottom_margin := mb; left_margin := ml |}
  | Raise e, _, _, _ | Ok _, Raise e, _, _
  | Ok _, Ok _, Raise e, _ | Ok _, Ok _, Ok _, Raise e => Raise e
  end.

Fixpoint configure_sections (cfg : DocumentConfig) (sections : list page_section)
  : result (list page_section) :=
  match sections with
  | [] => Ok []
  | s :: rest =>
      match configure_section cfg s with
      | Raise e => Raise e
      | Ok s =>
          match configure_sections cfg rest with
          | Raise e => Raise e
          | Ok rest => Ok (s :: rest)
          end
      end
  end.

(** The sections are stored back when the loop completes: a document
    whose post-processing raises is not saved. *)
Definition _configure_section_properties (cfg : DocumentConfig)
  : M docx_state unit :=
  s ← get;
  match configure_sections cfg (d_sections (the_doc s)) with
  | Raise e => raise e
  | Ok sections =>
      modify_doc (λ doc, {|
        d_styles := d_styles doc; d_default_lang := d_default_lang doc;
        d_sections := sections; d_paragraphs := d_paragraphs doc;
        d_tables := d_tables doc; d_footnotes := d_footnotes doc |})
  end.

Definition _apply_global_styles (cfg : DocumentConfig) : M docx_state unit :=
  _set_document_language cfg;;
  _configure_standard_styles cfg;;
  _configure_heading_styles cfg;;
  _configure_section_properties cfg.

(** The paragraph object at index [i] takes the value [para]. *)
Definition set_paragraph (i : nat) (para : paragraph) : M docx_state unit :=
  modify_doc (with_paragraphs (<[i := para]>)).

(** The loop of [_style_main_title] from index [i] on; [title_index] is
    [None] as long as [title_found] is false. *)
Fixpoint style_main_title_loop (cfg : DocumentConfig) (document_title : str)
    (paragraphs : list paragraph) (i : nat) (title_index : option nat)
  : M docx_state unit :=
  match paragraphs with
  | [] => mret tt
  | para :: rest =>
      match title_index with
      | None =>
          if bool_decide (text para = document_title) then
            lookup_style "Title";;
            let para := set_style para "Title" in
            let para :=
              add_run (clear para)
                (map_font (λ f, set_bold true
                                  (set_font_name_size (font_name cfg)
                                     DEFAULT_TITLE_SIZE f))
                   (text_run document_title)) in
            let para :=
              if center_title cfg then set_alignment para CENTER else para in
            set_paragraph i para;;
            style_main_title_loop cfg document_title rest (S i) (Some i)
          else style_main_title_loop cfg document_title rest (S i) None
      | Some t =>
          if bool_decide (i = (t + 1)%nat ∨ i = (t + 2)%nat) then
            let para :=
              add_run (clear para)
                (map_font (λ f, set_bold false
                                  (set_font_name_size (font_name cfg)
                                     (base_font_size cfg) f))
                   (text_run (text para))) in
            let para :=
              if center_title cfg then set_alignment para CENTER else para in
            set_paragraph i para;;
            style_main_title_loop cfg document_title rest (S i) (Some t)
          else if bool_decide (t + 2 < i)%nat then mret tt
          else style_main_title_loop cfg document_title rest (S i) (Some t)
      end
  end.

Definition _style_main_title (cfg : DocumentConfig) (document_title : str)
  : M docx_state unit :=
  s ← get;
  style_main_title_loop cfg document_title (d_paragraphs (the_doc s)) 0 None.

Definition _process_paragraphs_and_images (E : image_files)
    (cfg : DocumentConfig) (image_refs : list image_ref) (work_dir : str)
  : M docx_state (list image_ref) :=
  let img_dir := joinpath E work_dir (lit "img") in
  s ← get;
  '(paragraphs, image_refs) ←
    process_paragraphs E cfg img_dir (d_paragraphs (the_doc s)) image_refs;
  modify_doc (with_paragraphs (λ _, paragraphs));;
  mret image_refs.

Definition _process_tables (cfg : DocumentConfig) : M docx_state unit :=
  modify_doc (λ doc, {|
    d_styles := d_styles doc; d_default_lang := d_default_lang doc;
    d_sections := d_sections doc; d_paragraphs := d_paragraphs doc;
    d_tables := process_table cfg <$> d_tables doc;
    d_footnotes := d_footnotes doc |}).

(** [qn(tag)]: the name [prefix:tagroot] with its namespace, written here
    as the name itself, as the tags of the elements are; [ValueError]
    where the name does not split in two at its colon. *)
Definition qn (tag : str) : result str :=
  match split 58 tag with
  | [_; _] => Ok tag
  | _ => Raise ValueError
  end.

(** The body of the loop over the paragraphs of the footnotes: the
    f-string of the new spacing element evaluates [qn("w")] before the
    spacing is replaced and the runs get their language.  The empty
    properties element [get_or_add_pPr] may have added by then is nothing
    a [paragraph] shows. *)
Definition format_footnote_paragraph (cfg : DocumentConfig) (p : paragraph)
  : result paragraph :=
  match qn (lit "w") with
  | Raise e => Raise e
  | Ok _ =>
      Ok (map_runs (map_font (_set_language_for_run cfg))
            (set_spacing p 0 0 ONE))
  end.

Fixpoint format_footnote_paragraphs (cfg : DocumentConfig)
    (paragraphs : list paragraph) : result (list paragraph) :=
  match paragraphs with
  | [] => Ok []
  | p :: rest =>
      match format_footnote_paragraph cfg p with
      | Raise e => Raise e
      | Ok p =>
          match format_footnote_paragraphs cfg rest with
          | Raise e => Raise e
          | Ok rest => Ok (p :: rest)
          end
      end
  end.

Definition _process_footnotes (cfg : DocumentConfig) : M docx_state unit :=
  try_except
    (lookup_style "Footnote Text";;
     update_style "Footnote Text"
       (with_font (set_font_name_size (font_name cfg)
                     DEFAULT_FOOTNOTE_FONT_SIZE));;
     update_style "Footnote Text" (set_style_spacing 0 0 ONE);;
     lookup_style "Footnote Reference";;
     update_style "Footnote Reference"
       (with_font (λ f, set_superscript true
                          (set_font_name_size (font_name cfg)
                             DEFAULT_FOOTNOTE_FONT_SIZE f)));;
     update_style "Footnote Text" (with_font (_set_language_for_run cfg));;
     s ← get;
     match d_footnotes (the_doc s) with
     | None => mret ()
     | Some paragraphs =>
         match format_footnote_paragraphs cfg paragraphs with
         | Raise e => raise e
         | Ok paragraphs =>
             modify_doc (λ doc, {|
               d_styles := d_styles doc; d_default_lang := d_default_lang doc;
               d_sections := d_sections doc; d_paragraphs := d_paragraphs doc;
               d_tables := d_tables doc; d_footnotes := Some paragraphs |})
         end
     end)
    (λ _, true)
    (λ e, match e with
          | KeyError name => log WARNING (FootnoteStyleNotFound name)
          | _ => log WARNING FootnoteWarning
          end).

(** The two steps of post-processing left as parameters: no property
    below looks into the footers [_setup_footers] builds or into the file
    [doc.save] writes. *)
Record docx_library := {
  _setup_footers : DocumentConfig → M docx_state unit;
  save_succeeds : document → bool
}.

(** [_post_process_document] on the document [Document(doc_path)] loaded. *)
Definition _post_process_document (E : image_files) (L : docx_library)
    (cfg : DocumentConfig) (document_title : str)
    (image_refs : list image_ref) (work_dir : str) : M docx_state unit :=
  _apply_global_styles cfg;;
  _style_main_title cfg document_title;;
  _process_paragraphs_and_images E cfg image_refs work_dir;;
  _process_tables cfg;;
  _process_footnotes cfg;;
  _setup_footers L cfg;;
  s ← get;
  if save_succeeds L (the_doc s) then mret tt else raise IOError.

(** ** The conversion and its temporary files *)

(** How [open(path, 'w')] followed by [f.write] ends: the file exists as
    soon as it is opened. *)
Inductive write_outcome := Written | OpenFailed | WriteFailed.

(** How [subprocess.run(cmd, check=True, ...)] ends: exit status zero,
    another exit status, or no process at all. *)
Inductive pandoc_outcome := Completed | NonZeroExit | NotStarted.

(** The machine [convert] runs on.  Paths are the strings they print as;
    what the operating system and pandoc answer is a parameter. *)
Record system := {
  resolve_dir : option str → str;       (* Path(working_dir).resolve() or Path.cwd() *)
  resolve_in : str → str → str;         (* the resolved path of a file name *)
  path_join : str → str → str;          (* directory / name *)
  path_parent : str → str;              (* path.parent *)
  path_name : str → str;                (* path.name *)
  markdown_suffix : str → bool;         (* path.suffix.lower() in {'.md', '.markdown'} *)
  mkdir_succeeds : str → bool;
  read_text : str → option str;
  write_text : str → str → write_outcome;
  unlink_succeeds : str → bool;
  run_pandoc : str → str → str → str → gset str → pandoc_outcome * gset str;
  load_document : str → option document (* Document(doc_path) *)
}.

(** The paths that exist and the records logged so far. *)
Record world := {
  files : gset str;
  records : list log_record
}.

#[export] Instance world_logging : Logging world :=
  λ r w, {| files := files w; records := records w ++ [r] |}.

Definition modify_files (f : gset str → gset str) : M world unit :=
  modify (λ w, {| files := f (files w); records := records w |}).

(** [p.exists()] *)
Definition path_exists (p : str) : M world bool :=
  w ← get; mret (bool_decide (p ∈ files w)).

(** [with open(p, 'w') as f: f.write(content)] *)
Definition write_file (Sys : system) (p content : str) : M world unit :=
  match write_text Sys p content with
  | Written => modify_files (λ fs, {[p]} ∪ fs)
  | WriteFailed => modify_files (λ fs, {[p]} ∪ fs);; raise IOError
  | OpenFailed => raise IOError
  end.

(** [p.unlink()] on an existing path. *)
Definition unlink (Sys : system) (p : str) : M world unit :=
  if unlink_succeeds Sys p then modify_files (λ fs, fs ∖ {[p]})
  else raise OtherError.

Definition _setup_paths (Sys : system) (input_file output_file : str)
    (working_dir : option str) : M world (str * str * str) :=
  let work_dir := resolve_dir Sys working_dir in
  found ← path_exists work_dir;
  if negb found then raise FileNotFoundError
  else mret (work_dir, resolve_in Sys work_dir input_file,
             resolve_in Sys work_dir output_file).

Definition _create_image_directory (Sys : system) (work_dir : str)
  : M world str :=
  let img_dir := path_join Sys work_dir (lit "img") in
  found ← path_exists img_dir;
  (if negb found then
     if mkdir_succeeds Sys img_dir then
       modify_files (λ fs, {[img_dir]} ∪ fs);;
       log INFO CreatedImageDirectory
     else raise OtherError
   else mret tt);;
  mret img_dir.

Definition _read_markdown_content (Sys : system) (input_path : str)
  : M world str :=
  match read_text Sys input_path with
  | Some content => mret content
  | None => raise IOError
  end.

Definition _create_temp_markdown (Sys : system) (content work_dir input_path : str)
  : M world str :=
  let temp_content := _remove_image_references content in
  let temp_md :=
    path_join Sys work_dir (lit "temp_" ++ path_name Sys input_path) in
  write_file Sys temp_md temp_content;;
  mret temp_md.

Definition _cleanup_temp_markdown (Sys : system) (temp_md : str)
  : M world unit :=
  try_except (A := unit)
    (found ← path_exists temp_md;
     if (found : bool) then unlink Sys temp_md else mret tt)
    (λ _, true)
    (λ _, log WARNING CouldNotDeleteTempMarkdown).

(** The text of the Lua filter, its layout aside. *)
Definition LUA_SCRIPT : str :=
  lit "function Header(el) if el.level > 1 then el.level = el.level - 1 end return el end".

Definition _create_lua_script (Sys : system) (input_path : str) : M world str :=
  let lua_path :=
    path_join Sys (path_parent Sys input_path) (lit "adjust_headers.lua") in
  found ← path_exists lua_path;
  (if (found : bool) then log WARNING LuaScriptExists else mret tt);;
  write_file Sys lua_path LUA_SCRIPT;;
  mret lua_path.

Definition _cleanup_lua_script (Sys : system) (lua_path : str) : M world unit :=
  try_except (A := unit)
    (found ← path_exists lua_path;
     if (found : bool) then unlink Sys lua_path else mret tt)
    (λ _, true)
    (λ _, log WARNING CouldNotDeleteLua).

(** [subprocess.run] on the command [_build_pandoc_command] builds. *)
Definition subprocess_run (Sys : system) (input_path output_path title lua_path : str)
  : M world unit :=
  λ w,
    let '(outcome, fs) :=
      run_pandoc Sys input_path output_path title lua_path (files w) in
    let w := {| files := fs; records := records w |} in
    match outcome with
    | Completed => (Ok tt, w)
    | NonZeroExit => (Raise CalledProcessError, w)
    | NotStarted => (Raise OtherError, w)
    end.

(** The two [except] clauses of [_run_pandoc_conversion]. *)
Definition pandoc_handler (e : exn) : M world unit :=
  match e with
  | CalledProcessError => log ERROR PandocFailed;; raise RuntimeError
  | _ => log ERROR PandocError;; raise e
  end.

(** [lua_path] is still [None] in the [finally] clause when
    [_create_lua_script] raises, and there is nothing to clean up then. *)
Definition _run_pandoc_conversion (Sys : system) (input_path output_path title : str)
  : M world unit :=
  lua_path ← try_except (_create_lua_script Sys input_path) (λ _, true)
               (λ e, pandoc_handler e;; raise e);
  try_finally
    (try_except
       (subprocess_run Sys input_path output_path title lua_path;;
        log INFO PandocCompleted)
       (λ _, true) pandoc_handler)
    (_cleanup_lua_script Sys lua_path).

(** [_post_process_document] from the file at [doc_path]: the document is
    opened, processed and saved over the file it came from. *)
Definition post_process_file (Sys : system) (E : image_files) (L : docx_library)
    (cfg : DocumentConfig) (doc_path document_title : str)
    (image_refs : list image_ref) (work_dir : str) : M world unit :=
  λ w,
    if bool_decide (doc_path ∈ files w) then
      match load_document Sys doc_path with
      | Some doc =>
          let '(r, s) :=
            _post_process_document E L cfg document_title image_refs work_dir
              {| the_doc := doc; the_log := records w |} in
          (r, {| files := files w; records := the_log s |})
      | None => (Raise OtherError, w)
      end
    else (Raise OtherError, w).

Definition convert (Sys : system) (E : image_files) (L : docx_library)
    (cfg : DocumentConfig) (input_file output_file : str)
    (working_dir : option str) : M world unit :=
  '(work_dir, input_path, output_path) ←
    _setup_paths Sys input_file output_file working_dir;
  found ← path_exists input_path;
  if negb found then raise FileNotFoundError
  else
    (if negb (markdown_suffix Sys input_path)
     then log WARNING NotMarkdownFile else mret tt);;
    _create_image_directory Sys work_dir;;
    content ← _read_markdown_content Sys input_path;
    let document_title := _extract_title_from_markdown content in
    image_refs ← _extract_image_references content;
    temp_md ← _create_temp_markdown Sys content work_dir input_path;
    try_finally
      (_run_pandoc_conversion Sys temp_md output_path document_title;;
       post_process_file Sys E L cfg output_path document_title image_refs
         work_dir;;
       log INFO ConversionSuccessful)
      (_cleanup_temp_markdown Sys temp_md).

(** ** The vocabulary of the properties, and sample inputs *)

(** A heading color [_validate] lets through: three integers, each in
    [0..255]. *)
Definition is_rgb (color : color_value) : Prop :=
  ∃ r g b, color = ColorTuple [r; g; b] ∧
           0 <= r <= 255 ∧ 0 <= g <= 255 ∧ 0 <= b <= 255.


(** The texts around the image references and what stands between them,
    put together again: [texts] has one element more than [mids]. *)
Fixpoint weave (texts mids : list str) : str :=
  match texts with
  | [] => []
  | t :: texts =>
      match mids with
      | [] => t
      | m :: mids => t ++ m ++ weave texts mids
      end
  end.

(** A paragraph that holds an image placeholder. *)
Definition is_placeholder (para : paragraph) : bool :=
  contains PLACEHOLDER (text para).

(** How many paragraphs hold an image placeholder. *)
Definition placeholders (paragraphs : list paragraph) : nat :=
  length (filter (λ para, is_placeholder para) paragraphs).


(** A reference [_insert_single_image] gets through: looking for its
    file answers, and its alt text is text the document takes. *)
Definition resolves (E : image_files) (img_dir : str) (ref : image_ref)
  : Prop :=
  is_Some (file_exists E (joinpath E img_dir (path ref))) ∧
  xml_compatible (alt_text ref) = true.

(** A directory in which no image is found, one in which every image is
    broken, and the configuration [DocumentConfig()] builds. *)
Definition no_images : image_files := {|
  joinpath := λ dir name, dir ++ lit "/" ++ name;
  file_exists := λ _, Some false;
  suffix_supported := λ _, true;
  add_picture := λ _, None
|}.

(** A directory without images on a file system that finds a name of
    more than 255 characters too long to look for. *)
Definition long_names : image_files := {|
  joinpath := λ dir name, dir ++ lit "/" ++ name;
  file_exists :=
    λ p, if bool_decide (255 < length (default [] (last (split 47 p))))%nat
         then None else Some false;
  suffix_supported := λ _, true;
  add_picture := λ _, None
|}.


Definition default_config : DocumentConfig := {|
  style := REPORT; paper_size := LETTER; author := []; date := [];
  heading_colors := default_heading_colors;
  footer_text := default_footer_text;
  font_name := lit "Arial"; base_font_size := 12;
  margins := [Int 2; Int 2; Int 2; Int 2];
  line_spacing := ONE;
  generate_toc := true; language := lit "en-US"; center_title := true
|}.

Definition normal_paragraph (s : str) : paragraph := {|
  p_style := "Normal"; p_runs := [text_run s]; p_alignment := None;
  p_space_before := None; p_space_after := None; p_line_spacing := None
|}.

Definition bare_cell : cell := {| tcPr := None; c_paragraphs := [] |}.

Definition bordered_cell : cell :=
  {| tcPr := Some (Element "w:tcPr" [] [Element "w:tcBorders" [] []]);
     c_paragraphs := [] |}.

Definition plain_style : docx_style := {|
  st_font := plain_font; st_space_before := None; st_space_after := None;
  st_line_spacing := None; st_base_style := None; st_numPr := false
|}.

(** A document titled "Report" that has every style the converter
    configures but ['Title']. *)
Definition untitled_document : document := {|
  d_styles :=
    list_to_map
      ((λ name, (name, plain_style)) <$>
       ["Normal"; "Heading 1"; "Heading 2"; "Heading 3"; "Footnote Text";
        "Footnote Reference"]%string);
  d_default_lang := None;
  d_sections :=
    [{| page_width := 7772400; page_height := 10058400;
        top_margin := 914400; right_margin := 914400;
        bottom_margin := 914400; left_margin := 914400 |}];
  d_paragraphs := [normal_paragraph (lit "Report");
                   normal_paragraph (lit "Some text.")];
  d_tables := [];
  d_footnotes := None
|}.

(** A machine on which every call succeeds, pandoc writes its output and
    deleting a file succeeds or not as [unlink] says. *)
Definition machine (unlink : bool) : system := {|
  resolve_dir := λ _, lit "/work";
  resolve_in := λ dir name, dir ++ lit "/" ++ name;
  path_join := λ dir name, dir ++ lit "/" ++ name;
  path_parent := λ _, lit "/work";
  path_name := λ _, lit "doc.md";
  markdown_suffix := λ _, true;
  mkdir_succeeds := λ _, true;
  read_text := λ _, Some (lit "Some text.");
  write_text := λ _ _, Written;
  unlink_succeeds := λ _, unlink;
  run_pandoc := λ _ output_path _ _ fs, (Completed, {[output_path]} ∪ fs);
  load_document := λ _, Some {|
    d_styles := ∅; d_default_lang := None; d_sections := [];
    d_paragraphs := [normal_paragraph (lit "Some text.")];
    d_tables := []; d_footnotes := None |}
|}.

Definition quiet_library : docx_library := {|
  _setup_footers := λ _, mret ();
  save_succeeds := λ _, true
|}.

Definition work_directory : world := {|
  files := {[lit "/work"; lit "/work/doc.md"]};
  records := []
|}.

(** A directory in which every picture is there and far wider than
    [MAX_IMAGE_WIDTH]. *)
Definition wide_images : image_files := {|
  joinpath := λ dir name, dir ++ lit "/" ++ name;
  file_exists := λ _, Some true;
  suffix_supported := λ _, true;
  add_picture := λ _, Some (90487500, 12065000)
|}.

(** The styles of the paragraphs the loop of
    [_process_paragraphs_and_images] leaves alone. *)
Definition HEADINGS : list string :=
  ["Title"; "Heading 1"; "Heading 2"; "Heading 3"]%string.

(** What the loop keeps of a paragraph [p] in the paragraph [p'] it
    leaves: the style always; the text and the pictures unless an image
    takes the place of a placeholder; everything for a title or a
    heading. *)
Definition kept (p p' : paragraph) : Prop :=
  p_style p' = p_style p ∧
  (is_placeholder p = false →
   text p' = text p ∧ r_picture <$> p_runs p' = r_picture <$> p_runs p) ∧
  (is_placeholder p = false → p_style p ∈ HEADINGS → p' = p).

(** The paragraph of the title, and a paragraph of the author and date
    lines, as [_style_main_title] leaves them. *)
Definition title_paragraph (cfg : DocumentConfig) (title : str)
    (para : paragraph) : paragraph :=
  let para :=
    add_run (clear (set_style para "Title"))
      (map_font (λ f, set_bold true
                        (set_font_name_size (font_name cfg)
                           DEFAULT_TITLE_SIZE f))
         (text_run title)) in
  if center_title cfg then set_alignment para CENTER else para.

Definition byline_paragraph (cfg : DocumentConfig) (para : paragraph)
  : paragraph :=
  let para :=
    add_run (clear para)
      (map_font (λ f, set_bold false
                        (set_font_name_size (font_name cfg)
                           (base_font_size cfg) f))
         (text_run (text para))) in
  if center_title cfg then set_alignment para CENTER else para.

(** The state with other paragraphs. *)
Definition with_body (paragraphs : list paragraph) (s : docx_state)
  : docx_state :=
  {| the_doc := with_paragraphs (λ _, paragraphs) (the_doc s);
     the_log := the_log s |}.

(** A document with a ['Title'] style, its title followed by an author
    line, a date line and the text. *)
Definition titled_state : docx_state := {|
  the_doc :=
    with_paragraphs
      (λ _, [normal_paragraph (lit "Notes"); normal_paragraph (lit "Report");
             normal_paragraph (lit "A. Author"); normal_paragraph (lit "2024");
             normal_paragraph (lit "Some text.")])
      (with_styles (<["Title"%string := plain_style]>) untitled_document);
  the_log := []
|}.

(** The names of the styles [_configure_standard_styles] and
    [_configure_heading_styles] configure, in the order of the calls. *)
Definition CONFIGURED : list string :=
  ["Normal"; "Title"; "Heading 1"; "Heading 2"; "Heading 3"]%string.

(** The state with other styles. *)
Definition restyle (f : gmap string docx_style → gmap string docx_style)
    (s : docx_state) : docx_state :=
  {| the_doc := with_styles f (the_doc s); the_log := the_log s |}.

(** A style after the assignments of one entry of the configuration. *)
Definition restyled (is_heading : bool) (config : style_config)
    (st : docx_style) : docx_style :=
  let st :=
    with_font (set_bold (sc_bold config))
      (with_font (set_font_name_size (sc_font_name config)
                    (sc_font_size config)) st) in
  let st :=
    if default false (sc_italic config)
    then with_font (set_italic true) st else st in
  let st :=
    match sc_color config with
    | Some color =>
        match RGBColor color with
        | Ok rgb => with_font (set_color rgb) st
        | Raise _ => st
        end
    | None => st
    end in
  let st :=
    set_style_spacing (sc_space_before config) (sc_space_after config)
      (sc_line_spacing config) st in
  if is_heading then unlink_heading st else st.

(** The warnings for the styles of [names] that [styles] lacks. *)
Definition missing_styles (styles : gmap string docx_style)
    (names : list string) : list log_record :=
  (λ name, (WARNING, StyleNotFound name))
  <$> filter (λ name, styles !! name = None) names.

(** Text that goes into the XML of the document as it is. *)
Definition plain_text (s : str) : Prop := Forall (λ c, (32 <= c <= 55295)%N) s.

(** A number from zero to [hi]. *)
Definition at_most (hi : Z) (x : number) : Prop :=
  match x with
  | Int z => 0 <= z <= hi
  | Finite u => 0 <= u <= hi * Float.SCALE
  | _ => False
  end.

(** A color [RGBColor] takes, if there is one. *)
Definition color_ok (config : style_config) : Prop :=
  ∀ color, sc_color config = Some color → ∃ rgb, RGBColor color = Ok rgb.

(** An entry whose values the library stores: sizes and spacings in points
    in the range of a document, a line spacing of at most a hundred lines,
    a font name that is text, a color [RGBColor] takes. *)
Definition entry_ok (config : style_config) : Prop :=
  plain_text (sc_font_name config) ∧
  0 < sc_font_size config <= 1638 ∧
  0 <= sc_space_before config <= 1584 ∧
  0 <= sc_space_after config <= 1584 ∧
  at_most 100 (sc_line_spacing config) ∧
  color_ok config.

(** A configuration whose values the library stores. *)
Definition storable (cfg : DocumentConfig) : Prop :=
  plain_text (font_name cfg) ∧ plain_text (language cfg) ∧
  0 < base_font_size cfg <= 1638 ∧ at_most 100 (line_spacing cfg).

(** The heading styles and their levels. *)
Definition HEADING_LEVELS : list (string * Z) :=
  [("Heading 1", 1); ("Heading 2", 2); ("Heading 3", 3)]%string.

(** The arguments with [margins=(2, 2)] and the others at their
    defaults. *)
Definition two_margins : init_args := {|
  arg_style := arg_style default_args;
  arg_paper_size := arg_paper_size default_args;
  arg_author := arg_author default_args;
  arg_date := arg_date default_args;
  arg_heading_colors := arg_heading_colors default_args;
  arg_footer_text := arg_footer_text default_args;
  arg_font_name := arg_font_name default_args;
  arg_base_font_size := arg_base_font_size default_args;
  arg_margins := [Int 2; Int 2];
  arg_line_spacing := arg_line_spacing default_args;
  arg_generate_toc := arg_generate_toc default_args;
  arg_language := arg_language default_args;
  arg_center_title := arg_center_title default_args
|}.

(** What [_process_tables] makes of a paragraph of a cell: the style, the
    alignment and the text are kept, there is at least one run, every run
    is in the configured font at the size of tables, bold in the header
    row, and the runs that were there are in the configured language. *)
Definition cell_paragraph (cfg : DocumentConfig) (is_header : bool)
    (p p' : paragraph) : Prop :=
  p_style p' = p_style p ∧ p_alignment p' = p_alignment p ∧
  text p' = text p ∧
  r_picture <$> p_runs p'
  = r_picture <$> (if p_runs p is [] then [text_run []] else p_runs p) ∧
  Forall (λ r, f_name (r_font r) = Some (font_name cfg) ∧
               f_size (r_font r) = Some DEFAULT_TABLE_FONT_SIZE ∧
               (is_header = true → f_bold (r_font r) = Some true) ∧
               (is_header || negb (bool_decide (p_runs p = [])) = true →
                f_lang (r_font r) = Some (language cfg)))
    (p_runs p') ∧
  p_space_before p' = Some DEFAULT_TABLE_CELL_SPACING ∧
  p_space_after p' = Some DEFAULT_TABLE_CELL_SPACING ∧
  p_line_spacing p' = Some ONE.

(** What [_process_tables] makes of a cell: it has borders, those it had
    if it had some, and its paragraphs are formatted one by one. *)
Definition formatted (cfg : DocumentConfig) (is_header : bool) (c c' : cell)
  : Prop :=
  (∃ e, tcPr c' = Some e ∧ is_Some (find "w:tcBorders" e)) ∧
  (∀ e, tcPr c = Some e → is_Some (find "w:tcBorders" e) → tcPr c' = Some e) ∧
  Forall2 (cell_paragraph cfg is_header) (c_paragraphs c) (c_paragraphs c').

(** The same of a table: the first row is the header. *)
Definition formatted_table (cfg : DocumentConfig) (rows rows' : list (list cell))
  : Prop :=
  match rows, rows' with
  | [], [] => True
  | header :: rest, header' :: rest' =>
      Forall2 (formatted cfg true) header header' ∧
      Forall2 (Forall2 (formatted cfg false)) rest rest'
  | _, _ => False
  end.

(** A document with one table of two rows, the second with an empty
    paragraph. *)
(** [titled_state] with one footnote. *)
Definition footnote_state : docx_state := {|
  the_doc := {|
    d_styles := d_styles (the_doc titled_state);
    d_default_lang := d_default_lang (the_doc titled_state);
    d_sections := d_sections (the_doc titled_state);
    d_paragraphs := d_paragraphs (the_doc titled_state);
    d_tables := d_tables (the_doc titled_state);
    d_footnotes := Some [normal_paragraph (lit "A note.")] |};
  the_log := []
|}.

(** The warning the loop over the footnotes ends in, where there is a
    footnote paragraph. *)
Definition footnote_warnings (s : docx_state) : list log_record :=
  match d_footnotes (the_doc s) with
  | Some (_ :: _) => [(WARNING, FootnoteWarning)]
  | _ => []
  end.

Definition table_state : docx_state := {|
  the_doc := {|
    d_styles := d_styles untitled_document;
    d_default_lang := None;
    d_sections := d_sections untitled_document;
    d_paragraphs := d_paragraphs untitled_document;
    d_tables :=
      [[[{| tcPr := None; c_paragraphs := [normal_paragraph (lit "Name")] |};
         bordered_cell];
        [{| tcPr := None; c_paragraphs := [clear (normal_paragraph [])] |};
         bare_cell]]];
    d_footnotes := None |};
  the_log := []
|}.

(** Code that deletes no file at the path [p]. *)
Definition keeps {A} (p : str) (m : M world A) : Prop :=
  ∀ w, p ∈ files w → p ∈ files (m w).2.

(** The machine on which a file that is written is opened and then not
    written, and the machine on which pandoc exits with an error. *)
Definition full_disk : system := {|
  resolve_dir := resolve_dir (machine true);
  resolve_in := resolve_in (machine true);
  path_join := path_join (machine true);
  path_parent := path_parent (machine true);
  path_name := path_name (machine true);
  markdown_suffix := markdown_suffix (machine true);
  mkdir_succeeds := mkdir_succeeds (machine true);
  read_text := read_text (machine true);
  write_text := λ _ _, WriteFailed;
  unlink_succeeds := unlink_succeeds (machine true);
  run_pandoc := run_pandoc (machine true);
  load_document := load_document (machine true)
|}.

Definition failing_pandoc : system := {|
  resolve_dir := resolve_dir (machine true);
  resolve_in := resolve_in (machine true);
  path_join := path_join (machine true);
  path_parent := path_parent (machine true);
  path_name := path_name (machine true);
  markdown_suffix := markdown_suffix (machine true);
  mkdir_succeeds := mkdir_succeeds (machine true);
  read_text := read_text (machine true);
  write_text := write_text (machine true);
  unlink_succeeds := unlink_succeeds (machine true);
  run_pandoc := λ _ _ _ _ fs, (NonZeroExit, fs);
  load_document := load_document (machine true)
|}.

(** A call without keywords, and one with [heading_colors={}] and
    [footer_text={}]. *)
Definition no_kwargs : kwargs := {|
  kw_style := None; kw_paper_size := None; kw_author := None;
  kw_date := None; kw_heading_colors := None; kw_footer_text := None;
  kw_font_name := None; kw_base_font_size := None; kw_margins := None;
  kw_line_spacing := None; kw_generate_toc := None; kw_language := None;
  kw_center_title := None
|}.

Definition empty_dicts : kwargs := {|
  kw_style := None; kw_paper_size := None; kw_author := None;
  kw_date := None; kw_heading_colors := Some (Some []);
  kw_footer_text := Some (Some (FooterDict ∅));
  kw_font_name := None; kw_base_font_size := None; kw_margins := None;
  kw_line_spacing := None; kw_generate_toc := None; kw_language := None;
  kw_center_title := None
|}.

(** * Properties *)

(** ** Title extraction *)

Lemma first_h1_none lines :
  (∀ line, line ∈ lines → startswith line (lit "# ") = false) →
  first_h1 lines = None.
Proof.
  induction lines as [|l lines IH]; intros Hall; [done|].
  cbn [first_h1]. rewrite (Hall l) by left. apply IH. intros x Hx. apply Hall. by right.
Qed.

Lemma first_h1_first pre line post :
  (∀ l, l ∈ pre → startswith l (lit "# ") = false) →
  startswith line (lit "# ") = true →
  first_h1 (pre ++ line :: post) = Some (strip (drop 2 line)).
Proof.
  intros Hpre Hline. induction pre as [|l pre IH]; cbn [first_h1 app].
  - by rewrite Hline.
  - rewrite (Hpre l) by left. apply IH. intros x Hx. apply Hpre. by right.
Qed.

(** C8: without a line that starts with ["# "] the title is the fixed
    string ["Untitled Document"]; otherwise it is what follows ["# "] on
    the first such line, stripped of surrounding whitespace. *)
Theorem extract_title_spec content :
  ((∀ line, line ∈ split NEWLINE content →
            startswith line (lit "# ") = false) →
   _extract_title_from_markdown content = lit "Untitled Document") ∧
  (∀ pre line post,
     split NEWLINE content = pre ++ line :: post →
     (∀ l, l ∈ pre → startswith l (lit "# ") = false) →
     startswith line (lit "# ") = true →
     _extract_title_from_markdown content = strip (drop 2 line)).
Proof.
  unfold _extract_title_from_markdown. split.
  - intros Hall. by rewrite first_h1_none.
  - intros pre line post -> Hpre Hline. by rewrite first_h1_first.
Qed.

Lemma extract_title_spec_witness :
  _extract_title_from_markdown (lit "no heading here") = lit "Untitled Document" ∧
  _extract_title_from_markdown
    (lit "intro" ++ [NEWLINE] ++ lit "#  My Title " ++ [NEWLINE] ++ lit "# Other")
  = lit "My Title".
Proof.
  split.
  - apply (proj1 (extract_title_spec (lit "no heading here"))).
    intros line Hin. vm_compute in Hin.
    apply list_elem_of_singleton in Hin as ->. reflexivity.
  - apply (proj2 (extract_title_spec _) [lit "intro"] (lit "#  My Title ")
             [lit "# Other"]).
    + reflexivity.
    + intros l Hl. apply list_elem_of_singleton in Hl as ->. reflexivity.
    + reflexivity.
Defined.

(** ** Configuration *)












Lemma default_footer_has_keys : footer_has_keys default_footer_text = true.
Proof.
  unfold footer_has_keys, default_footer_text.
  rewrite !bool_decide_eq_true_2; [done| |].
  - rewrite lookup_insert_ne by (vm_compute; congruence).
    by rewrite lookup_insert_eq.
  - by rewrite lookup_insert_eq.
Qed.


(** [DocumentConfig()] is [default_config]. *)
Lemma default_config_is_built :
  DocumentConfig_init default_args = Ok default_config.
Proof.
  pose proof default_footer_has_keys as Hkeys.
  unfold DocumentConfig_init, _validate, default_args.
  cbn [base_font_size margins line_spacing heading_colors footer_text
       arg_base_font_size arg_margins arg_line_spacing arg_heading_colors
       arg_footer_text footer_text_or_default heading_colors_or_default].
  rewrite Hkeys. reflexivity.
Qed.

(** ** Image resizing *)

(** The page sizes of [_configure_section_properties], as Python computes
    them. *)
Example page_sizes :
  Inches_literal 85 10 = 7772400 ∧ Inches_literal 827 100 = 7562088 ∧
  Inches_literal 1169 100 = 10689336 ∧ Cm (Int 2) = Ok 720000 ∧
  Cm (Finite (3 * Float.SCALE / 2)) = Ok 540000.
Proof. by vm_compute. Qed.

(** The model of [float] agrees with the Standard Library's IEEE 754
    binary64 on the operations of the resize step, here on a picture of
    540 by 79 pixels at 72 dpi. *)
Example truediv_is_binary64 :
  Float.units (SFdiv 53 1024 (Float.binary64 1003300) (Float.binary64 6858000))
  = Some (Float.truediv 1003300 6858000).
Proof. vm_compute. reflexivity. Qed.

Example mul_is_binary64 :
  Float.units (SFmul 53 1024 (Float.binary64 5486400)
                 (SFdiv 53 1024 (Float.binary64 1003300)
                    (Float.binary64 6858000)))
  = Some (Float.mul (Float.of_int 5486400) (Float.truediv 1003300 6858000)).
Proof. vm_compute. reflexivity. Qed.

Lemma round_half_even_bounds n d :
  0 < d ->
  let m := Float.round_half_even n d in
  2 * (m * d) <= 2 * n + d /\ 2 * n <= 2 * (m * d) + d.
Proof.
  intros Hd. unfold Float.round_half_even.
  pose proof (Z.div_mod n d ltac:(lia)) as Hn.
  pose proof (Z.mod_pos_bound n d Hd) as Hr.
  set (q := n / d) in *. set (r := n mod d) in *.
  destruct (Z.compare_spec (2 * r) d); [destruct (Z.even q)|..]; cbv zeta; nia.
Qed.

Lemma round_relative n d :
  0 < d -> 2 ^ 53 <= n / d ->
  let x := Float.round n d * d in
  2 ^ 53 * x <= (2 ^ 53 + 1) * n /\ (2 ^ 53 - 1) * n <= 2 ^ 53 * x.
Proof.
  intros Hd Hk. unfold Float.round.
  set (k := n / d) in *.
  assert (53 <= Z.log2 k) as Hlog by (apply Z.log2_le_pow2; lia).
  rewrite Z.max_r by lia.
  set (s := Z.log2 k - 52).
  assert (0 < 2 ^ s) as Hs by (apply Z.pow_pos_nonneg; lia).
  assert (2 ^ s * 2 ^ 52 <= k) as Hsk.
  { rewrite <- Z.pow_add_r by lia. replace (s + 52) with (Z.log2 k) by lia.
    apply Z.log2_spec. lia. }
  assert (d * k <= n) as Hdk by (apply Z.mul_div_le; lia).
  assert (d * 2 ^ s * 2 ^ 52 <= n) as HD.
  { transitivity (d * k); [|done].
    rewrite <- Z.mul_assoc. apply Z.mul_le_mono_nonneg_l; lia. }
  destruct (round_half_even_bounds n (d * 2 ^ s) ltac:(lia)) as [Hu Hl].
  set (m := Float.round_half_even n (d * 2 ^ s)) in *.
  cbv zeta.
  replace (m * 2 ^ s * d) with (m * (d * 2 ^ s)) by ring.
  set (X := m * (d * 2 ^ s)) in *. set (D := d * 2 ^ s) in *.
  change (2 ^ 53) with 9007199254740992. change (2 ^ 52) with 4503599627370496 in HD.
  lia.
Qed.

Lemma of_int_MAX : Float.of_int MAX_IMAGE_WIDTH = MAX_IMAGE_WIDTH * Float.SCALE.
Proof. vm_compute. reflexivity. Qed.

Lemma SCALE_large : 2 ^ 120 <= Float.SCALE.
Proof. vm_compute. discriminate. Qed.

Lemma scaled_height_bounds S w h A P :
  2 ^ 120 <= S -> 0 < h -> MAX_IMAGE_WIDTH < w -> w < 2 ^ 63 ->
  MAX_IMAGE_WIDTH * h < 2 ^ 52 ->
  2 ^ 53 * (A * w) <= (2 ^ 53 + 1) * (h * S) ->
  (2 ^ 53 - 1) * (h * S) <= 2 ^ 53 * (A * w) ->
  2 ^ 53 * (P * S) <= (2 ^ 53 + 1) * (MAX_IMAGE_WIDTH * S * A) ->
  (2 ^ 53 - 1) * (MAX_IMAGE_WIDTH * S * A) <= 2 ^ 53 * (P * S) ->
  let E := MAX_IMAGE_WIDTH * h / w in
  (E - 1 <= P / S <= E) /\ ((MAX_IMAGE_WIDTH * h) mod w <> 0 -> P / S = E).
Proof.
  intros HS Hh Hw Hw63 HM Ha1 Ha2 Hb1 Hb2 E.
  change MAX_IMAGE_WIDTH with 5486400 in *.
  change (2 ^ 120) with 1329227995784915872903807060280344576 in HS.
  change (2 ^ 63) with 9223372036854775808 in Hw63.
  change (2 ^ 52) with 4503599627370496 in HM.
  change (2 ^ 53) with 9007199254740992 in *.
  assert (0 < S) as HS0 by lia.
  set (M := 5486400 * h) in *.
  pose proof (Z.div_mod M w ltac:(lia)) as HMd.
  pose proof (Z.mod_pos_bound M w ltac:(lia)) as HMr.
  fold E in HMd. set (r := M mod w) in *.
  (* cancel S in the bounds of the product *)
  assert (9007199254740992 * P <= 9007199254740993 * (5486400 * A)) as Hb1'.
  { apply (Z.mul_le_mono_pos_r _ _ S HS0). lia. }
  assert (9007199254740991 * (5486400 * A) <= 9007199254740992 * P) as Hb2'.
  { apply (Z.mul_le_mono_pos_r _ _ S HS0). lia. }
  (* and multiply them by w *)
  assert (9007199254740992 * (P * w) <= 9007199254740993 * (5486400 * (A * w))) as Hc1.
  { replace (9007199254740992 * (P * w)) with (9007199254740992 * P * w) by ring.
    replace (9007199254740993 * (5486400 * (A * w)))
      with (9007199254740993 * (5486400 * A) * w) by ring.
    apply Z.mul_le_mono_nonneg_r; lia. }
  assert (9007199254740991 * (5486400 * (A * w)) <= 9007199254740992 * (P * w)) as Hc2.
  { replace (9007199254740992 * (P * w)) with (9007199254740992 * P * w) by ring.
    replace (9007199254740991 * (5486400 * (A * w)))
      with (9007199254740991 * (5486400 * A) * w) by ring.
    apply Z.mul_le_mono_nonneg_r; lia. }
  set (X := P * w) in *. set (Y := A * w) in *.
  assert (5486400 * (h * S) = M * S) as HU by (unfold M; ring).
  set (T := h * S) in *. set (U := M * S) in *.
  assert (18014398509481985 * U < 81129638414606681695789005144064 * S
          /\ 0 <= U) as [HUS HU0].
  { unfold U. split; [|apply Z.mul_nonneg_nonneg; lia].
    replace (18014398509481985 * (M * S)) with (18014398509481985 * M * S) by ring.
    apply Z.mul_lt_mono_pos_r; lia. }
  assert (U = E * (w * S) + r * S) as HUE.
  { unfold U. rewrite HMd at 1. ring. }
  set (V := w * S) in *.
  assert (S <= V) as HSV.
  { unfold V. rewrite <- (Z.mul_1_l S) at 1.
    apply Z.mul_le_mono_nonneg_r; lia. }
  assert (0 <= r * S) as HrS by (apply Z.mul_nonneg_nonneg; lia).
  assert (r * S + S <= V) as HrV.
  { unfold V. replace (r * S + S) with ((r + 1) * S) by ring.
    apply Z.mul_le_mono_nonneg_r; lia. }
  assert (r <> 0 -> S <= r * S) as HrS'.
  { intros Hr. rewrite <- (Z.mul_1_l S) at 1.
    apply Z.mul_le_mono_nonneg_r; lia. }
  assert (X < (E + 1) * V) as Hup by lia.
  assert ((E - 1) * V <= X) as Hlo by lia.
  assert (r <> 0 -> E * V <= X) as Hlo' by (intros Hr; specialize (HrS' Hr); lia).
  assert (P < (E + 1) * S) as HupP.
  { apply (Z.mul_lt_mono_pos_r w); [lia|]. unfold X, V in Hup.
    replace ((E + 1) * S * w) with ((E + 1) * (w * S)) by ring. lia. }
  assert ((E - 1) * S <= P) as HloP.
  { apply (Z.mul_le_mono_pos_r _ _ w); [lia|]. unfold X, V in Hlo.
    replace ((E - 1) * S * w) with ((E - 1) * (w * S)) by ring. lia. }
  split; [split|].
  - apply Z.div_le_lower_bound; lia.
  - apply Z.lt_succ_r. apply Z.div_lt_upper_bound; lia.
  - intros Hr. apply Z.le_antisymm.
    + apply Z.lt_succ_r. apply Z.div_lt_upper_bound; lia.
    + apply Z.div_le_lower_bound; [lia|].
      apply (Z.mul_le_mono_pos_r _ _ w); [lia|]. specialize (Hlo' Hr).
      unfold X, V in Hlo'.
      replace (S * E * w) with (E * (w * S)) by ring. lia.
Qed.

Lemma resize_height_bounds w h :
  0 < h -> MAX_IMAGE_WIDTH < w -> w < 2 ^ 63 -> MAX_IMAGE_WIDTH * h < 2 ^ 52 ->
  let E := MAX_IMAGE_WIDTH * h / w in
  let h' := snd (resize w h) in
  (E - 1 <= h' <= E) /\ ((MAX_IMAGE_WIDTH * h) mod w <> 0 -> h' = E).
Proof.
  intros Hh Hw Hw63 HM. unfold resize.
  destruct (Z.ltb_spec MAX_IMAGE_WIDTH w) as [_|]; [|lia].
  cbn [snd]. rewrite of_int_MAX.
  unfold Float.to_int, Float.mul, Float.truediv.
  pose proof SCALE_large as HS. remember Float.SCALE as S eqn:ES. clear ES.
  assert (0 < S) as HS0.
  { eapply Z.lt_le_trans; [|exact HS]. done. }
  assert (2 ^ 53 * w <= h * S) as HhS.
  { transitivity (1 * S); [|apply Z.mul_le_mono_nonneg_r; lia].
    transitivity (2 ^ 53 * 2 ^ 63); [apply Z.mul_le_mono_nonneg_l; lia|].
    rewrite Z.mul_1_l. etransitivity; [|exact HS]. done. }
  assert (0 < w) as Hw0 by (change MAX_IMAGE_WIDTH with 5486400 in *; lia).
  destruct (round_relative (h * S) w Hw0) as [Ha1 Ha2].
  { apply Z.div_le_lower_bound; [change MAX_IMAGE_WIDTH with 5486400 in *; lia|].
    rewrite Z.mul_comm. exact HhS. }
  set (A := Float.round (h * S) w) in *.
  assert (2 ^ 53 <= A) as HA.
  { apply Z.nlt_ge. intros HA.
    assert (A * w <= 2 ^ 53 * w) as HAw
      by (apply Z.mul_le_mono_nonneg_r; change MAX_IMAGE_WIDTH with 5486400 in *; lia).
    assert (2 ^ 53 * (2 ^ 53 * w) < (2 ^ 53 - 1) * (h * S)); [|lia].
    eapply Z.lt_le_trans with ((2 ^ 53 - 1) * (1 * S)).
    - rewrite Z.mul_1_l.
      eapply Z.lt_le_trans with ((2 ^ 53 - 1) * 2 ^ 120);
        [|apply Z.mul_le_mono_nonneg_l; [done|exact HS]].
      eapply Z.lt_le_trans with (2 ^ 53 * (2 ^ 53 * 2 ^ 63)); [|done].
      apply Z.mul_lt_mono_pos_l; [done|]. apply Z.mul_lt_mono_pos_l; [done|lia].
    - apply Z.mul_le_mono_nonneg_l; [done|].
      apply Z.mul_le_mono_nonneg_r; lia. }
  destruct (round_relative (MAX_IMAGE_WIDTH * S * A) S HS0) as [Hb1 Hb2].
  { replace (MAX_IMAGE_WIDTH * S * A) with (MAX_IMAGE_WIDTH * A * S) by ring.
    rewrite Z.div_mul by lia. change MAX_IMAGE_WIDTH with 5486400.
    transitivity (1 * A); [lia|]. apply Z.mul_le_mono_nonneg_r; lia. }
  set (P := Float.round (MAX_IMAGE_WIDTH * S * A) S) in *.
  by apply (scaled_height_bounds S w h A P).
Qed.


Lemma resize_zero_height w :
  MAX_IMAGE_WIDTH < w → resize w 0 = (MAX_IMAGE_WIDTH, 0).
Proof.
  intros Hw. unfold resize.
  destruct (Z.ltb_spec MAX_IMAGE_WIDTH w) as [_|]; [|lia].
  assert (0 < w) as Hw0 by (change MAX_IMAGE_WIDTH with 5486400 in Hw; lia).
  assert (Float.truediv 0 w = 0) as ->.
  { unfold Float.truediv, Float.round, Float.round_half_even.
    rewrite Z.mul_0_l, Z.div_0_l by lia. change (Z.log2 0) with 0.
    change (Z.max 0 (0 - 52)) with 0. change (2 ^ 0) with 1.
    rewrite Z.mul_1_r, Z.div_0_l, Z.mod_0_l by lia.
    destruct (Z.compare_spec (2 * 0) (w * 1)); [lia|done|lia]. }
  vm_compute. reflexivity.
Qed.

(** C3, as the code has it: a picture wider than [MAX_IMAGE_WIDTH] gets
    that width and the height [int(MAX_IMAGE_WIDTH * (height / width))],
    the quotient being rounded to a double before the product is.  For a
    natural size with [MAX_IMAGE_WIDTH * height < 2^52] this is the exact
    quotient [MAX_IMAGE_WIDTH * height // width] or one less, and the exact
    quotient whenever [width] does not divide [MAX_IMAGE_WIDTH * height]; so
    the new ratio is the old one within two units of height.  A picture at
    most [MAX_IMAGE_WIDTH] wide keeps its size. *)
Theorem resize_spec width height :
  (width <= MAX_IMAGE_WIDTH → resize width height = (width, height)) ∧
  (MAX_IMAGE_WIDTH < width → width < 2 ^ 63 →
   0 <= height → MAX_IMAGE_WIDTH * height < 2 ^ 52 →
   ∃ height',
     resize width height = (MAX_IMAGE_WIDTH, height') ∧
     height' = Float.to_int (Float.mul (Float.of_int MAX_IMAGE_WIDTH)
                               (Float.truediv height width)) ∧
     let exact := MAX_IMAGE_WIDTH * height / width in
     exact - 1 <= height' <= exact ∧
     ((MAX_IMAGE_WIDTH * height) mod width ≠ 0 → height' = exact) ∧
     height' * width <= MAX_IMAGE_WIDTH * height < (height' + 2) * width).
Proof.
  split.
  - intros Hw. unfold resize.
    by destruct (Z.ltb_spec MAX_IMAGE_WIDTH width); [lia|].
  - intros Hw Hw63 Hh HM.
    assert (0 < width) as Hw0 by (change MAX_IMAGE_WIDTH with 5486400 in Hw; lia).
    exists (snd (resize width height)).
    assert (resize width height = (MAX_IMAGE_WIDTH, (resize width height).2)
            ∧ (resize width height).2
              = Float.to_int (Float.mul (Float.of_int MAX_IMAGE_WIDTH)
                                (Float.truediv height width))) as [Hr1 Hr2].
    { unfold resize.
      by destruct (Z.ltb_spec MAX_IMAGE_WIDTH width); [|lia]. }
    split; [done|]. split; [done|]. cbv zeta.
    set (M := MAX_IMAGE_WIDTH * height) in *.
    assert (M / width - 1 <= (resize width height).2 <= M / width ∧
            (M mod width ≠ 0 → (resize width height).2 = M / width))
      as [Hbounds Hexact].
    { destruct (Z.eq_dec height 0) as [->|Hne].
      - rewrite resize_zero_height by done. unfold M. rewrite Z.mul_0_r.
        rewrite Z.div_0_l by lia. cbn [snd]. split; [lia|done].
      - apply resize_height_bounds; [lia|done..]. }
    split; [done|]. split; [done|].
    pose proof (Z.div_mod M width ltac:(lia)) as Hdm.
    pose proof (Z.mod_pos_bound M width Hw0) as Hmod.
    set (E := M / width) in *. set (h' := (resize width height).2) in *.
    assert (h' * width <= E * width) by (apply Z.mul_le_mono_nonneg_r; lia).
    assert ((E + 1) * width <= (h' + 2) * width)
      by (apply Z.mul_le_mono_nonneg_r; lia).
    lia.
Qed.

Lemma resize_spec_witness :
  resize 914400 457200 = (914400, 457200) ∧
  ∃ height', resize 6858000 1003300 = (MAX_IMAGE_WIDTH, height') ∧
             802640 - 1 <= height' <= 802640.
Proof.
  split.
  - apply (proj1 (resize_spec 914400 457200)). vm_compute. discriminate.
  - destruct (proj2 (resize_spec 6858000 1003300)) as (h' & Hr & _ & Hb & _).
    + vm_compute. reflexivity.
    + vm_compute. reflexivity.
    + lia.
    + vm_compute. reflexivity.
    + exists h'. split; [exact Hr|]. exact Hb.
Defined.

(** The claim of C3 fails for a picture of 540 by 79 pixels at 72 dpi
    (6858000 by 1003300 EMU): the new height is 802639, whereas
    [MAX_IMAGE_WIDTH * height / width] is 802640, as an exact quotient and
    as the double [int] truncates. *)
Lemma resize_height_is_not_the_quotient :
  MAX_IMAGE_WIDTH < 6858000 ∧
  resize 6858000 1003300 = (MAX_IMAGE_WIDTH, 802639) ∧
  MAX_IMAGE_WIDTH * 1003300 / 6858000 = 802640 ∧
  (MAX_IMAGE_WIDTH * 1003300) mod 6858000 = 0 ∧
  Float.to_int (Float.truediv (MAX_IMAGE_WIDTH * 1003300) 6858000) = 802640.
Proof. vm_compute. done. Qed.

(** ** Image references *)

(** The matches Python's [re] finds, on inputs where laziness and
    backtracking matter. *)
Example findall_two_images :
  findall (lit "a ![x](img/p.png) b ![y]( q.jpg ) c")
  = [(lit "x", lit "img/p.png"); (lit "y", lit " q.jpg ")] ∧
  sub_placeholder (lit "a ![x](img/p.png) b ![y]( q.jpg ) c")
  = lit "a [IMAGE_PLACEHOLDER] b [IMAGE_PLACEHOLDER] c".
Proof. by vm_compute. Qed.

Example findall_lazy_groups :
  findall (lit "![a](b](c)") = [(lit "a", lit "b](c")] ∧
  findall (lit "![a][b](c)") = [(lit "a][b", lit "c")] ∧
  findall (lit "!![a]](x)(y)") = [(lit "a]", lit "x")] ∧
  sub_placeholder (lit "!![a]](x)(y)") = lit "![IMAGE_PLACEHOLDER](y)".
Proof. by vm_compute. Qed.

Example findall_stops_at_newline :
  findall (lit "![a]" ++ [NEWLINE] ++ lit "(b)") = [] ∧
  findall (lit "![a](b" ++ [NEWLINE] ++ lit ")![c](d)") = [(lit "c", lit "d")] ∧
  sub_placeholder (lit "![a](b" ++ [NEWLINE] ++ lit ")![c](d)")
  = lit "![a](b" ++ [NEWLINE] ++ lit ")[IMAGE_PLACEHOLDER]".
Proof. by vm_compute. Qed.

Lemma findall_match s alt path rest :
  match_here s = Some (alt, path, rest) →
  findall s = (alt, path) :: findall rest.
Proof.
  intros Hm. rewrite findall_equation_1.
  destruct (inspect (match_here s)) as [[[[a p] r]|] Heq].
  - cbn. assert (a = alt ∧ p = path ∧ r = rest) as (-> & -> & ->)
      by (rewrite Hm in Heq; by injection Heq).
    reflexivity.
  - congruence.
Qed.

Lemma findall_skip c s :
  match_here (c :: s) = None → findall (c :: s) = findall s.
Proof.
  intros Hm. rewrite findall_equation_1.
  destruct (inspect (match_here (c :: s))) as [[[[a p] r]|] Heq].
  - congruence.
  - reflexivity.
Qed.

Lemma sub_placeholder_match s alt path rest :
  match_here s = Some (alt, path, rest) →
  sub_placeholder s = PLACEHOLDER ++ sub_placeholder rest.
Proof.
  intros Hm. rewrite sub_placeholder_equation_1.
  destruct (inspect (match_here s)) as [[[[a p] r]|] Heq].
  - cbn. assert (a = alt ∧ p = path ∧ r = rest) as (-> & -> & ->)
      by (rewrite Hm in Heq; by injection Heq).
    reflexivity.
  - congruence.
Qed.

Lemma sub_placeholder_skip c s :
  match_here (c :: s) = None →
  sub_placeholder (c :: s) = c :: sub_placeholder s.
Proof.
  intros Hm. rewrite sub_placeholder_equation_1.
  destruct (inspect (match_here (c :: s))) as [[[[a p] r]|] Heq].
  - congruence.
  - reflexivity.
Qed.

Lemma weave_cons c t texts mids :
  weave ((c :: t) :: texts) mids = c :: weave (t :: texts) mids.
Proof. by destruct mids. Qed.

Lemma sub_placeholder_weave s :
  ∃ texts,
    length texts = S (length (findall s)) ∧
    s = weave texts (uncurry markup <$> findall s) ∧
    sub_placeholder s = weave texts (replicate (length (findall s)) PLACEHOLDER).
Proof.
  remember (length s) as n eqn:Hn. revert s Hn.
  induction n as [n IHn] using lt_wf_ind. intros s ->.
  assert (∀ s', (length s' < length s)%nat → ∃ texts,
            length texts = S (length (findall s')) ∧
            s' = weave texts (uncurry markup <$> findall s') ∧
            sub_placeholder s'
            = weave texts (replicate (length (findall s')) PLACEHOLDER)) as IH
    by (intros s' Hlt; by eapply IHn).
  clear IHn.
  destruct (match_here s) as [[[alt path] rest]|] eqn:Hm.
  - destruct (IH rest) as (texts & Hlen & Hs & Hsub);
      [by eapply match_here_length|].
    exists ([] :: texts).
    rewrite (findall_match _ _ _ _ Hm), (sub_placeholder_match _ _ _ _ Hm).
    cbn [length fmap list_fmap weave replicate uncurry app].
    rewrite <- Hs, <- Hsub, Hlen. split; [done|].
    split; [by apply match_here_spec|done].
  - destruct s as [|c s].
    + by exists [[]].
    + destruct (IH s) as (texts & Hlen & Hs & Hsub); [simpl; lia|].
      destruct texts as [|t texts]; [done|].
      exists ((c :: t) :: texts).
      rewrite (findall_skip _ _ Hm), (sub_placeholder_skip _ _ Hm).
      rewrite !weave_cons. split; [done|]. split; by f_equal.
Qed.

Lemma extract_image_references_refs {St} `{Logging St} content (s : St) :
  _extract_image_references content s =
  (Ok (image_ref_of_match <$> findall content),
   emit (INFO, FoundImageReferences (length (findall content))) s).
Proof.
  unfold _extract_image_references.
  assert (∀ acc ms,
            foldl (λ refs m, refs ++ [image_ref_of_match m]) acc ms
            = acc ++ (image_ref_of_match <$> ms)) as Hfold.
  { intros acc ms. revert acc.
    induction ms as [|m ms IH]; intros acc; simpl.
    - by rewrite app_nil_r.
    - rewrite IH. by rewrite <- app_assoc. }
  rewrite Hfold. simpl. by rewrite length_fmap.
Qed.

(** ** Image insertion *)

Ltac run_monad :=
  unfold mbind, M_bind, mret, M_ret, log, modify, raise, get; cbn beta iota.

Lemma marker_texts alt :
  xml_compatible alt = true →
  xml_compatible (lit "[Image not found: " ++ alt ++ lit "]") = true ∧
  xml_compatible (lit "[Image: " ++ alt ++ lit "]") = true.
Proof.
  intros Halt. unfold xml_compatible in *. rewrite !forallb_app, Halt.
  by vm_compute.
Qed.

Section Insertion.
Context {St : Type} `{Logging St}.
Context (E : image_files) (cfg : DocumentConfig) (img_dir : str).

Lemma insert_single_image_returns para ref refs (s : St) :
  resolves E img_dir ref →
  ∃ para' s',
    _insert_single_image E para (ref :: refs) img_dir s = (Ok (para', refs), s').
Proof.
  intros [[found Hfound] [Hmissing Hbroken]%marker_texts].
  unfold _insert_single_image, assign_text. rewrite Hfound, Hmissing, Hbroken.
  run_monad.
  destruct (negb (suffix_supported E _)); cbn beta iota;
    (destruct found; [destruct (add_picture E _) as [[w h]|]|]);
    cbn beta iota; eauto.
Qed.

(** [image_path.exists()] is outside the [try]: where it raises, the call
    raises. *)
Lemma insert_single_image_unanswered para ref refs (s : St) :
  file_exists E (joinpath E img_dir (path ref)) = None →
  ∃ s', _insert_single_image E para (ref :: refs) img_dir s
        = (Raise IOError, s').
Proof.
  intros Hfile. unfold _insert_single_image. rewrite Hfile. run_monad.
  destruct (negb (suffix_supported E _)); cbn beta iota; eauto.
Qed.

(** So is the assignment of the marker text: an alt text the document
    does not take makes the call raise. *)
Lemma insert_single_image_refused para ref refs (s : St) :
  file_exists E (joinpath E img_dir (path ref)) = Some false →
  xml_compatible (alt_text ref) = false →
  ∃ s', _insert_single_image E para (ref :: refs) img_dir s
        = (Raise ValueError, s').
Proof.
  intros Hfile Halt. unfold _insert_single_image, assign_text.
  rewrite Hfile.
  assert (xml_compatible (lit "[Image not found: " ++ alt_text ref ++ lit "]")
          = false) as ->.
  { unfold xml_compatible in *. rewrite !forallb_app, Halt.
    apply andb_false_iff. right. done. }
  run_monad.
  destruct (negb (suffix_supported E _)); cbn beta iota; eauto.
Qed.

Lemma insert_single_image_not_found para ref refs (s : St) :
  file_exists E (joinpath E img_dir (path ref)) = Some false →
  xml_compatible (alt_text ref) = true →
  ∃ s0,
    _insert_single_image E para (ref :: refs) img_dir s =
    (Ok (set_text para
           (line_breaks (lit "[Image not found: " ++ alt_text ref ++ lit "]")),
         refs),
     emit (WARNING, ImageNotFound) (emit (INFO, ProcessingImage) s0)) ∧
    (s0 = s ∨ s0 = emit (WARNING, UnsupportedImageFormat) s).
Proof.
  intros Hfile [Hmissing _]%marker_texts.
  unfold _insert_single_image, assign_text. rewrite Hfile, Hmissing.
  run_monad.
  destruct (negb (suffix_supported E _)); cbn beta iota; eauto.
Qed.

Lemma insert_single_image_broken para ref refs (s : St) :
  file_exists E (joinpath E img_dir (path ref)) = Some true →
  add_picture E (joinpath E img_dir (path ref)) = None →
  xml_compatible (alt_text ref) = true →
  ∃ s0,
    _insert_single_image E para (ref :: refs) img_dir s =
    (Ok (set_text (add_run (clear para) (text_run []))
           (line_breaks (lit "[Image: " ++ alt_text ref ++ lit "]")),
         refs),
     emit (ERROR, ErrorAddingImage (path ref)) (emit (INFO, ProcessingImage) s0)) ∧
    (s0 = s ∨ s0 = emit (WARNING, UnsupportedImageFormat) s).
Proof.
  intros Hfile Hpic [_ Hbroken]%marker_texts.
  unfold _insert_single_image, assign_text. rewrite Hfile, Hpic, Hbroken.
  run_monad.
  destruct (negb (suffix_supported E _)); cbn beta iota; eauto.
Qed.

Lemma insert_single_image_picture para ref refs w h (s : St) :
  file_exists E (joinpath E img_dir (path ref)) = Some true →
  add_picture E (joinpath E img_dir (path ref)) = Some (w, h) →
  ∃ s',
    _insert_single_image E para (ref :: refs) img_dir s =
    (Ok (set_alignment
           (add_run (clear para)
              {| r_text := []; r_picture := Some (resize w h);
                 r_font := plain_font |}) CENTER,
         refs), s').
Proof.
  intros Hfile Hpic. unfold _insert_single_image. run_monad.
  rewrite Hfile, Hpic.
  destruct (negb (suffix_supported E _)); cbn beta iota; eauto.
Qed.

(** One turn of the loop of [_process_paragraphs_and_images]. *)
Lemma process_paragraphs_cons para rest refs (s : St) :
  process_paragraphs E cfg img_dir (para :: rest) refs s =
  let '(r, s1) :=
    (if is_placeholder para && negb (bool_decide (refs = []))
     then _insert_single_image E para refs img_dir
     else if bool_decide (p_style para ∈
               ["Title"; "Heading 1"; "Heading 2"; "Heading 3"]%string)
     then mret (para, refs)
     else if bool_decide (p_style para = "Normal"%string)
     then mret (_format_normal_paragraph cfg para, refs)
     else mret (para, refs)) s in
  match r with
  | Raise e => (Raise e, s1)
  | Ok (para', refs1) =>
      match process_paragraphs E cfg img_dir rest refs1 s1 with
      | (Ok (rest', refs2), s2) => (Ok (para' :: rest', refs2), s2)
      | (Raise e, s2) => (Raise e, s2)
      end
  end.
Proof.
  cbn [process_paragraphs]. unfold is_placeholder.
  unfold mbind at 1. unfold M_bind at 1.
  match goal with |- context [(if ?c then ?a else ?b) s] =>
    destruct ((if c then a else b) s) as [[[p r]|e] s1] end; [|done].
  unfold mbind, M_bind.
  by destruct (process_paragraphs _ _ _ _ _ _) as [[[rest' refs2]|e] s2].
Qed.

Lemma placeholders_cons para rest :
  placeholders (para :: rest) =
  if is_placeholder para then S (placeholders rest) else placeholders rest.
Proof.
  unfold placeholders. destruct (is_placeholder para) eqn:Hp.
  - rewrite filter_cons_True; [done|]. by rewrite Hp.
  - rewrite filter_cons_False; [done|]. rewrite Hp. by intros [].
Qed.

(** What one turn of the loop does to the paragraph and to the list. *)
Lemma process_one para refs (s : St) :
  Forall (resolves E img_dir) refs →
  ∃ para' s1,
    (if is_placeholder para && negb (bool_decide (refs = []))
     then _insert_single_image E para refs img_dir
     else if bool_decide (p_style para ∈
               ["Title"; "Heading 1"; "Heading 2"; "Heading 3"]%string)
     then mret (para, refs)
     else if bool_decide (p_style para = "Normal"%string)
     then mret (_format_normal_paragraph cfg para, refs)
     else mret (para, refs)) s
    = (Ok (para', drop (if is_placeholder para then 1 else 0)%nat refs), s1) ∧
    (is_placeholder para = true → refs ≠ [] →
     _insert_single_image E para refs img_dir s = (Ok (para', drop 1 refs), s1)) ∧
    (is_placeholder para = true → refs = [] → text para' = text para).
Proof.
  intros Hrefs.
  assert (text (_format_normal_paragraph cfg para) = text para) as Htext.
  { unfold _format_normal_paragraph, text, map_runs, set_spacing.
    cbn [p_runs]. by rewrite <- list_fmap_compose. }
  destruct (is_placeholder para) eqn:Hp; destruct refs as [|ref refs].
  - cbn [andb negb]. rewrite bool_decide_eq_true_2 by done. cbn [negb].
    repeat case_bool_decide; eexists _, _; (split; [reflexivity|]);
      (split; [done|]); done.
  - rewrite bool_decide_eq_false_2 by done. cbn [andb negb].
    apply Forall_cons in Hrefs as [Href _].
    destruct (insert_single_image_returns para ref refs s Href)
      as (p' & s1 & Hi).
    exists p', s1. rewrite Hi. split; [done|]. split; done.
  - cbn [andb].
    repeat case_bool_decide; eexists _, _; (split; [reflexivity|]);
      (split; [done|]); done.
  - cbn [andb].
    repeat case_bool_decide; eexists _, _; (split; [reflexivity|]);
      (split; [done|]); done.
Qed.

Lemma process_paragraphs_returns paragraphs refs (s : St) :
  Forall (resolves E img_dir) refs →
  ∃ paragraphs' s',
    process_paragraphs E cfg img_dir paragraphs refs s =
    (Ok (paragraphs', drop (placeholders paragraphs) refs), s') ∧
    length paragraphs' = length paragraphs.
Proof.
  revert refs s. induction paragraphs as [|para rest IH]; intros refs s Hrefs.
  - by exists [], s.
  - rewrite process_paragraphs_cons, placeholders_cons.
    destruct (process_one para refs s Hrefs) as (para' & s1 & -> & _).
    destruct (IH (drop (if is_placeholder para then 1 else 0)%nat refs) s1)
      as (rest' & s2 & -> & Hlen); [by apply Forall_drop|].
    exists (para' :: rest'), s2. rewrite drop_drop. split.
    + repeat f_equal. destruct (is_placeholder para); lia.
    + simpl. by rewrite Hlen.
Qed.

End Insertion.

(** *** The markers of a text *)












(** Two references in one paragraph: the paragraph takes the first of
    them, the placeholder of the next paragraph takes the second, and
    the third, which that paragraph stood for, is left over. *)
Lemma two_markers_in_one_paragraph :
  let ref alt := image_ref_of_match (alt, alt ++ lit ".png") in
  ∃ log : list log_record,
    process_paragraphs no_images default_config (lit "img")
      [normal_paragraph (PLACEHOLDER ++ lit " " ++ PLACEHOLDER);
       normal_paragraph PLACEHOLDER]
      [ref (lit "a"); ref (lit "b"); ref (lit "c")] []
    = (Ok ([normal_paragraph (lit "[Image not found: a]");
            normal_paragraph (lit "[Image not found: b]")],
           [ref (lit "c")]), log).
Proof. eexists. vm_compute. reflexivity. Qed.

(** Where looking for the file answers and the alt text is text the
    document takes, a reference whose file is not there leaves the
    paragraph with the text ["[Image not found: <alt>]"] and a warning in
    the log; one whose picture cannot be embedded leaves it with
    ["[Image: <alt>]"]; in both cases the call returns and the loop goes
    on with the paragraphs that follow. *)
Lemma missing_image_marker E cfg img_dir para rest ref refs
    (log : list log_record) :
  is_placeholder para = true →
  xml_compatible (alt_text ref) = true →
  Forall (resolves E img_dir) refs →
  let image_path := joinpath E img_dir (path ref) in
  (file_exists E image_path = Some false →
   ∃ para' log1 rest' refs' log2,
     _insert_single_image E para (ref :: refs) img_dir log
     = (Ok (para', refs), log1) ∧
     text para'
     = line_breaks (lit "[Image not found: " ++ alt_text ref ++ lit "]") ∧
     (WARNING, ImageNotFound) ∈ log1 ∧
     process_paragraphs E cfg img_dir rest refs log1
     = (Ok (rest', refs'), log2) ∧
     process_paragraphs E cfg img_dir (para :: rest) (ref :: refs) log
     = (Ok (para' :: rest', refs'), log2)) ∧
  (file_exists E image_path = Some true → add_picture E image_path = None →
   ∃ para' log1 rest' refs' log2,
     _insert_single_image E para (ref :: refs) img_dir log
     = (Ok (para', refs), log1) ∧
     text para' = line_breaks (lit "[Image: " ++ alt_text ref ++ lit "]") ∧
     (ERROR, ErrorAddingImage (path ref)) ∈ log1 ∧
     process_paragraphs E cfg img_dir rest refs log1
     = (Ok (rest', refs'), log2) ∧
     process_paragraphs E cfg img_dir (para :: rest) (ref :: refs) log
     = (Ok (para' :: rest', refs'), log2)).
Proof.
  intros Hp Halt Hrefs image_path. split.
  - intros Hfile.
    destruct (insert_single_image_not_found E img_dir para ref refs log
                Hfile Halt)
      as (log0 & Hins & Hlog0).
    destruct (process_paragraphs_returns E cfg img_dir rest refs
                (emit (WARNING, ImageNotFound)
                   (emit (INFO, ProcessingImage) log0)) Hrefs)
      as (rest' & log2 & Hrest & _).
    eexists _, _, rest', _, log2. split; [exact Hins|].
    split; [unfold set_text, text; simpl; by rewrite app_nil_r|].
    split; [unfold emit, log_logging; apply elem_of_app; right; by left|].
    split; [exact Hrest|].
    rewrite process_paragraphs_cons, Hp.
    rewrite bool_decide_eq_false_2 by done. cbn [andb negb].
    by rewrite Hins, Hrest.
  - intros Hfile Hpic.
    destruct (insert_single_image_broken E img_dir para ref refs log Hfile
                Hpic Halt)
      as (log0 & Hins & Hlog0).
    destruct (process_paragraphs_returns E cfg img_dir rest refs
                (emit (ERROR, ErrorAddingImage (path ref))
                   (emit (INFO, ProcessingImage) log0)) Hrefs)
      as (rest' & log2 & Hrest & _).
    eexists _, _, rest', _, log2. split; [exact Hins|].
    split; [unfold set_text, text; simpl; by rewrite app_nil_r|].
    split; [unfold emit, log_logging; apply elem_of_app; right; by left|].
    split; [exact Hrest|].
    rewrite process_paragraphs_cons, Hp.
    rewrite bool_decide_eq_false_2 by done. cbn [andb negb].
    by rewrite Hins, Hrest.
Qed.

(** C6 on two references whose file is not there.  The name of the first
    is too long to look for: [image_path.exists()] raises, outside the
    [try] of [_insert_single_image].  The alt text of the second holds a
    form feed: the file is found missing, the warning is logged, and
    [para.text = ...] raises, outside any handler.  Both times the call
    raises and the loop over the paragraphs with it, where the claim has
    the marker text in the paragraph and the loop going on. *)
Theorem missing_image_can_be_fatal :
  let long := image_ref_of_match (lit "x", replicate 300 97%N ++ lit ".png") in
  let feed := image_ref_of_match ([120; 12; 121]%N, lit "x.png") in
  let paragraphs :=
    [normal_paragraph PLACEHOLDER; normal_paragraph (lit "Some text.")] in
  file_exists long_names (joinpath long_names (lit "img") (path long)) = None ∧
  _insert_single_image long_names (normal_paragraph PLACEHOLDER) [long]
    (lit "img") ([] : list log_record)
  = (Raise IOError, [(INFO, ProcessingImage)]) ∧
  process_paragraphs long_names default_config (lit "img") paragraphs [long]
    ([] : list log_record)
  = (Raise IOError, [(INFO, ProcessingImage)]) ∧
  file_exists no_images (joinpath no_images (lit "img") (path feed))
  = Some false ∧
  _insert_single_image no_images (normal_paragraph PLACEHOLDER) [feed]
    (lit "img") ([] : list log_record)
  = (Raise ValueError, [(INFO, ProcessingImage); (WARNING, ImageNotFound)]) ∧
  process_paragraphs no_images default_config (lit "img") paragraphs [feed]
    ([] : list log_record)
  = (Raise ValueError, [(INFO, ProcessingImage); (WARNING, ImageNotFound)]).
Proof. by vm_compute. Qed.

(** ** The stored image references *)



Lemma lstrip_head c s : isspace c = false → lstrip (c :: s) = c :: s.
Proof. intros Hc. cbn [lstrip]. by rewrite Hc. Qed.



(** The record holds the alt text of the match, and the markup as written
    when the path has no surrounding whitespace and no ["img/"] prefix. *)
Lemma stored_reference_exact alt p :
  strip p = p → startswith p (lit "img/") = false →
  image_ref_of_match (alt, p) =
  {| alt_text := alt; path := p; original_markdown := markup alt p |}.
Proof.
  intros Hstrip Himg. unfold image_ref_of_match, markup.
  by rewrite Hstrip, Himg.
Qed.

(** C7 at the content [![a](img/x.png)]: the record holds the alt text
    and the path without its prefix, and under ['original_markdown'] the
    markup built again from them, [![a](x.png)], which is not the markup
    of the document. *)
Theorem original_markdown_is_rebuilt :
  findall (lit "![a](img/x.png)") = [(lit "a", lit "img/x.png")] ∧
  markup (lit "a") (lit "img/x.png") = lit "![a](img/x.png)" ∧
  _extract_image_references (lit "![a](img/x.png)") ([] : list log_record) =
  (Ok [{| alt_text := lit "a"; path := lit "x.png";
          original_markdown := lit "![a](x.png)" |}],
   [(INFO, FoundImageReferences 1)]) ∧
  lit "![a](x.png)" ≠ lit "![a](img/x.png)".
Proof.
  split; [by vm_compute|]. split; [by vm_compute|].
  split; [by vm_compute|]. vm_compute. discriminate.
Qed.



(** ** Table cell borders *)

Lemma find_append_new e :
  find "w:tcBorders" (append e new_tcBorders) =
  match find "w:tcBorders" e with
  | Some b => Some b
  | None => Some new_tcBorders
  end.
Proof.
  destruct e as [tag attrib children]. unfold find. cbn [append children_of].
  induction children as [|c children IH]; [done|].
  cbn [app List.find]. by destruct (bool_decide (tag_of c = "w:tcBorders"%string)).
Qed.

Lemma find_none_filter e :
  find "w:tcBorders" e = None →
  filter (λ x, tag_of x = "w:tcBorders"%string) (children_of e) = [].
Proof.
  destruct e as [tag attrib children]. unfold find. cbn [children_of].
  induction children as [|c children IH]; [done|]. cbn [List.find].
  case_bool_decide as Hc; [done|]. intros Hnone.
  rewrite filter_cons_False by done. by apply IH.
Qed.

(** C10: a cell whose properties hold a [w:tcBorders] element is left as
    it is; any other cell gets one [w:tcBorders] element, appended to its
    properties, with a [single] border on each of the four sides; and
    setting the borders twice gives what setting them once gives. *)
Theorem set_cell_borders_idempotent c :
  (∀ e, tcPr c = Some e → is_Some (find "w:tcBorders" e) →
        _set_cell_borders c = c) ∧
  ((∀ e, tcPr c = Some e → find "w:tcBorders" e = None) →
   let e := default (Element "w:tcPr" [] []) (tcPr c) in
   _set_cell_borders c =
   {| tcPr := Some (append e new_tcBorders); c_paragraphs := c_paragraphs c |} ∧
   filter (λ x, tag_of x = "w:tcBorders"%string)
     (children_of (append e new_tcBorders)) = [new_tcBorders]) ∧
  (tag_of <$> children_of new_tcBorders
   = ["w:top"; "w:left"; "w:bottom"; "w:right"]%string ∧
   Forall (λ edge, ("w:val", "single")%string ∈ attrib_of edge)
     (children_of new_tcBorders)) ∧
  _set_cell_borders (_set_cell_borders c) = _set_cell_borders c.
Proof.
  assert (∀ c e, tcPr c = Some e → is_Some (find "w:tcBorders" e) →
                 _set_cell_borders c = c) as Hkeep.
  { intros [p ps] e Hc [b Hb]. simpl in Hc. subst p.
    unfold _set_cell_borders, get_or_add_tcPr. cbn [tcPr]. by rewrite Hb. }
  assert ((∀ e, tcPr c = Some e → find "w:tcBorders" e = None) →
          _set_cell_borders c =
          {| tcPr := Some (append (default (Element "w:tcPr" [] []) (tcPr c))
                             new_tcBorders);
             c_paragraphs := c_paragraphs c |}) as Hadd.
  { intros Hnone. destruct c as [[e|] ps].
    - unfold _set_cell_borders, get_or_add_tcPr. cbn [tcPr c_paragraphs].
      by rewrite (Hnone e).
    - reflexivity. }
  split; [by apply Hkeep|]. split; [|split].
  - intros Hnone e. split; [by apply Hadd|].
    assert (find "w:tcBorders" e = None) as He.
    { subst e. destruct (tcPr c) as [e|] eqn:Hc; [by apply Hnone|done]. }
    destruct e as [tag attrib children]. cbn [append children_of].
    rewrite filter_app.
    change children with (children_of (Element tag attrib children)) at 1.
    rewrite (find_none_filter _ He). reflexivity.
  - split; [reflexivity|]. repeat constructor.
  - destruct (tcPr c) as [e|] eqn:Hc.
    + destruct (find "w:tcBorders" e) as [b|] eqn:Hb.
      * rewrite (Hkeep c e) by done. by apply (Hkeep c e).
      * rewrite Hadd by (intros e' He'; congruence).
        eapply Hkeep; [reflexivity|]. rewrite find_append_new. by destruct (find _ _).
    + rewrite Hadd by (intros e' He'; congruence).
      eapply Hkeep; [reflexivity|]. rewrite find_append_new. by destruct (find _ _).
Qed.

Lemma set_cell_borders_idempotent_witness :
  _set_cell_borders bordered_cell = bordered_cell ∧
  _set_cell_borders bare_cell =
  {| tcPr := Some (Element "w:tcPr" [] [new_tcBorders]); c_paragraphs := [] |}.
Proof.
  split.
  - apply (proj1 (set_cell_borders_idempotent bordered_cell)
             (Element "w:tcPr" [] [Element "w:tcBorders" [] []])).
    + reflexivity.
    + vm_compute. eauto.
  - apply (proj1 (proj2 (set_cell_borders_idempotent bare_cell))).
    intros e He. vm_compute in He. discriminate.
Defined.

(** ** Missing styles *)

(** Where [_apply_style_configurations] finds no style of the name, it
    logs a warning, leaves the document alone and goes on. *)
Lemma apply_style_configuration_missing is_heading style_name config s :
  d_styles (the_doc s) !! style_name = None →
  apply_style_configuration is_heading style_name config s =
  (Ok tt, emit (WARNING, StyleNotFound style_name) s).
Proof.
  intros Hmissing. unfold apply_style_configuration, try_except, lookup_style.
  unfold mbind at 1. unfold M_bind at 1.
  unfold mbind at 1. unfold M_bind at 1. unfold get at 1. cbn beta iota.
  by rewrite Hmissing.
Qed.

(** [_process_footnotes] catches every exception. *)
Lemma process_footnotes_returns cfg s :
  ∃ s', _process_footnotes cfg s = (Ok tt, s').
Proof.
  unfold _process_footnotes, try_except.
  match goal with |- context [match ?m s with _ => _ end] =>
    destruct (m s) as [[[]|e] s1] end; [by eexists|].
  destruct e; by eexists.
Qed.

(** [_style_main_title] looks the ['Title'] style up outside any [try]:
    without that style, the first paragraph that holds the title makes it
    raise [KeyError]. *)
Lemma style_main_title_loop_raises cfg title paragraphs i s :
  d_styles (the_doc s) !! "Title"%string = None →
  (∃ para, para ∈ paragraphs ∧ text para = title) →
  style_main_title_loop cfg title paragraphs i None s
  = (Raise (KeyError "Title"), s).
Proof.
  intros Hmissing. revert i.
  induction paragraphs as [|p rest IH]; intros i (para & Hin & Htext).
  - by apply elem_of_nil in Hin.
  - cbn [style_main_title_loop]. case_bool_decide as Hp.
    + unfold lookup_style. run_monad. by rewrite Hmissing.
    + apply IH. exists para. split; [|done].
      apply elem_of_cons in Hin as [->|Hin]; [done|done].
Qed.

Lemma style_main_title_raises cfg title s :
  d_styles (the_doc s) !! "Title"%string = None →
  (∃ para, para ∈ d_paragraphs (the_doc s) ∧ text para = title) →
  _style_main_title cfg title s = (Raise (KeyError "Title"), s).
Proof.
  intros Hmissing Hpara. unfold _style_main_title. run_monad.
  by apply style_main_title_loop_raises.
Qed.

(** C5 on that document: [_configure_standard_styles] logs that ['Title']
    is missing and goes on, then [_style_main_title] raises [KeyError] and
    with it post-processing, whatever the files, the footers and the
    outcome of the save are. *)
Theorem post_processing_raises_without_title E L image_refs work_dir :
  d_styles untitled_document !! "Title"%string = None ∧
  ∃ s',
    _post_process_document E L default_config (lit "Report") image_refs
      work_dir {| the_doc := untitled_document; the_log := [] |}
    = (Raise (KeyError "Title"), s') ∧
    the_log s' = [(WARNING, StyleNotFound "Title")].
Proof.
  split; [by vm_compute|].
  unfold _post_process_document.
  unfold mbind at 1. unfold M_bind at 1.
  destruct (_apply_global_styles default_config
              {| the_doc := untitled_document; the_log := [] |})
    as [r s1] eqn:Hglobal.
  assert (r = Ok tt ∧ d_styles (the_doc s1) !! "Title"%string = None ∧
          d_paragraphs (the_doc s1) = d_paragraphs untitled_document ∧
          the_log s1 = [(WARNING, StyleNotFound "Title")])
    as (-> & Hmissing & Hparas & Hlog).
  { vm_compute in Hglobal. injection Hglobal as <- <-. by vm_compute. }
  unfold mbind at 1. unfold M_bind at 1.
  rewrite style_main_title_raises; [by exists s1|done|].
  rewrite Hparas. exists (normal_paragraph (lit "Report")).
  split; [by left|by vm_compute].
Qed.

(** ** Temporary files *)

Section TemporaryFiles.
Context (Sys : system).

Lemma cleanup_lua_script_files p w :
  unlink_succeeds Sys p = true →
  ∃ w', _cleanup_lua_script Sys p w = (Ok tt, w') ∧
        files w' = files w ∖ {[p]}.
Proof.
  intros Hunlink. unfold _cleanup_lua_script, try_except, path_exists, unlink.
  run_monad. rewrite Hunlink. case_bool_decide as Hp; cbn.
  - by eexists.
  - eexists. split; [done|]. symmetry. apply difference_disjoint_L.
    by apply disjoint_singleton_r.
Qed.

Lemma cleanup_temp_markdown_files p w :
  unlink_succeeds Sys p = true →
  ∃ w', _cleanup_temp_markdown Sys p w = (Ok tt, w') ∧
        files w' = files w ∖ {[p]}.
Proof.
  intros Hunlink.
  unfold _cleanup_temp_markdown, try_except, path_exists, unlink.
  run_monad. rewrite Hunlink. case_bool_decide as Hp; cbn.
  - by eexists.
  - eexists. split; [done|]. symmetry. apply difference_disjoint_L.
    by apply disjoint_singleton_r.
Qed.

Lemma try_finally_run {A} (body : M world A) cleanup w r w1 w2 :
  body w = (r, w1) → cleanup w1 = (Ok tt, w2) →
  try_finally body cleanup w = (r, w2).
Proof. intros Hbody Hclean. unfold try_finally. by rewrite Hbody, Hclean. Qed.

Lemma run_pandoc_conversion_files input_path output_path title w :
  let lua_path :=
    path_join Sys (path_parent Sys input_path) (lit "adjust_headers.lua") in
  write_text Sys lua_path LUA_SCRIPT = Written →
  unlink_succeeds Sys lua_path = true →
  lua_path ∉ files (_run_pandoc_conversion Sys input_path output_path title w).2.
Proof.
  intros lua_path Hwrite Hunlink. unfold _run_pandoc_conversion.
  unfold mbind at 1. unfold M_bind at 1.
  assert (∃ w1, try_except (_create_lua_script Sys input_path) (λ _, true)
                  (λ e, pandoc_handler e;; raise e) w = (Ok lua_path, w1))
    as [w1 ->].
  { unfold try_except, _create_lua_script, write_file. fold lua_path.
    rewrite Hwrite. unfold path_exists, modify_files. run_monad.
    case_bool_decide; cbn; by eexists. }
  destruct (try_except
              (subprocess_run Sys input_path output_path title lua_path;;
               log INFO PandocCompleted) (λ _, true) pandoc_handler w1)
    as [r w2] eqn:Hbody.
  destruct (cleanup_lua_script_files lua_path w2 Hunlink) as (w3 & Hclean & Hfiles).
  rewrite (try_finally_run _ _ _ _ _ _ Hbody Hclean). cbn [snd].
  rewrite Hfiles. apply not_elem_of_difference. right.
  by apply elem_of_singleton.
Qed.

Lemma post_process_file_files E L cfg doc_path title refs work_dir w :
  files (post_process_file Sys E L cfg doc_path title refs work_dir w).2
  = files w.
Proof.
  unfold post_process_file. case_bool_decide; [|done].
  destruct (load_document Sys doc_path); [|done].
  by destruct (_post_process_document _ _ _ _ _ _ _).
Qed.

Lemma bind_run {St A B} (m : M St A) (k : A → M St B) s a s1 :
  m s = (Ok a, s1) → (m ≫= k) s = k a s1.
Proof. intros Hm. unfold mbind, M_bind. by rewrite Hm. Qed.

Lemma convert_tail_files E L cfg temp_md output_path title refs work_dir w :
  let lua_path :=
    path_join Sys (path_parent Sys temp_md) (lit "adjust_headers.lua") in
  write_text Sys lua_path LUA_SCRIPT = Written →
  unlink_succeeds Sys temp_md = true →
  unlink_succeeds Sys lua_path = true →
  let w' :=
    (try_finally
       (_run_pandoc_conversion Sys temp_md output_path title;;
        post_process_file Sys E L cfg output_path title refs work_dir;;
        log INFO ConversionSuccessful)
       (_cleanup_temp_markdown Sys temp_md) w).2 in
  (temp_md ∉ files w') ∧ (lua_path ∉ files w').
Proof.
  intros lua_path Hwrite Hunlink_md Hunlink_lua.
  match goal with |- context [try_finally ?b ?c] => set (body := b) end.
  assert (lua_path ∉ files (body w).2) as Hlua.
  { subst body. unfold mbind at 1. unfold M_bind at 1.
    pose proof (run_pandoc_conversion_files temp_md output_path title w
                  Hwrite Hunlink_lua) as Hrun.
    destruct (_run_pandoc_conversion Sys temp_md output_path title w)
      as [[[]|e] w1]; [|done].
    unfold mbind at 1. unfold M_bind at 1.
    pose proof (post_process_file_files E L cfg output_path title refs
                  work_dir w1) as Hpost.
    destruct (post_process_file Sys E L cfg output_path title refs work_dir w1)
      as [[[]|e] w2]; cbn [snd] in *; unfold log, modify; cbn;
      by rewrite Hpost. }
  destruct (body w) as [r w1] eqn:Hbody.
  destruct (cleanup_temp_markdown_files temp_md w1 Hunlink_md)
    as (w2 & Hclean & Hfiles).
  rewrite (try_finally_run _ _ _ _ _ _ Hbody Hclean). cbn [snd] in *.
  rewrite Hfiles. split.
  - apply not_elem_of_difference. right. by apply elem_of_singleton.
  - apply not_elem_of_difference. by left.
Qed.

(** C4, as the code has it: when the input file exists, the two temporary
    files are created and deleting them does not fail, neither of them
    exists once [convert] has returned or raised.  A deletion that fails
    is logged as a warning and leaves the file. *)
Theorem temporary_files_are_removed E L cfg input_file output_file
    working_dir w :
  let work_dir := resolve_dir Sys working_dir in
  let input_path := resolve_in Sys work_dir input_file in
  let temp_md :=
    path_join Sys work_dir (lit "temp_" ++ path_name Sys input_path) in
  let lua_path :=
    path_join Sys (path_parent Sys temp_md) (lit "adjust_headers.lua") in
  work_dir ∈ files w → input_path ∈ files w →
  (path_join Sys work_dir (lit "img") ∈ files w
   ∨ mkdir_succeeds Sys (path_join Sys work_dir (lit "img")) = true) →
  is_Some (read_text Sys input_path) →
  (∀ content, write_text Sys temp_md content = Written) →
  write_text Sys lua_path LUA_SCRIPT = Written →
  unlink_succeeds Sys temp_md = true →
  unlink_succeeds Sys lua_path = true →
  let w' := (convert Sys E L cfg input_file output_file working_dir w).2 in
  (temp_md ∉ files w') ∧ (lua_path ∉ files w').
Proof.
  intros work_dir input_path temp_md lua_path Hwork Hinput Himg [content Hread]
    Hwrite_md Hwrite_lua Hunlink_md Hunlink_lua.
  unfold convert.
  erewrite bind_run; cycle 1.
  { unfold _setup_paths, path_exists. fold work_dir. run_monad.
    by rewrite (bool_decide_eq_true_2 _ Hwork). }
  cbn beta iota. fold input_path.
  erewrite bind_run; cycle 1.
  { unfold path_exists. run_monad. by rewrite (bool_decide_eq_true_2 _ Hinput). }
  cbn [negb].
  assert (∃ wA, (if negb (markdown_suffix Sys input_path)
                 then log WARNING NotMarkdownFile else mret ()) w
                = (Ok (), wA) ∧ files wA = files w) as (wA & HA & HfA).
  { destruct (negb _); by eexists. }
  rewrite (bind_run _ _ _ _ _ HA).
  assert (∃ wB, _create_image_directory Sys work_dir wA
                = (Ok (path_join Sys work_dir (lit "img")), wB))
    as (wB & HB).
  { unfold _create_image_directory, path_exists. run_monad.
    case_bool_decide as Hdir; cbn [negb].
    - by eexists.
    - destruct Himg as [Himg|Himg]; [by rewrite HfA in Hdir|].
      rewrite Himg. by eexists. }
  rewrite (bind_run _ _ _ _ _ HB).
  erewrite bind_run; cycle 1.
  { unfold _read_markdown_content. by rewrite Hread. }
  cbv zeta.
  erewrite bind_run; cycle 1.
  { apply extract_image_references_refs. }
  erewrite bind_run; cycle 1.
  { unfold _create_temp_markdown, write_file. fold input_path. fold temp_md.
    rewrite Hwrite_md. reflexivity. }
  by apply convert_tail_files.
Qed.
End TemporaryFiles.

Lemma temporary_files_are_removed_witness :
  let w' :=
    (convert (machine true) no_images quiet_library default_config
       (lit "doc.md") (lit "doc.docx") None work_directory).2 in
  (lit "/work/temp_doc.md" ∉ files w') ∧
  (lit "/work/adjust_headers.lua" ∉ files w').
Proof.
  apply (temporary_files_are_removed (machine true) no_images quiet_library
           default_config (lit "doc.md") (lit "doc.docx") None work_directory).
  - apply (bool_decide_unpack _). vm_compute. exact I.
  - apply (bool_decide_unpack _). vm_compute. exact I.
  - right. reflexivity.
  - eexists. reflexivity.
  - reflexivity.
  - reflexivity.
  - reflexivity.
  - reflexivity.
Defined.

(** The claim of C4 fails where a file cannot be deleted: [convert]
    returns, both temporary files are still there, and the log has the
    two warnings. *)
Lemma undeletable_temporary_files_remain :
  lit "/work/doc.md" ∈ files work_directory ∧
  let '(r, w') :=
    convert (machine false) no_images quiet_library default_config
      (lit "doc.md") (lit "doc.docx") None work_directory in
  r = Ok () ∧
  lit "/work/temp_doc.md" ∈ files w' ∧
  lit "/work/adjust_headers.lua" ∈ files w' ∧
  (WARNING, CouldNotDeleteLua) ∈ records w' ∧
  (WARNING, CouldNotDeleteTempMarkdown) ∈ records w'.
Proof.
  split; [apply (bool_decide_unpack _); vm_compute; exact I|].
  destruct (convert _ _ _ _ _ _ _ _) as [r w'] eqn:Hrun.
  vm_compute in Hrun. injection Hrun as <- <-.
  split; [done|].
  split; [apply (bool_decide_unpack _); vm_compute; exact I|].
  split; [apply (bool_decide_unpack _); vm_compute; exact I|].
  cbn [records].
  split; repeat first [apply list_elem_of_here | apply list_elem_of_further].
Qed.

(** * Further properties *)

(** ** Strings *)

Lemma lstrip_head_not_space s :
  match lstrip s with [] => True | c :: _ => isspace c = false end.
Proof.
  induction s as [|c s IH]; [done|]. cbn [lstrip].
  by destruct (isspace c) eqn:Hc.
Qed.

Lemma lstrip_idemp s : lstrip (lstrip s) = lstrip s.
Proof.
  pose proof (lstrip_head_not_space s) as Hs.
  destruct (lstrip s) as [|c t]; [done|]. by apply lstrip_head.
Qed.

Lemma lstrip_snoc l c :
  isspace c = false → lstrip (l ++ [c]) = lstrip l ++ [c].
Proof.
  intros Hc. induction l as [|a l IH]; cbn [app lstrip].
  - by rewrite Hc.
  - by destruct (isspace a).
Qed.

Lemma rstrip_cons c s : isspace c = false → rstrip (c :: s) = c :: rstrip s.
Proof.
  intros Hc. unfold rstrip. cbn [rev]. rewrite lstrip_snoc by done.
  by rewrite rev_app_distr.
Qed.

Lemma rstrip_idemp s : rstrip (rstrip s) = rstrip s.
Proof. unfold rstrip. by rewrite rev_involutive, lstrip_idemp. Qed.

Lemma strip_idemp s : strip (strip s) = strip s.
Proof.
  unfold strip. pose proof (lstrip_head_not_space s) as Hs.
  destruct (lstrip s) as [|c t]; [done|].
  rewrite rstrip_cons by done. rewrite lstrip_head by done.
  rewrite <- rstrip_cons by done. apply rstrip_idemp.
Qed.

Lemma lstrip_elem x s : x ∈ lstrip s → x ∈ s.
Proof.
  induction s as [|c s IH]; [done|]. cbn [lstrip].
  destruct (isspace c); [|done]. intros Hx. right. by apply IH.
Qed.

Lemma elem_of_rev {A} (x : A) l : x ∈ rev l ↔ x ∈ l.
Proof. rewrite !list_elem_of_In. symmetry. apply in_rev. Qed.

Lemma strip_elem x s : x ∈ strip s → x ∈ s.
Proof.
  unfold strip, rstrip. rewrite elem_of_rev. intros Hx.
  apply lstrip_elem in Hx. rewrite elem_of_rev in Hx. by apply lstrip_elem.
Qed.

Lemma split_no_sep sep s line : line ∈ split sep s → sep ∉ line.
Proof.
  revert line. induction s as [|c s IH]; intros line; cbn [split].
  - intros ->%list_elem_of_singleton. apply not_elem_of_nil.
  - destruct (N.eqb_spec c sep) as [->|Hne].
    + intros [->|Hin]%elem_of_cons; [apply not_elem_of_nil|by apply IH].
    + destruct (split sep s) as [|l ls] eqn:Hsplit.
      * intros ->%list_elem_of_singleton.
        intros [->|[]%elem_of_nil]%elem_of_cons. done.
      * intros [->|Hin]%elem_of_cons.
        -- intros [->|Hin]%elem_of_cons; [done|].
           by apply (IH l); [left|].
        -- apply IH. by right.
Qed.

Lemma first_h1_elem lines title :
  first_h1 lines = Some title →
  ∃ line, line ∈ lines ∧ title = strip (drop 2 line).
Proof.
  induction lines as [|l lines IH]; [done|]. cbn [first_h1].
  destruct (startswith l (lit "# ")).
  - intros [= <-]. exists l. split; [by left|done].
  - intros (line & Hin & ->)%IH. exists line. split; [by right|done].
Qed.

(** ** The title *)

(** X1: the title never has surrounding whitespace and never holds a
    newline, whether it comes from a heading or is the fixed string. *)
Theorem title_is_stripped content :
  let title := _extract_title_from_markdown content in
  strip title = title ∧ (NEWLINE ∉ title).
Proof.
  cbv zeta. unfold _extract_title_from_markdown.
  destruct (first_h1 (split NEWLINE content)) as [title|] eqn:Hfirst.
  - apply first_h1_elem in Hfirst as (line & Hin & ->).
    split; [apply strip_idemp|].
    intros Hnl%strip_elem. apply (split_no_sep _ _ _ Hin).
    apply list_elem_of_lookup in Hnl as [i Hi].
    rewrite lookup_drop in Hi. by eapply list_elem_of_lookup_2.
  - split; [by vm_compute|].
    apply (bool_decide_unpack _). by vm_compute.
Qed.

(** ** The matches of the image pattern *)

Lemma match_path_chars acc s path rest :
  match_path acc s = Some (path, rest) →
  ∃ p, path = rev acc ++ p ∧ (41%N ∉ p) ∧ (NEWLINE ∉ p).
Proof.
  revert acc. induction s as [|c s IH]; intros acc; cbn [match_path]; [done|].
  destruct (N.eqb_spec c 41) as [->|Hc].
  - intros [= <- <-]. exists []. rewrite app_nil_r.
    split; [done|]. split; apply not_elem_of_nil.
  - destruct (N.eqb_spec c NEWLINE) as [|Hnl]; [done|]. intros H.
    destruct (IH _ H) as (p & -> & Hp & Hn). exists (c :: p).
    cbn [rev]. rewrite <- app_assoc. split; [done|].
    split; intros [?|?]%elem_of_cons; done.
Qed.

Lemma match_alt_chars acc s alt path rest :
  match_alt acc s = Some (alt, path, rest) →
  (∃ a, alt = rev acc ++ a ∧ (NEWLINE ∉ a)) ∧ (41%N ∉ path) ∧ (NEWLINE ∉ path).
Proof.
  revert acc. induction s as [|c s IH]; intros acc; [done|].
  cbn [match_alt].
  destruct (match c :: s with
            | 93%N :: 40%N :: s2 =>
                match match_path [] s2 with
                | Some (path, rest) => Some (rev acc, path, rest)
                | None => None
                end
            | _ => None
            end) as [[[a p] r]|] eqn:Hrest.
  - intros [= -> -> ->].
    destruct c as [|c]; [done|].
    repeat (destruct c as [c|c|]; try done).
    destruct s as [|d s]; [done|]. destruct d as [|d]; [done|].
    repeat (destruct d as [d|d|]; try done).
    destruct (match_path [] s) as [[p' r']|] eqn:Hp; [|done].
    injection Hrest as <- <- <-.
    apply match_path_chars in Hp as (q & -> & Hq & Hn).
    split; [|done]. exists []. rewrite app_nil_r.
    split; [done|apply not_elem_of_nil].
  - destruct (N.eqb_spec c NEWLINE) as [|Hnl]; [done|]. intros H.
    destruct (IH _ H) as ((a & -> & Ha) & Hp). split; [|done].
    exists (c :: a). cbn [rev]. rewrite <- app_assoc. split; [done|].
    intros [?|?]%elem_of_cons; done.
Qed.

Lemma match_here_chars s alt path rest :
  match_here s = Some (alt, path, rest) →
  (NEWLINE ∉ alt) ∧ (41%N ∉ path) ∧ (NEWLINE ∉ path).
Proof.
  unfold match_here. intros H.
  destruct s as [|c s]; [done|]. destruct c as [|c]; [done|].
  repeat (destruct c as [c|c|]; try done).
  destruct s as [|d s]; [done|]. destruct d as [|d]; [done|].
  repeat (destruct d as [d|d|]; try done).
  by apply match_alt_chars in H as ((a & -> & Ha) & Hp).
Qed.

Lemma findall_nil : findall [] = [].
Proof. reflexivity. Qed.

Lemma findall_chars s alt path :
  (alt, path) ∈ findall s →
  (NEWLINE ∉ alt) ∧ (41%N ∉ path) ∧ (NEWLINE ∉ path).
Proof.
  remember (length s) as n eqn:Hn. revert s Hn.
  induction n as [n IH] using lt_wf_ind. intros s -> Hin.
  destruct (match_here s) as [[[a p] rest]|] eqn:Hm.
  - rewrite (findall_match _ _ _ _ Hm) in Hin.
    apply elem_of_cons in Hin as [[= -> ->]|Hin].
    + by eapply match_here_chars.
    + eapply IH; [|reflexivity|done]. by eapply match_here_length.
  - destruct s as [|c s]; [rewrite findall_nil in Hin; by apply elem_of_nil in Hin|].
    rewrite (findall_skip _ _ Hm) in Hin.
    eapply IH; [|reflexivity|done]. simpl. lia.
Qed.

Lemma drop_elem {A} (x : A) n l : x ∈ drop n l → x ∈ l.
Proof.
  intros [i Hi]%list_elem_of_lookup. rewrite lookup_drop in Hi.
  by eapply list_elem_of_lookup_2.
Qed.

(** X2: no alt text of an extracted reference holds a newline, and no
    stored path holds a newline or a closing parenthesis: the path group
    ends at the first [)] of the line. *)
Theorem extracted_references_chars content (log : list log_record) :
  ∃ refs log',
    _extract_image_references content log = (Ok refs, log') ∧
    ∀ ref, ref ∈ refs →
           (NEWLINE ∉ alt_text ref) ∧ (41%N ∉ path ref) ∧
           (NEWLINE ∉ path ref).
Proof.
  rewrite extract_image_references_refs. eexists _, _. split; [done|].
  intros ref ([alt p] & -> & Hin)%list_elem_of_fmap.
  apply findall_chars in Hin as (Ha & Hp & Hn).
  unfold image_ref_of_match. cbn [alt_text path]. split; [done|].
  assert (∀ x, x ∈ (if startswith (strip p) (lit "img/")
                    then drop 4 (strip p) else strip p) → x ∈ p) as Hsub.
  { intros x Hx. apply strip_elem.
    destruct (startswith _ _); [by eapply drop_elem|done]. }
  split; intros Hx%Hsub; done.
Qed.

Lemma extracted_references_chars_witness :
  ∃ ref, path ref = lit "f(1" ∧ (41%N ∉ path ref).
Proof.
  destruct (extracted_references_chars (lit "![a](f(1).png)") [])
    as (refs & log' & Hrun & Hall).
  vm_compute in Hrun. injection Hrun as <- <-.
  exists {| alt_text := lit "a"; path := lit "f(1";
            original_markdown := lit "![a](f(1)" |}.
  split; [reflexivity|]. apply Hall. by left.
Defined.

(** ** Content without image references *)

Lemma match_here_head s alt path rest :
  match_here s = Some (alt, path, rest) → ∃ s', s = 33%N :: s'.
Proof.
  intros ->%match_here_spec. unfold markup. lit_norm. by eexists.
Qed.

Lemma findall_no_bang s : 33%N ∉ s → findall s = [].
Proof.
  induction s as [|c s IH]; [done|]. intros Hs.
  rewrite findall_skip.
  - apply IH. intros Hin. apply Hs. by right.
  - destruct (match_here (c :: s)) as [[[a p] r]|] eqn:Hm; [|done].
    apply match_here_head in Hm as [s' [= -> _]]. exfalso. apply Hs. by left.
Qed.

(** X3: the content is left as it is exactly when it has no image
    reference, which is the case of every content without a [!]. *)
Theorem content_without_references content :
  (findall content = [] ↔ _remove_image_references content = content) ∧
  (33%N ∉ content → findall content = []).
Proof.
  split; [|apply findall_no_bang].
  destruct (sub_placeholder_weave content) as (texts & Hlen & Hc & Hsub).
  unfold _remove_image_references. split.
  - intros Hnone. rewrite Hnone in *. by rewrite Hsub, Hc at 1.
  - intros Heq. destruct (findall content) as [|[alt p] ms]; [done|].
    exfalso. destruct texts as [|t texts]; [done|].
    cbn [length fmap list_fmap replicate weave uncurry] in *.
    rewrite Hsub in Heq. rewrite Hc in Heq.
    apply app_inv_head in Heq. revert Heq.
    unfold markup, PLACEHOLDER. lit_norm. cbn [app]. discriminate.
Qed.

Lemma content_without_references_witness :
  _remove_image_references (lit "# Title") = lit "# Title" ∧
  findall (lit "plain [link](x)") = [].
Proof.
  split.
  - apply (proj1 (content_without_references (lit "# Title"))).
    vm_compute. reflexivity.
  - apply (proj2 (content_without_references (lit "plain [link](x)"))).
    intros Hin. apply (bool_decide_pack _) in Hin. vm_compute in Hin. exact Hin.
Defined.

(** ** Inserted pictures *)

Lemma resize_width w h : (resize w h).1 = Z.min w MAX_IMAGE_WIDTH.
Proof.
  unfold resize. destruct (Z.ltb_spec MAX_IMAGE_WIDTH w); cbn [fst]; lia.
Qed.

Lemma resize_height_le w h :
  0 <= h → MAX_IMAGE_WIDTH * h < 2 ^ 52 → w < 2 ^ 63 →
  0 <= (resize w h).2 <= h.
Proof.
  intros Hh HM Hw. destruct (Z.le_gt_cases w MAX_IMAGE_WIDTH) as [Hle|Hgt].
  - unfold resize. destruct (Z.ltb_spec MAX_IMAGE_WIDTH w); cbn [snd]; lia.
  - destruct (Z.eq_dec h 0) as [->|Hne].
    { rewrite resize_zero_height by done. cbn [snd]. lia. }
    destruct (resize_height_bounds w h) as [[Hlo Hhi] Hexact]; [lia|done..|].
    assert (0 < w) as Hw0 by (change MAX_IMAGE_WIDTH with 5486400 in *; lia).
    assert (0 <= MAX_IMAGE_WIDTH * h)
      by (change MAX_IMAGE_WIDTH with 5486400; lia).
    set (M := MAX_IMAGE_WIDTH * h) in *.
    assert (M / w <= h) as Hq.
    { apply Z.lt_succ_r. apply Z.div_lt_upper_bound; [done|].
      unfold M. change MAX_IMAGE_WIDTH with 5486400 in *. nia. }
    split; [|lia].
    destruct (Z.eq_dec (M / w) 0) as [Hz|Hnz].
    + rewrite Hexact; [lia|].
      rewrite Z.mod_small; [unfold M; change MAX_IMAGE_WIDTH with 5486400; lia|].
      split; [done|]. apply Z.div_small_iff in Hz as [?|?]; lia.
    + assert (0 <= M / w) by (apply Z.div_pos; lia). lia.
Qed.

(** X4: a picture that is embedded is never wider than [MAX_IMAGE_WIDTH]
    and never larger than it was: the paragraph is left with one centered
    run that holds the picture and no text, in its style; the width is the
    smaller of the natural width and [MAX_IMAGE_WIDTH], and for sizes with
    [MAX_IMAGE_WIDTH * height < 2^52] the height is between 0 and the
    natural height. *)
Theorem inserted_picture_fits {St} `{Logging St} E para ref refs img_dir
    w h (s : St) :
  file_exists E (joinpath E img_dir (path ref)) = Some true →
  add_picture E (joinpath E img_dir (path ref)) = Some (w, h) →
  ∃ para' s' w' h',
    _insert_single_image E para (ref :: refs) img_dir s
    = (Ok (para', refs), s') ∧
    p_runs para'
    = [{| r_text := []; r_picture := Some (w', h'); r_font := plain_font |}] ∧
    p_style para' = p_style para ∧ p_alignment para' = Some CENTER ∧
    text para' = [] ∧
    w' = Z.min w MAX_IMAGE_WIDTH ∧
    (w <= MAX_IMAGE_WIDTH → h' = h) ∧
    (0 <= h → MAX_IMAGE_WIDTH * h < 2 ^ 52 → w < 2 ^ 63 → 0 <= h' <= h).
Proof.
  intros Hfile Hpic.
  destruct (insert_single_image_picture E img_dir para ref refs w h s
              Hfile Hpic) as (s' & Hrun).
  eexists _, s', (resize w h).1, (resize w h).2.
  split; [exact Hrun|].
  split; [cbn; by destruct (resize w h)|].
  split; [done|]. split; [done|]. split; [done|].
  split; [apply resize_width|]. split.
  - intros Hle. unfold resize.
    by destruct (Z.ltb_spec MAX_IMAGE_WIDTH w); [lia|].
  - apply resize_height_le.
Qed.

(** The values of a sample configuration are ones the library stores. *)
Ltac storable_values :=
  repeat split; try (apply (bool_decide_unpack _); vm_compute; exact I);
  vm_compute; congruence.

Lemma inserted_picture_fits_witness :
  ∃ para' (s' : list log_record) h',
    _insert_single_image wide_images (normal_paragraph PLACEHOLDER)
      [image_ref_of_match (lit "x", lit "p.png")] (lit "img") []
    = (Ok (para', []), s') ∧
    p_runs para'
    = [{| r_text := []; r_picture := Some (MAX_IMAGE_WIDTH, h');
          r_font := plain_font |}] ∧
    0 <= h' <= 12065000.
Proof.
  destruct (inserted_picture_fits wide_images (normal_paragraph PLACEHOLDER)
              (image_ref_of_match (lit "x", lit "p.png")) [] (lit "img")
              90487500 12065000 ([] : list log_record) eq_refl eq_refl)
    as (para' & s' & w' & h' & Hrun & Hruns & _ & _ & _ & Hw & _ & Hh).
  exists para', s', h'. split; [exact Hrun|]. split.
  - rewrite Hruns, Hw. reflexivity.
  - apply Hh; vm_compute; done.
Defined.

(** ** The paragraph loop *)

Section Loop.
Context {St : Type} `{Logging St}.
Context (E : image_files) (cfg : DocumentConfig) (img_dir : str).

Lemma format_normal_paragraph_content para :
  p_style (_format_normal_paragraph cfg para) = p_style para ∧
  text (_format_normal_paragraph cfg para) = text para ∧
  r_picture <$> p_runs (_format_normal_paragraph cfg para)
  = r_picture <$> p_runs para.
Proof.
  unfold _format_normal_paragraph, text, map_runs, set_spacing.
  cbn [p_runs p_style]. by rewrite <- !list_fmap_compose.
Qed.

Lemma insert_single_image_style para ref refs (s : St) para' refs' s' :
  _insert_single_image E para (ref :: refs) img_dir s
  = (Ok (para', refs'), s') →
  p_style para' = p_style para.
Proof.
  unfold _insert_single_image, assign_text. run_monad.
  destruct (negb (suffix_supported E _)); cbn beta iota;
    (destruct (file_exists E _) as [[]|];
     [destruct (add_picture E _) as [[w h]|]| |]);
    cbn beta iota; try done;
    try (destruct (xml_compatible _); cbn beta iota; [|done]);
    by intros [= <- _ _].
Qed.

Lemma process_one_kept para refs (s : St) :
  Forall (resolves E img_dir) refs →
  ∃ para' refs1 s1,
    (if is_placeholder para && negb (bool_decide (refs = []))
     then _insert_single_image E para refs img_dir
     else if bool_decide (p_style para ∈
               ["Title"; "Heading 1"; "Heading 2"; "Heading 3"]%string)
     then mret (para, refs)
     else if bool_decide (p_style para = "Normal"%string)
     then mret (_format_normal_paragraph cfg para, refs)
     else mret (para, refs)) s
    = (Ok (para', refs1), s1) ∧
    kept para para' ∧
    (refs = [] → refs1 = [] ∧ s1 = s ∧ text para' = text para).
Proof.
  intros Hrefs.
  pose proof (format_normal_paragraph_content para) as (Hstyle & Htext & Hpic).
  assert (∀ r : list image_ref, ∃ para' s1,
            ((if bool_decide (p_style para ∈
                    ["Title"; "Heading 1"; "Heading 2"; "Heading 3"]%string)
              then mret (para, r)
              else if bool_decide (p_style para = "Normal"%string)
              then mret (_format_normal_paragraph cfg para, r)
              else mret (para, r)) : M St (paragraph * list image_ref)) s
            = (Ok (para', r), s1) ∧ s1 = s ∧
            p_style para' = p_style para ∧ text para' = text para ∧
            r_picture <$> p_runs para' = r_picture <$> p_runs para ∧
            (p_style para ∈ HEADINGS → para' = para)) as Hplain.
  { intros r. unfold HEADINGS.
    repeat case_bool_decide; eexists _, _; (split; [reflexivity|]);
      repeat split; try done. }
  destruct (is_placeholder para) eqn:Hp; [destruct refs as [|ref refs]|].
  - cbn [andb negb]. rewrite bool_decide_eq_true_2 by done. cbn [negb].
    destruct (Hplain []) as (p' & s1 & Hrun & -> & Hs & Ht & _).
    exists p', [], s. split; [done|]. split.
    + unfold kept. rewrite Hp. repeat split; try done.
    + intros _. repeat split; done.
  - rewrite bool_decide_eq_false_2 by done. cbn [andb negb].
    apply Forall_cons in Hrefs as [Href _].
    destruct (insert_single_image_returns E img_dir para ref refs s Href)
      as (p' & s1 & Hi).
    exists p', refs, s1. split; [done|]. split; [|done].
    split; [by eapply insert_single_image_style|]. rewrite Hp. by split.
  - cbn [andb].
    destruct (Hplain refs) as (p' & s1 & Hrun & -> & Hs & Ht & Hpics & Hh).
    exists p', refs, s. split; [done|]. split.
    + unfold kept. repeat split; auto.
    + intros ->. repeat split; done.
Qed.

Lemma process_paragraphs_kept paragraphs refs (s : St) :
  Forall (resolves E img_dir) refs →
  ∃ paragraphs' refs' s',
    process_paragraphs E cfg img_dir paragraphs refs s
    = (Ok (paragraphs', refs'), s') ∧
    Forall2 kept paragraphs paragraphs' ∧
    (refs = [] →
     s' = s ∧ Forall2 (λ p p', text p' = text p) paragraphs paragraphs').
Proof.
  revert refs s. induction paragraphs as [|para rest IH]; intros refs s Hrefs.
  - exists [], refs, s. split; [done|]. split; [constructor|].
    intros _. split; [done|constructor].
  - rewrite process_paragraphs_cons.
    destruct (process_one_kept para refs s Hrefs)
      as (para' & refs1 & s1 & Hone & Hkept & Hnil).
    rewrite Hone.
    assert (Forall (resolves E img_dir) refs1) as Hrefs1.
    { destruct (process_one E cfg img_dir para refs s Hrefs)
        as (p1 & t1 & Hone' & _).
      rewrite Hone in Hone'. injection Hone' as _ -> _.
      by apply Forall_drop. }
    destruct (IH refs1 s1 Hrefs1) as (rest' & refs2 & s2 & -> & Hrest & Hnil').
    exists (para' :: rest'), refs2, s2. split; [done|].
    split; [by constructor|]. intros Hnone.
    destruct (Hnil Hnone) as (-> & -> & Htext).
    destruct (Hnil' eq_refl) as (-> & Htexts). split; [done|by constructor].
Qed.

(** X5: with values the library stores, and image references for each of
    which looking for the file answers and whose alt text is text the
    document takes, the loop over the paragraphs returns as many
    paragraphs as it was given and keeps the style of each; a paragraph
    without a placeholder keeps its text and its pictures, and is not
    touched at all if it is the title or a heading.  Without image
    references the loop logs nothing and every paragraph keeps its text,
    placeholders included. *)
Theorem paragraphs_are_kept paragraphs refs (s : St) :
  storable cfg → Forall (resolves E img_dir) refs →
  ∃ paragraphs' refs' s',
    process_paragraphs E cfg img_dir paragraphs refs s
    = (Ok (paragraphs', refs'), s') ∧
    Forall2 kept paragraphs paragraphs' ∧
    (refs = [] →
     s' = s ∧ Forall2 (λ p p', text p' = text p) paragraphs paragraphs').
Proof. intros _. apply process_paragraphs_kept. Qed.
End Loop.

Lemma paragraphs_are_kept_witness :
  ∃ paragraphs' refs' (s' : list log_record),
    process_paragraphs no_images default_config (lit "img")
      [normal_paragraph PLACEHOLDER; normal_paragraph (lit "Text")]
      [image_ref_of_match (lit "x", lit "p.png")] []
    = (Ok (paragraphs', refs'), s') ∧
    Forall2 kept [normal_paragraph PLACEHOLDER; normal_paragraph (lit "Text")]
      paragraphs'.
Proof.
  destruct (paragraphs_are_kept no_images default_config (lit "img")
              [normal_paragraph PLACEHOLDER; normal_paragraph (lit "Text")]
              [image_ref_of_match (lit "x", lit "p.png")]
              ([] : list log_record))
    as (ps & refs' & s' & Hrun & Hkept & _).
  { storable_values. }
  { constructor; [|constructor]. split; [by eexists|reflexivity]. }
  exists ps, refs', s'. split; [exact Hrun|exact Hkept].
Defined.

(** ** The title block *)

Section TitleBlock.
Context (cfg : DocumentConfig) (title : str).

Lemma set_paragraph_middle done para rest x s :
  set_paragraph (length done) x (with_body (done ++ para :: rest) s)
  = (Ok (), with_body (done ++ x :: rest) s).
Proof.
  unfold set_paragraph, modify_doc, modify, with_body. cbn.
  do 2 f_equal. unfold with_paragraphs. cbn. f_equal.
  rewrite insert_app_r_alt by done. by rewrite Nat.sub_diag.
Qed.

Lemma title_loop_after post : ∀ done i t s,
  length done = i → (t < i)%nat →
  style_main_title_loop cfg title post i (Some t) (with_body (done ++ post) s)
  = (Ok (),
     with_body (done ++ (byline_paragraph cfg <$> take (t + 3 - i) post)
                ++ drop (t + 3 - i) post) s).
Proof.
  induction post as [|para rest IH]; intros done i t s Hlen Hlt.
  - cbn. by rewrite take_nil, drop_nil.
  - cbn [style_main_title_loop]. case_bool_decide as Hnext.
    + unfold mbind, M_bind. subst i.
      rewrite set_paragraph_middle.
      fold (byline_paragraph cfg para).
      replace (done ++ byline_paragraph cfg para :: rest)
        with ((done ++ [byline_paragraph cfg para]) ++ rest)
        by by rewrite <- app_assoc.
      rewrite (IH _ _ t); [|rewrite length_app; simpl; lia|lia].
      f_equal. f_equal. rewrite <- !app_assoc. f_equal. cbn [app].
      destruct Hnext as [->| ->].
      * replace (t + 3 - (t + 1))%nat with 2%nat by lia.
        replace (t + 3 - S (t + 1))%nat with 1%nat by lia. done.
      * replace (t + 3 - (t + 2))%nat with 1%nat by lia.
        replace (t + 3 - S (t + 2))%nat with 0%nat by lia. done.
    + case_bool_decide as Hbreak; [|lia].
      replace (t + 3 - i)%nat with 0%nat by lia. done.
Qed.

Lemma title_loop_before pre : ∀ done para post s,
  is_Some (d_styles (the_doc s) !! "Title"%string) →
  (∀ p, p ∈ pre → text p ≠ title) → text para = title →
  style_main_title_loop cfg title (pre ++ para :: post) (length done) None
    (with_body (done ++ pre ++ para :: post) s)
  = (Ok (),
     with_body (done ++ pre ++ title_paragraph cfg title para
                :: (byline_paragraph cfg <$> take 2 post) ++ drop 2 post) s).
Proof.
  induction pre as [|p pre IH]; intros done para post s [st Hst] Hpre Hpara.
  - cbn [app style_main_title_loop].
    rewrite bool_decide_eq_true_2 by done.
    unfold lookup_style. unfold mbind, M_bind, get, mret, M_ret.
    cbn [with_body the_doc with_paragraphs d_styles]. rewrite Hst.
    rewrite set_paragraph_middle. fold (title_paragraph cfg title para).
    replace (done ++ title_paragraph cfg title para :: post)
      with ((done ++ [title_paragraph cfg title para]) ++ post)
      by by rewrite <- app_assoc.
    replace (S (length done))
      with (length (done ++ [title_paragraph cfg title para]))
      by (rewrite length_app; simpl; lia).
    rewrite title_loop_after; [|done|rewrite length_app; simpl; lia].
    rewrite <- !app_assoc. cbn [app]. do 6 f_equal; rewrite length_app; simpl;
      f_equal; lia.
  - cbn [app style_main_title_loop].
    rewrite bool_decide_eq_false_2 by (apply Hpre; by left).
    replace (done ++ p :: pre ++ para :: post)
      with ((done ++ [p]) ++ pre ++ para :: post) by by rewrite <- app_assoc.
    replace (S (length done)) with (length (done ++ [p]))
      by (rewrite length_app; simpl; lia).
    rewrite IH; [|by eexists|intros q Hq; apply Hpre; by right|done].
    by rewrite <- !app_assoc.
Qed.

Lemma title_loop_absent paragraphs : ∀ i s,
  (∀ p, p ∈ paragraphs → text p ≠ title) →
  style_main_title_loop cfg title paragraphs i None s = (Ok (), s).
Proof.
  induction paragraphs as [|p rest IH]; intros i s Hall; [done|].
  cbn [style_main_title_loop].
  rewrite bool_decide_eq_false_2 by (apply Hall; by left).
  apply IH. intros q Hq. apply Hall. by right.
Qed.

Lemma with_body_id s : with_body (d_paragraphs (the_doc s)) s = s.
Proof. by destruct s as [[] ?]. Qed.

Lemma style_main_title_found s pre para post :
  is_Some (d_styles (the_doc s) !! "Title"%string) →
  d_paragraphs (the_doc s) = pre ++ para :: post →
  (∀ p, p ∈ pre → text p ≠ title) → text para = title →
  let paragraphs' :=
    pre ++ title_paragraph cfg title para
    :: (byline_paragraph cfg <$> take 2 post) ++ drop 2 post in
  _style_main_title cfg title s = (Ok (), with_body paragraphs' s) ∧
  text <$> paragraphs' = text <$> d_paragraphs (the_doc s).
Proof.
  intros Hstyle Hparas Hpre Hpara paragraphs'. split.
  - unfold _style_main_title. unfold mbind, M_bind, get. rewrite Hparas.
    rewrite <- (with_body_id s) at 1. rewrite Hparas.
    by apply (title_loop_before pre []).
  - subst paragraphs'. rewrite Hparas.
    rewrite !fmap_app, !fmap_cons, !fmap_app, <- !list_fmap_compose.
    f_equal. f_equal.
    + unfold title_paragraph, text.
      destruct (center_title cfg); cbn; by rewrite app_nil_r.
    + rewrite <- (take_drop 2 post) at 3. rewrite fmap_app. f_equal.
      apply list_fmap_ext. intros i p _. unfold byline_paragraph, text.
      destruct (center_title cfg); cbn; by rewrite app_nil_r.
Qed.

Lemma style_main_title_absent s :
  (∀ p, p ∈ d_paragraphs (the_doc s) → text p ≠ title) →
  _style_main_title cfg title s = (Ok (), s).
Proof.
  intros Hall. unfold _style_main_title. unfold mbind, M_bind, get.
  by apply title_loop_absent.
Qed.

(** X6: with a ['Title'] style in the document and values the library
    stores, the first paragraph that holds the title gets that style and
    the title in one bold run, the two paragraphs after it are rewritten
    as plain runs of their own text, and nothing else changes: the other
    paragraphs, the text of every paragraph, the styles and the log are
    as before.  When no paragraph holds the title, nothing changes at
    all, with or without the style. *)
Theorem main_title_block s :
  (∀ pre para post,
     storable cfg →
     is_Some (d_styles (the_doc s) !! "Title"%string) →
     d_paragraphs (the_doc s) = pre ++ para :: post →
     (∀ p, p ∈ pre → text p ≠ title) → text para = title →
     ∃ s',
       _style_main_title cfg title s = (Ok (), s') ∧
       s' = with_body (pre ++ title_paragraph cfg title para
                       :: (byline_paragraph cfg <$> take 2 post)
                       ++ drop 2 post) s ∧
       text <$> d_paragraphs (the_doc s') = text <$> d_paragraphs (the_doc s)) ∧
  ((∀ p, p ∈ d_paragraphs (the_doc s) → text p ≠ title) →
   _style_main_title cfg title s = (Ok (), s)).
Proof.
  split; [|apply style_main_title_absent].
  intros pre para post _ Hstyle Hparas Hpre Hpara.
  destruct (style_main_title_found s pre para post Hstyle Hparas Hpre Hpara)
    as [Hrun Htext].
  eexists. split; [exact Hrun|]. split; [reflexivity|]. exact Htext.
Qed.

Lemma first_occurrence paragraphs :
  (∀ p, p ∈ paragraphs → text p ≠ title) ∨
  ∃ pre para post,
    paragraphs = pre ++ para :: post ∧
    (∀ p, p ∈ pre → text p ≠ title) ∧ text para = title.
Proof.
  induction paragraphs as [|p rest IH].
  - left. intros p Hp. by apply elem_of_nil in Hp.
  - destruct (decide (text p = title)) as [Hp|Hp].
    + right. exists [], p, rest. split; [done|]. split; [|done].
      intros q Hq. by apply elem_of_nil in Hq.
    + destruct IH as [Hall|(pre & para & post & -> & Hpre & Hpara)].
      * left. intros q [->|Hq]%elem_of_cons; [done|by apply Hall].
      * right. exists (p :: pre), para, post. split; [done|].
        split; [|done].
        intros q [->|Hq]%elem_of_cons; [done|by apply Hpre].
Qed.

Lemma style_main_title_returns s :
  is_Some (d_styles (the_doc s) !! "Title"%string)
  ∨ (∀ p, p ∈ d_paragraphs (the_doc s) → text p ≠ title) →
  ∃ paragraphs',
    _style_main_title cfg title s = (Ok (), with_body paragraphs' s) ∧
    text <$> paragraphs' = text <$> d_paragraphs (the_doc s).
Proof.
  intros Hcan.
  destruct (first_occurrence (d_paragraphs (the_doc s)))
    as [Hall|(pre & para & post & Hparas & Hpre & Hpara)].
  - exists (d_paragraphs (the_doc s)). rewrite with_body_id.
    split; [by apply style_main_title_absent|done].
  - destruct Hcan as [Hstyle|Hall].
    + eexists. by apply (style_main_title_found s pre para post).
    + exfalso. apply (Hall para); [|done]. rewrite Hparas.
      apply elem_of_app. right. by left.
Qed.
End TitleBlock.

Lemma main_title_block_witness :
  ∃ s',
    _style_main_title default_config (lit "Report") titled_state = (Ok (), s') ∧
    text <$> d_paragraphs (the_doc s')
    = [lit "Notes"; lit "Report"; lit "A. Author"; lit "2024"; lit "Some text."] ∧
    p_style <$> d_paragraphs (the_doc s')
    = ["Normal"; "Title"; "Normal"; "Normal"; "Normal"]%string.
Proof.
  destruct (proj1 (main_title_block default_config (lit "Report") titled_state)
              [normal_paragraph (lit "Notes")]
              (normal_paragraph (lit "Report"))
              [normal_paragraph (lit "A. Author"); normal_paragraph (lit "2024");
               normal_paragraph (lit "Some text.")])
    as (s' & Hrun & Hs' & Htext).
  - storable_values.
  - by eexists.
  - reflexivity.
  - intros p Hp. apply list_elem_of_singleton in Hp as ->. by vm_compute.
  - reflexivity.
  - exists s'. split; [exact Hrun|]. split.
    + rewrite Htext. reflexivity.
    + rewrite Hs'. reflexivity.
Defined.

(** ** Style configuration *)

Lemma validate_color_rgb color : validate_color color = Ok () → is_rgb color.
Proof.
  destruct color as [cs|]; [|done]. simpl.
  destruct cs as [|r [|g [|b [|x cs]]]]; try done.
  cbn [length Nat.eqb negb].
  destruct (forallb _ [r; g; b]) eqn:Hall; [|done]. intros _.
  exists r, g, b. split; [done|].
  simpl in Hall. rewrite !andb_true_iff in Hall. lia.
Qed.

Lemma validate_colors_rgb colors :
  validate_colors colors = Ok () →
  ∀ level color, (level, color) ∈ colors → is_rgb color.
Proof.
  induction colors as [|[l c] colors IH]; intros Hok level color Hin.
  - by apply elem_of_nil in Hin.
  - simpl in Hok. destruct (validate_color c) as [[]|] eqn:Hc; [|done].
    apply elem_of_cons in Hin as [[= -> ->]|Hin]; [|by eapply IH].
    by apply validate_color_rgb.
Qed.

Lemma heading_color_rgb colors level :
  (∀ l c, (l, c) ∈ colors → is_rgb c) → is_rgb (heading_color colors level).
Proof.
  induction colors as [|[l c] colors IH]; intros Hall.
  - exists 0, 0, 0. repeat split; lia.
  - simpl. destruct (l =? level).
    + apply (Hall l). by left.
    + apply IH. intros l' c' Hin. apply (Hall l'). by right.
Qed.

Lemma RGBColor_rgb color : is_rgb color → ∃ rgb, RGBColor color = Ok rgb.
Proof.
  intros (r & g & b & -> & Hr & Hg & Hb). exists (r, g, b). simpl.
  repeat match goal with
         | |- context [(?a <=? ?b)] => destruct (Z.leb_spec a b); try lia
         end.
  done.
Qed.

Lemma init_validated a cfg :
  DocumentConfig_init a = Ok cfg → _validate cfg = Ok ().
Proof.
  unfold DocumentConfig_init.
  match goal with |- context [_validate ?s] => set (self := s) end.
  destruct (_validate self) as [[]|] eqn:Hv; [|done]. by intros [= <-].
Qed.

Lemma validated_heading_color cfg level :
  _validate cfg = Ok () →
  ∃ rgb, RGBColor (heading_color (heading_colors cfg) level) = Ok rgb.
Proof.
  unfold _validate. intros Hv.
  repeat match type of Hv with
         | (if ?b then _ else _) = _ => destruct b; [done|]
         end.
  destruct (validate_colors _) as [[]|] eqn:Hc; [|done].
  apply RGBColor_rgb, heading_color_rgb. by apply validate_colors_rgb.
Qed.

Lemma alter_alter (f g : docx_style → docx_style) name
    (styles : gmap string docx_style) :
  alter f name (alter g name styles) = alter (f ∘ g) name styles.
Proof.
  apply map_eq. intros i. destruct (decide (name = i)) as [->|Hne].
  - rewrite !lookup_alter_eq. by destruct (styles !! i).
  - by rewrite !lookup_alter_ne.
Qed.

Lemma apply_style_configuration_run is_heading name config s :
  color_ok config →
  apply_style_configuration is_heading name config s
  = (Ok (),
     if d_styles (the_doc s) !! name is Some _
     then restyle (alter (restyled is_heading config) name) s
     else emit (WARNING, StyleNotFound name) s).
Proof.
  intros Hcolor. unfold apply_style_configuration, try_except, lookup_style.
  unfold mbind, M_bind at 1. unfold mbind, M_bind at 1. unfold get.
  destruct (d_styles (the_doc s) !! name) as [st|] eqn:Hst; [|done].
  unfold mret, M_ret, update_style, modify_doc, modify, mbind, M_bind.
  fold (restyle (alter (with_font (set_font_name_size (sc_font_name config)
                                     (sc_font_size config))) name) s).
  assert (∀ f g (s : docx_state),
            {| the_doc := with_styles (alter f name) (the_doc (restyle (alter g name) s));
               the_log := the_log (restyle (alter g name) s) |}
            = restyle (alter (f ∘ g) name) s) as Hstep.
  { intros f g s0. unfold restyle, with_styles. cbn. do 2 f_equal.
    by rewrite alter_alter. }
  rewrite Hstep.
  unfold restyled.
  destruct (default false (sc_italic config)); [rewrite Hstep|];
    (destruct (sc_color config) as [color|] eqn:Hc;
     [destruct (Hcolor color Hc) as [rgb ->]; rewrite Hstep|]);
    rewrite Hstep; (destruct is_heading; [rewrite Hstep|]); done.
Qed.

Lemma missing_styles_cons styles name names :
  missing_styles styles (name :: names)
  = (if styles !! name is Some _ then [] else [(WARNING, StyleNotFound name)])
    ++ missing_styles styles names.
Proof.
  unfold missing_styles. rewrite filter_cons.
  destruct (decide (styles !! name = None)) as [Hn|Hn].
  - by rewrite Hn.
  - by destruct (styles !! name).
Qed.

Lemma missing_styles_alter f name styles names :
  missing_styles (alter f name styles) names = missing_styles styles names.
Proof.
  unfold missing_styles. f_equal. apply list_filter_iff. intros n.
  destruct (decide (name = n)) as [->|Hne].
  - rewrite lookup_alter_eq. by destruct (styles !! n).
  - by rewrite lookup_alter_ne.
Qed.

Lemma apply_style_configurations_run styles_config is_heading :
  Forall (λ nc, color_ok nc.2) styles_config → NoDup styles_config.*1 →
  ∀ s, ∃ styles',
    _apply_style_configurations styles_config is_heading s
    = (Ok (),
       {| the_doc := with_styles (λ _, styles') (the_doc s);
          the_log := the_log s
                     ++ missing_styles (d_styles (the_doc s)) styles_config.*1 |}) ∧
    dom styles' = dom (d_styles (the_doc s)) ∧
    (∀ name, name ∉ styles_config.*1 →
             styles' !! name = d_styles (the_doc s) !! name) ∧
    (∀ name config, (name, config) ∈ styles_config →
       styles' !! name = restyled is_heading config <$> d_styles (the_doc s) !! name).
Proof.
  induction styles_config as [|[name config] rest IH];
    intros Hok Hnodup s.
  - exists (d_styles (the_doc s)). cbn. rewrite app_nil_r.
    split; [by destruct s as [[] ?]|]. split; [done|]. split; [done|].
    intros name config Hin. by apply elem_of_nil in Hin.
  - apply Forall_cons in Hok as [Hcolor Hok].
    rewrite fmap_cons in Hnodup. apply NoDup_cons in Hnodup as [Hfresh Hnodup].
    cbn [_apply_style_configurations]. unfold mbind, M_bind.
    rewrite apply_style_configuration_run by done.
    set (s1 := if d_styles (the_doc s) !! name is Some _
               then restyle (alter (restyled is_heading config) name) s
               else emit (WARNING, StyleNotFound name) s).
    destruct (IH Hok Hnodup s1) as (styles' & Hrun & Hdom & Hframe & Hnamed).
    exists styles'. rewrite Hrun. rewrite fmap_cons, missing_styles_cons.
    cbn [fst].
    assert (d_styles (the_doc s1)
            = if d_styles (the_doc s) !! name is Some _
              then alter (restyled is_heading config) name (d_styles (the_doc s))
              else d_styles (the_doc s)) as Hs1.
    { subst s1. by destruct (d_styles (the_doc s) !! name). }
    split; [|split; [|split]].
    + f_equal. subst s1.
      destruct (d_styles (the_doc s) !! name); cbn.
      * by rewrite missing_styles_alter.
      * by rewrite <- app_assoc.
    + rewrite Hdom, Hs1.
      destruct (d_styles (the_doc s) !! name); [by rewrite dom_alter_L|done].
    + intros n Hn. apply not_elem_of_cons in Hn as [Hne Hn].
      rewrite (Hframe n Hn), Hs1.
      destruct (d_styles (the_doc s) !! name); [by rewrite lookup_alter_ne|done].
    + intros n c Hin. apply elem_of_cons in Hin as [[= -> ->]|Hin].
      * rewrite (Hframe name Hfresh), Hs1.
        destruct (d_styles (the_doc s) !! name) eqn:Hst;
          [by rewrite lookup_alter_eq, Hst|by rewrite Hst].
      * rewrite (Hnamed n c Hin), Hs1.
        assert (name ≠ n) as Hne.
        { intros ->. apply Hfresh. apply list_elem_of_fmap. by exists (n, c). }
        destruct (d_styles (the_doc s) !! name); [by rewrite lookup_alter_ne|done].
Qed.

(** X7: [_apply_style_configurations] on entries with distinct style names
    and values the library stores returns; each style of the document that
    an entry names takes the values of its entry, each named style the
    document lacks gives one warning, in the order of the entries; the
    names of the styles and every other style stay as they are, and so
    does the rest of the document. *)
Theorem style_configurations_applied styles_config is_heading s :
  NoDup styles_config.*1 → Forall (λ nc, entry_ok nc.2) styles_config →
  ∃ styles',
    _apply_style_configurations styles_config is_heading s
    = (Ok (),
       {| the_doc := with_styles (λ _, styles') (the_doc s);
          the_log := the_log s
                     ++ missing_styles (d_styles (the_doc s)) styles_config.*1 |}) ∧
    dom styles' = dom (d_styles (the_doc s)) ∧
    (∀ name, name ∉ styles_config.*1 →
             styles' !! name = d_styles (the_doc s) !! name) ∧
    (∀ name config, (name, config) ∈ styles_config →
       styles' !! name = restyled is_heading config <$> d_styles (the_doc s) !! name).
Proof.
  intros Hnodup Hok. apply apply_style_configurations_run; [|done].
  eapply Forall_impl; [exact Hok|]. by intros nc (_ & _ & _ & _ & _ & ?).
Qed.

Lemma style_configurations_applied_witness :
  ∃ s',
    _configure_standard_styles default_config
      {| the_doc := untitled_document; the_log := [] |} = (Ok (), s') ∧
    the_log s' = [(WARNING, StyleNotFound "Title")] ∧
    dom (d_styles (the_doc s')) = dom (d_styles untitled_document).
Proof.
  unfold _configure_standard_styles.
  match goal with
  | |- context [_apply_style_configurations ?l ?h ?s] =>
      destruct (style_configurations_applied l h s)
        as (styles' & Hrun & Hdom & _)
  end.
  - apply (bool_decide_unpack _). vm_compute. exact I.
  - repeat constructor; cbn; try lia; try done;
      try (apply (bool_decide_unpack _); vm_compute; exact I);
      vm_compute; congruence.
  - eexists. split; [exact Hrun|]. split; [|exact Hdom].
    cbn [the_log]. vm_compute. reflexivity.
Defined.

(** ** Global styles *)

Lemma validated_colors cfg :
  _validate cfg = Ok () →
  ∀ level, ∃ rgb, RGBColor (heading_color (heading_colors cfg) level) = Ok rgb.
Proof. intros Hv level. by apply validated_heading_color. Qed.

Lemma missing_styles_ext styles1 styles2 names :
  (∀ name, name ∈ names → styles1 !! name = styles2 !! name) →
  missing_styles styles1 names = missing_styles styles2 names.
Proof.
  induction names as [|name names IH]; intros Heq; [done|].
  rewrite !missing_styles_cons, (Heq name) by by left.
  f_equal. apply IH. intros n Hn. apply Heq. by right.
Qed.

Lemma missing_styles_app styles names1 names2 :
  missing_styles styles (names1 ++ names2)
  = missing_styles styles names1 ++ missing_styles styles names2.
Proof. unfold missing_styles. by rewrite filter_app, fmap_app. Qed.

Lemma configure_styles_run cfg s :
  _validate cfg = Ok () →
  ∃ styles',
    (_configure_standard_styles cfg;; _configure_heading_styles cfg) s
    = (Ok (),
       {| the_doc := with_styles (λ _, styles') (the_doc s);
          the_log := the_log s
                     ++ missing_styles (d_styles (the_doc s)) CONFIGURED |}) ∧
    dom styles' = dom (d_styles (the_doc s)) ∧
    (∀ name, name ∉ CONFIGURED →
             styles' !! name = d_styles (the_doc s) !! name) ∧
    (∀ name level st,
       (name, level) ∈ HEADING_LEVELS → styles' !! name = Some st →
       st_base_style st = None ∧ st_numPr st = false ∧
       f_bold (st_font st) = Some true ∧
       f_name (st_font st) = Some (font_name cfg) ∧
       ∃ rgb, RGBColor (heading_color (heading_colors cfg) level) = Ok rgb ∧
              f_color (st_font st) = Some rgb).
Proof.
  intros Hv. unfold _configure_standard_styles, _configure_heading_styles.
  unfold mbind, M_bind.
  match goal with
  | |- context [_apply_style_configurations ?l false s] =>
      destruct (apply_style_configurations_run l false) with (s := s)
        as (styles1 & -> & Hdom1 & Hframe1 & _)
  end.
  { repeat constructor; by intros color [=]. }
  { apply (bool_decide_unpack _). vm_compute. exact I. }
  match goal with
  | |- context [_apply_style_configurations ?l true ?s1] =>
      destruct (apply_style_configurations_run l true) with (s := s1)
        as (styles2 & -> & Hdom2 & Hframe2 & Hnamed2)
  end.
  { repeat constructor; intros color [= <-]; by apply validated_colors. }
  { apply (bool_decide_unpack _). vm_compute. exact I. }
  cbn [the_doc the_log with_styles d_styles] in *.
  exists styles2. split; [|split; [|split]].
  - f_equal. f_equal.
    rewrite <- app_assoc. f_equal. unfold CONFIGURED.
    change ["Normal"; "Title"; "Heading 1"; "Heading 2"; "Heading 3"]%string
      with (["Normal"; "Title"]%string
            ++ ["Heading 1"; "Heading 2"; "Heading 3"]%string).
    rewrite missing_styles_app. f_equal. apply missing_styles_ext.
    intros name Hname. rewrite Hframe1; [done|].
    intros Hin. revert Hname Hin. cbn [fmap list_fmap fst].
    rewrite !elem_of_cons, !elem_of_nil.
    intros [->|[->|[->|[]]]] [?|[?|[]]]; done.
  - by rewrite Hdom2.
  - intros name Hname. rewrite Hframe2, Hframe1; [done| |].
    + intros Hin. apply Hname. unfold CONFIGURED. revert Hin.
      cbn [fmap list_fmap fst]. rewrite !elem_of_cons, !elem_of_nil. tauto.
    + intros Hin. apply Hname. unfold CONFIGURED. revert Hin.
      cbn [fmap list_fmap fst]. rewrite !elem_of_cons, !elem_of_nil. tauto.
  - intros name level st Hin Hst. unfold HEADING_LEVELS in Hin.
    rewrite !elem_of_cons, elem_of_nil in Hin.
    destruct (validated_colors cfg Hv level) as [rgb Hrgb].
    destruct Hin as [[= -> ->]|[[= -> ->]|[[= -> ->]|[]]]];
      (erewrite Hnamed2 in Hst;
       [|repeat first [apply list_elem_of_here | apply list_elem_of_further]]);
      destruct (styles1 !! _) as [st0|]; try done;
      injection Hst as <-; unfold restyled; cbn; rewrite Hrgb; cbn;
      repeat split; eauto.
Qed.

Lemma bind_ok_inv {St A B} (m : M St A) (k : A → M St B) s b s2 :
  (m ≫= k) s = (Ok b, s2) → ∃ a s1, m s = (Ok a, s1) ∧ k a s1 = (Ok b, s2).
Proof.
  unfold mbind, M_bind. destruct (m s) as [[a|e] s1]; [|done]. by exists a, s1.
Qed.

Lemma configure_sections_ok cfg geometry sections :
  (∀ sec, configure_section cfg sec = Ok geometry) →
  configure_sections cfg sections
  = Ok (replicate (length sections) geometry).
Proof.
  intros Hg. induction sections as [|sec rest IH]; [done|].
  cbn [configure_sections]. by rewrite Hg, IH.
Qed.

Lemma configure_sections_raise cfg e sections :
  (∀ sec, configure_section cfg sec = Raise e) → sections ≠ [] →
  configure_sections cfg sections = Raise e.
Proof.
  intros He Hne. destruct sections as [|sec rest]; [done|].
  cbn [configure_sections]. by rewrite He.
Qed.

Lemma Cm_at_most hi x : at_most hi x → ∃ emu, Cm x = Ok emu.
Proof. destruct x; cbn; by eauto. Qed.

Lemma margin_at_most cfg hi i x :
  margins cfg !! i = Some x → at_most hi x → ∃ emu, margin cfg i = Ok emu.
Proof. intros Hx Hhi. unfold margin. rewrite Hx. by eapply Cm_at_most. Qed.

Lemma configure_section_portrait cfg sec geometry :
  configure_section cfg sec = Ok geometry →
  page_width geometry < page_height geometry ∧
  margin cfg 0 = Ok (top_margin geometry) ∧
  margin cfg 1 = Ok (right_margin geometry) ∧
  margin cfg 2 = Ok (bottom_margin geometry) ∧
  margin cfg 3 = Ok (left_margin geometry).
Proof.
  unfold configure_section.
  destruct (margin cfg 0) as [mt|]; [|by destruct (paper_size cfg)].
  destruct (margin cfg 1) as [mr|]; [|by destruct (paper_size cfg)].
  destruct (margin cfg 2) as [mb|]; [|by destruct (paper_size cfg)].
  destruct (margin cfg 3) as [ml|]; [|by destruct (paper_size cfg)].
  destruct page_sizes as (Hletter & Hwidth & Hheight & _).
  destruct (paper_size cfg); rewrite ?Hletter, ?Hwidth, ?Hheight;
    intros [= <-]; cbn; repeat split; unfold Inches; lia.
Qed.

Lemma apply_global_styles_run cfg s :
  _validate cfg = Ok () →
  (∀ i, (i < 4)%nat → ∃ x, margins cfg !! i = Some x ∧ at_most 50 x) →
  ∃ styles' geometry,
    _apply_global_styles cfg s
    = (Ok (),
       {| the_doc :=
            {| d_styles := styles';
               d_default_lang := Some (language cfg);
               d_sections :=
                 replicate (length (d_sections (the_doc s))) geometry;
               d_paragraphs := d_paragraphs (the_doc s);
               d_tables := d_tables (the_doc s);
               d_footnotes := d_footnotes (the_doc s) |};
          the_log := the_log s
                     ++ missing_styles (d_styles (the_doc s)) CONFIGURED |}) ∧
    dom styles' = dom (d_styles (the_doc s)) ∧
    (∀ name, name ∉ CONFIGURED →
             styles' !! name = d_styles (the_doc s) !! name) ∧
    (∀ name level st,
       (name, level) ∈ HEADING_LEVELS → styles' !! name = Some st →
       st_base_style st = None ∧ st_numPr st = false ∧
       f_bold (st_font st) = Some true ∧
       f_name (st_font st) = Some (font_name cfg) ∧
       ∃ rgb, RGBColor (heading_color (heading_colors cfg) level) = Ok rgb ∧
              f_color (st_font st) = Some rgb) ∧
    page_width geometry < page_height geometry ∧
    margin cfg 0 = Ok (top_margin geometry) ∧
    margin cfg 1 = Ok (right_margin geometry) ∧
    margin cfg 2 = Ok (bottom_margin geometry) ∧
    margin cfg 3 = Ok (left_margin geometry).
Proof.
  intros Hv Hmargins.
  destruct (Hmargins 0%nat ltac:(lia)) as (x0 & Hx0 & Hm0).
  destruct (Hmargins 1%nat ltac:(lia)) as (x1 & Hx1 & Hm1).
  destruct (Hmargins 2%nat ltac:(lia)) as (x2 & Hx2 & Hm2).
  destruct (Hmargins 3%nat ltac:(lia)) as (x3 & Hx3 & Hm3).
  destruct (margin_at_most _ _ _ _ Hx0 Hm0) as [mt Hmt].
  destruct (margin_at_most _ _ _ _ Hx1 Hm1) as [mr Hmr].
  destruct (margin_at_most _ _ _ _ Hx2 Hm2) as [mb Hmb].
  destruct (margin_at_most _ _ _ _ Hx3 Hm3) as [ml Hml].
  assert (∃ geometry, ∀ sec, configure_section cfg sec = Ok geometry)
    as [geometry Hg].
  { unfold configure_section. rewrite Hmt, Hmr, Hmb, Hml.
    destruct (paper_size cfg); by eexists. }
  set (s0 := {| the_doc :=
                  {| d_styles := d_styles (the_doc s);
                     d_default_lang := Some (language cfg);
                     d_sections := d_sections (the_doc s);
                     d_paragraphs := d_paragraphs (the_doc s);
                     d_tables := d_tables (the_doc s);
                     d_footnotes := d_footnotes (the_doc s) |};
                the_log := the_log s |}).
  destruct (configure_styles_run cfg s0 Hv)
    as (styles' & Hrun & Hdom & Hframe & Hheadings).
  apply bind_ok_inv in Hrun as ([] & s1 & Hstd & Hhead).
  exists styles', geometry. split; [|split; [|split; [|split]]]; try done.
  - unfold _apply_global_styles. unfold mbind at 1, M_bind at 1.
    change (_set_document_language cfg s) with (Ok (), s0).
    cbn beta iota. unfold mbind at 1, M_bind at 1. rewrite Hstd.
    unfold mbind at 1, M_bind at 1. rewrite Hhead.
    unfold _configure_section_properties, mbind, M_bind, get.
    cbn [the_doc with_styles d_sections s0].
    by rewrite (configure_sections_ok _ geometry).
  - by apply (configure_section_portrait cfg geometry).
Qed.

(** X8: with a configuration [_validate] accepts, values the library
    stores and four margins, [_apply_global_styles] returns on every
    document.  The default language of the document is the configured
    one.  The five styles it configures give one warning each when
    missing, in the order of the calls; the names of the styles and every
    other style are as before, and a heading style that is there ends
    without base style and numbering, bold, in the configured font and in
    the color of its level, black when the configuration gives none.
    Every section gets the same portrait page with the four margins; the
    paragraphs, tables and footnotes are not touched. *)
Theorem global_styles_applied cfg s :
  _validate cfg = Ok () → storable cfg →
  (∀ i, (i < 4)%nat → ∃ x, margins cfg !! i = Some x ∧ at_most 50 x) →
  ∃ styles' geometry,
    _apply_global_styles cfg s
    = (Ok (),
       {| the_doc :=
            {| d_styles := styles';
               d_default_lang := Some (language cfg);
               d_sections :=
                 replicate (length (d_sections (the_doc s))) geometry;
               d_paragraphs := d_paragraphs (the_doc s);
               d_tables := d_tables (the_doc s);
               d_footnotes := d_footnotes (the_doc s) |};
          the_log := the_log s
                     ++ missing_styles (d_styles (the_doc s)) CONFIGURED |}) ∧
    dom styles' = dom (d_styles (the_doc s)) ∧
    (∀ name, name ∉ CONFIGURED →
             styles' !! name = d_styles (the_doc s) !! name) ∧
    (∀ name level st,
       (name, level) ∈ HEADING_LEVELS → styles' !! name = Some st →
       st_base_style st = None ∧ st_numPr st = false ∧
       f_bold (st_font st) = Some true ∧
       f_name (st_font st) = Some (font_name cfg) ∧
       ∃ rgb, RGBColor (heading_color (heading_colors cfg) level) = Ok rgb ∧
              f_color (st_font st) = Some rgb) ∧
    page_width geometry < page_height geometry ∧
    margin cfg 0 = Ok (top_margin geometry) ∧
    margin cfg 1 = Ok (right_margin geometry) ∧
    margin cfg 2 = Ok (bottom_margin geometry) ∧
    margin cfg 3 = Ok (left_margin geometry).
Proof. intros Hv _. by apply apply_global_styles_run. Qed.

Lemma global_styles_applied_witness :
  ∃ s',
    _apply_global_styles default_config
      {| the_doc := untitled_document; the_log := [] |} = (Ok (), s') ∧
    the_log s' = [(WARNING, StyleNotFound "Title")] ∧
    d_default_lang (the_doc s') = Some (lit "en-US") ∧
    d_paragraphs (the_doc s') = d_paragraphs untitled_document.
Proof.
  destruct (global_styles_applied default_config
              {| the_doc := untitled_document; the_log := [] |})
    as (styles' & geometry & Hrun & _).
  - vm_compute. reflexivity.
  - repeat split; try (apply (bool_decide_unpack _); vm_compute; exact I);
      vm_compute; congruence.
  - intros [|[|[|[|i]]]] Hi; try lia; (eexists; split; [reflexivity|]);
      vm_compute; split; congruence.
  - eexists. split; [exact Hrun|]. cbn [the_log the_doc d_default_lang d_paragraphs].
    split; [|done]. vm_compute. reflexivity.
Defined.

(** X9: the constructor accepts a list of fewer than four margins, and
    with it [_apply_global_styles] raises [IndexError] on every document
    that has a section. *)
Theorem short_margins_raise a cfg s :
  DocumentConfig_init a = Ok cfg → storable cfg →
  (length (margins cfg) < 4)%nat → Forall (at_most 50) (margins cfg) →
  d_sections (the_doc s) ≠ [] →
  ∃ s', _apply_global_styles cfg s = (Raise IndexError, s').
Proof.
  intros Hinit _ Hshort Hmargins Hsections.
  apply init_validated in Hinit.
  set (s0 := {| the_doc :=
                  {| d_styles := d_styles (the_doc s);
                     d_default_lang := Some (language cfg);
                     d_sections := d_sections (the_doc s);
                     d_paragraphs := d_paragraphs (the_doc s);
                     d_tables := d_tables (the_doc s);
                     d_footnotes := d_footnotes (the_doc s) |};
                the_log := the_log s |}).
  destruct (configure_styles_run cfg s0 Hinit) as (styles' & Hrun & _).
  apply bind_ok_inv in Hrun as ([] & s1 & Hstd & Hhead).
  eexists. unfold _apply_global_styles. unfold mbind at 1, M_bind at 1.
  change (_set_document_language cfg s) with (Ok (), s0).
  cbn beta iota. unfold mbind at 1, M_bind at 1. rewrite Hstd.
  unfold mbind at 1, M_bind at 1. rewrite Hhead.
  unfold _configure_section_properties, mbind, M_bind, get.
  cbn [the_doc with_styles d_sections s0].
  rewrite (configure_sections_raise _ IndexError); [done| |done].
  intros sec. unfold configure_section, margin.
  destruct (margins cfg) as [|x0 [|x1 [|x2 [|x3 ms]]]]; cbn in Hshort; try lia;
    repeat match goal with
           | H : Forall _ (_ :: _) |- _ => apply Forall_cons in H as [? H]
           end;
    cbn [lookup list_lookup];
    repeat match goal with
           | H : at_most _ ?x |- _ =>
               destruct (Cm_at_most _ _ H) as [? ->]; clear H
           end;
    by destruct (paper_size cfg).
Qed.

Lemma short_margins_raise_witness :
  ∃ cfg s',
    DocumentConfig_init two_margins = Ok cfg ∧
    _apply_global_styles cfg {| the_doc := untitled_document; the_log := [] |}
    = (Raise IndexError, s').
Proof.
  assert (∃ cfg, DocumentConfig_init two_margins = Ok cfg ∧
                 margins cfg = [Int 2; Int 2] ∧
                 font_name cfg = lit "Arial" ∧ language cfg = lit "en-US" ∧
                 base_font_size cfg = 12 ∧ line_spacing cfg = ONE)
    as (cfg & Hinit & Hmargins & Hfont & Hlang & Hsize & Hspacing).
  { eexists. split; [vm_compute; reflexivity|]. by vm_compute. }
  destruct (short_margins_raise two_margins cfg
              {| the_doc := untitled_document; the_log := [] |} Hinit)
    as [s' Hrun].
  - unfold storable. rewrite Hfont, Hlang, Hsize, Hspacing.
    repeat split; try (apply (bool_decide_unpack _); vm_compute; exact I);
      vm_compute; congruence.
  - rewrite Hmargins. cbn. lia.
  - rewrite Hmargins. repeat constructor; lia.
  - done.
  - by exists cfg, s'.
Defined.

(** ** Tables *)

Lemma set_cell_borders_spec c :
  (∃ e, tcPr (_set_cell_borders c) = Some e ∧
        is_Some (find "w:tcBorders" e)) ∧
  (∀ e, tcPr c = Some e → is_Some (find "w:tcBorders" e) →
        tcPr (_set_cell_borders c) = Some e) ∧
  c_paragraphs (_set_cell_borders c) = c_paragraphs c.
Proof.
  unfold _set_cell_borders, get_or_add_tcPr.
  destruct (tcPr c) as [e|] eqn:He.
  - destruct (find "w:tcBorders" e) as [b|] eqn:Hb.
    + rewrite He. split; [by eauto|]. split; [|done]. by intros ? [= <-].
    + cbn [tcPr c_paragraphs]. split; [|split; [|done]].
      * eexists. split; [done|]. rewrite find_append_new, Hb. by eexists.
      * intros ? [= <-] [? Hsome]. congruence.
  - cbn. split; [by eauto|]. split; [done|done].
Qed.

Section Cells.
Context (cfg : DocumentConfig).

Lemma format_table_cell_tcPr is_header c :
  tcPr (_format_table_cell cfg is_header c) = tcPr c.
Proof. done. Qed.

Lemma format_body_paragraphs c :
  Forall2 (cell_paragraph cfg false) (c_paragraphs c)
    (c_paragraphs (_format_table_cell cfg false c)).
Proof.
  unfold _format_table_cell. cbn [c_paragraphs].
  apply Forall2_fmap_r, Forall_Forall2_diag, Forall_forall. intros p _.
  unfold cell_paragraph, text, map_runs, set_spacing, add_run.
  destruct (p_runs p) as [|r rs] eqn:Hruns; cbn; rewrite ?Hruns; cbn.
  - repeat split; try done. repeat constructor; done.
  - repeat split; try done.
    + by rewrite <- list_fmap_compose.
    + by rewrite <- list_fmap_compose.
    + constructor; [done|]. apply Forall_fmap, Forall_forall. by intros.
Qed.

Lemma format_header_paragraphs c :
  Forall2 (cell_paragraph cfg true) (c_paragraphs c)
    (c_paragraphs (_format_table_cell cfg false
                     (_format_table_cell cfg true c))).
Proof.
  unfold _format_table_cell. cbn [c_paragraphs].
  rewrite <- list_fmap_compose.
  apply Forall2_fmap_r, Forall_Forall2_diag, Forall_forall. intros p _.
  unfold cell_paragraph, text, map_runs, set_spacing, add_run.
  destruct (p_runs p) as [|r rs] eqn:Hruns; cbn; rewrite ?Hruns; cbn.
  - repeat split; try done. repeat constructor; done.
  - repeat split; try done.
    + by rewrite <- !list_fmap_compose.
    + by rewrite <- !list_fmap_compose.
    + constructor; [done|]. rewrite <- list_fmap_compose.
      apply Forall_fmap, Forall_forall. by intros.
Qed.

Lemma formatted_body c :
  formatted cfg false c (_set_cell_borders (_format_table_cell cfg false c)).
Proof.
  destruct (set_cell_borders_spec (_format_table_cell cfg false c))
    as (Hhas & Hkeep & Hparas).
  split; [done|]. split; [|rewrite Hparas; apply format_body_paragraphs].
  intros e He Hb. by apply Hkeep.
Qed.

Lemma formatted_header c :
  formatted cfg true c
    (_set_cell_borders (_format_table_cell cfg false
                          (_format_table_cell cfg true c))).
Proof.
  destruct (set_cell_borders_spec
              (_format_table_cell cfg false (_format_table_cell cfg true c)))
    as (Hhas & Hkeep & Hparas).
  split; [done|]. split; [|rewrite Hparas; apply format_header_paragraphs].
  intros e He Hb. by apply Hkeep.
Qed.

Lemma process_table_formatted rows :
  formatted_table cfg rows (process_table cfg rows).
Proof.
  destruct rows as [|header rest]; [done|].
  unfold process_table, formatted_table. rewrite fmap_cons. split.
  - rewrite <- list_fmap_compose.
    apply Forall2_fmap_r, Forall_Forall2_diag, Forall_forall. intros c _.
    apply formatted_header.
  - apply Forall2_fmap_r, Forall_Forall2_diag, Forall_forall. intros row _.
    apply Forall2_fmap_r, Forall_Forall2_diag, Forall_forall. intros c _.
    apply formatted_body.
Qed.

(** X10: with values the library stores, [_process_tables] returns and
    changes nothing but the tables.  Each table keeps its rows and cells
    and each cell its paragraphs, with their style, alignment and text.
    Afterwards every cell has borders, its own if it had some; every
    paragraph of a cell has a run, and every run is in the configured
    font at the size of tables, bold in the first row, and in the
    configured language if it is in the first row or was there before. *)
Theorem tables_are_formatted s :
  storable cfg →
  ∃ tables',
    _process_tables cfg s
    = (Ok (),
       {| the_doc :=
            {| d_styles := d_styles (the_doc s);
               d_default_lang := d_default_lang (the_doc s);
               d_sections := d_sections (the_doc s);
               d_paragraphs := d_paragraphs (the_doc s);
               d_tables := tables';
               d_footnotes := d_footnotes (the_doc s) |};
          the_log := the_log s |}) ∧
    Forall2 (formatted_table cfg) (d_tables (the_doc s)) tables'.
Proof.
  intros _. eexists. split; [reflexivity|].
  apply Forall2_fmap_r, Forall_Forall2_diag, Forall_forall. intros rows _.
  apply process_table_formatted.
Qed.
End Cells.

Lemma tables_are_formatted_witness :
  ∃ tables',
    (_process_tables default_config table_state).1 = Ok () ∧
    d_tables (the_doc (_process_tables default_config table_state).2) = tables' ∧
    Forall2 (formatted_table default_config) (d_tables (the_doc table_state))
      tables'.
Proof.
  destruct (tables_are_formatted default_config table_state)
    as (tables' & Hrun & Htables).
  - storable_values.
  - exists tables'. by rewrite Hrun.
Defined.

(** ** Footnotes *)

Lemma qn_without_colon : qn (lit "w") = Raise ValueError.
Proof. by vm_compute. Qed.

Lemma format_footnote_paragraphs_raises cfg p rest :
  format_footnote_paragraphs cfg (p :: rest) = Raise ValueError.
Proof.
  cbn [format_footnote_paragraphs]. unfold format_footnote_paragraph.
  by rewrite qn_without_colon.
Qed.

Lemma process_footnotes_run cfg s :
  let text_style :=
    set_style_spacing 0 0 ONE
    ∘ with_font (set_font_name_size (font_name cfg) DEFAULT_FOOTNOTE_FONT_SIZE) in
  let ref_style :=
    with_font (λ f, set_superscript true
                      (set_font_name_size (font_name cfg)
                         DEFAULT_FOOTNOTE_FONT_SIZE f)) in
  _process_footnotes cfg s
  = (Ok (),
     match d_styles (the_doc s) !! "Footnote Text"%string with
     | None => emit (WARNING, FootnoteStyleNotFound "Footnote Text") s
     | Some _ =>
         let s1 := restyle (alter text_style "Footnote Text"%string) s in
         match d_styles (the_doc s) !! "Footnote Reference"%string with
         | None => emit (WARNING, FootnoteStyleNotFound "Footnote Reference") s1
         | Some _ =>
             let styles :=
               alter (with_font (_set_language_for_run cfg)) "Footnote Text"%string
                 (alter ref_style "Footnote Reference"%string
                    (d_styles (the_doc s1))) in
             {| the_doc :=
                  {| d_styles := styles;
                     d_default_lang := d_default_lang (the_doc s);
                     d_sections := d_sections (the_doc s);
                     d_paragraphs := d_paragraphs (the_doc s);
                     d_tables := d_tables (the_doc s);
                     d_footnotes := d_footnotes (the_doc s) |};
                the_log := the_log s ++ footnote_warnings s |}
         end
     end).
Proof.
  cbv zeta. unfold _process_footnotes, try_except, lookup_style.
  unfold mbind at 1, M_bind at 1. unfold mbind at 1, M_bind at 1. unfold get at 1.
  destruct (d_styles (the_doc s) !! "Footnote Text"%string) as [t|] eqn:Ht;
    [|done].
  unfold mret at 1, M_ret at 1.
  unfold update_style, modify_doc, modify, get, mret, M_ret, mbind, M_bind.
  unfold restyle, emit, docx_logging, footnote_warnings.
  cbn [the_doc the_log with_styles d_styles d_default_lang d_sections
       d_paragraphs d_tables d_footnotes].
  rewrite !lookup_alter_ne by done.
  destruct (d_styles (the_doc s) !! "Footnote Reference"%string);
    unfold raise, with_styles;
    cbn [the_doc the_log with_styles d_styles d_default_lang d_sections
         d_paragraphs d_tables d_footnotes]; [|by rewrite alter_alter].
  destruct (d_footnotes (the_doc s)) as [[|p rest]|] eqn:Hnotes.
  - cbn [format_footnote_paragraphs]. unfold log, modify, emit, docx_logging.
    cbn [the_doc the_log]. by rewrite alter_alter, app_nil_r.
  - rewrite format_footnote_paragraphs_raises.
    unfold log, modify, emit, docx_logging.
    cbn [the_doc the_log]. by rewrite alter_alter.
  - by rewrite alter_alter, app_nil_r.
Qed.

(** X11: with values the library stores, [_process_footnotes] returns on
    every document and touches nothing but the two footnote styles and
    the log: the footnotes stay as they are.  Without a ['Footnote Text']
    style it only logs a warning.  With that style and without
    ['Footnote Reference'], the first one has already been given the
    configured font when the warning is logged: it stays so, without the
    configured language.  With both styles the reference style is
    superscript and the text style is in the configured language; then,
    where the document has no footnotes part or one without a paragraph,
    nothing is logged, and where it has a footnote paragraph, the loop
    over them raises at the first one, on [qn("w")]: one warning is
    logged, and no footnote paragraph gets its spacing or the language on
    its runs. *)
Theorem footnotes_processed cfg s :
  storable cfg →
  let styles := d_styles (the_doc s) in
  ∃ s',
    _process_footnotes cfg s = (Ok (), s') ∧
    d_paragraphs (the_doc s') = d_paragraphs (the_doc s) ∧
    d_tables (the_doc s') = d_tables (the_doc s) ∧
    d_sections (the_doc s') = d_sections (the_doc s) ∧
    d_default_lang (the_doc s') = d_default_lang (the_doc s) ∧
    d_footnotes (the_doc s') = d_footnotes (the_doc s) ∧
    dom (d_styles (the_doc s')) = dom styles ∧
    (∀ name, name ≠ "Footnote Text"%string →
             name ≠ "Footnote Reference"%string →
             d_styles (the_doc s') !! name = styles !! name) ∧
    (styles !! "Footnote Text"%string = None →
     s' = emit (WARNING, FootnoteStyleNotFound "Footnote Text") s) ∧
    (∀ t, styles !! "Footnote Text"%string = Some t →
          styles !! "Footnote Reference"%string = None →
          the_log s'
          = the_log s ++ [(WARNING, FootnoteStyleNotFound "Footnote Reference")] ∧
          ∃ t', d_styles (the_doc s') !! "Footnote Text"%string = Some t' ∧
                f_name (st_font t') = Some (font_name cfg) ∧
                f_size (st_font t') = Some DEFAULT_FOOTNOTE_FONT_SIZE ∧
                f_lang (st_font t') = f_lang (st_font t)) ∧
    (∀ t r, styles !! "Footnote Text"%string = Some t →
            styles !! "Footnote Reference"%string = Some r →
            (∃ t' r',
               d_styles (the_doc s') !! "Footnote Text"%string = Some t' ∧
               d_styles (the_doc s') !! "Footnote Reference"%string = Some r' ∧
               f_name (st_font t') = Some (font_name cfg) ∧
               f_lang (st_font t') = Some (language cfg) ∧
               f_name (st_font r') = Some (font_name cfg) ∧
               f_superscript (st_font r') = Some true) ∧
            (d_footnotes (the_doc s) = None ∨ d_footnotes (the_doc s) = Some [] →
             the_log s' = the_log s) ∧
            (∀ p rest, d_footnotes (the_doc s) = Some (p :: rest) →
                       format_footnote_paragraphs cfg (p :: rest)
                       = Raise ValueError ∧
                       the_log s' = the_log s ++ [(WARNING, FootnoteWarning)])).
Proof.
  intros _ styles. eexists. split; [apply process_footnotes_run|].
  subst styles. cbv zeta.
  destruct (d_styles (the_doc s) !! "Footnote Text"%string) as [t|] eqn:Ht.
  - destruct (d_styles (the_doc s) !! "Footnote Reference"%string)
      as [r|] eqn:Hr.
    + cbn [the_doc the_log restyle with_styles d_styles d_default_lang
           d_sections d_paragraphs d_tables d_footnotes].
      do 5 (split; [done|]).
      split; [by rewrite !dom_alter_L|].
      split; [intros name Hn1 Hn2; by rewrite !lookup_alter_ne|].
      split; [done|]. split; [done|].
      intros ? ? [= <-] [= <-]. split; [|split].
      * eexists _, _. rewrite lookup_alter_eq, lookup_alter_ne by done.
        rewrite lookup_alter_eq, Ht. cbn [fmap option_fmap option_map].
        rewrite lookup_alter_ne by done.
        rewrite lookup_alter_eq, lookup_alter_ne by done.
        rewrite Hr. cbn [fmap option_fmap option_map].
        repeat split; done.
      * unfold footnote_warnings.
        intros [-> | ->]; by rewrite app_nil_r.
      * unfold footnote_warnings. intros p rest ->.
        split; [apply format_footnote_paragraphs_raises|done].
    + cbn [the_doc the_log restyle emit docx_logging with_styles d_styles
           d_default_lang d_sections d_paragraphs d_tables d_footnotes].
      do 5 (split; [done|]).
      split; [by rewrite dom_alter_L|].
      split; [intros name Hn1 Hn2; by rewrite lookup_alter_ne|].
      split; [done|]. split; [|done].
      intros ? [= <-] _. split; [done|].
      eexists. rewrite lookup_alter_eq, Ht. cbn. repeat split; done.
  - do 5 (split; [done|]). repeat split; done.
Qed.

Lemma footnotes_processed_witness :
  ∃ s',
    _process_footnotes default_config footnote_state = (Ok (), s') ∧
    the_log s' = [(WARNING, FootnoteWarning)] ∧
    d_footnotes (the_doc s') = Some [normal_paragraph (lit "A note.")].
Proof.
  destruct (footnotes_processed default_config footnote_state)
    as (s' & Hrun & _ & _ & _ & _ & Hnotes & _ & _ & _ & _ & Hboth).
  - storable_values.
  - exists s'. split; [exact Hrun|]. split; [|exact Hnotes].
    destruct (Hboth plain_style plain_style eq_refl eq_refl) as (_ & _ & Hlog).
    exact (proj2 (Hlog _ _ eq_refl)).
Defined.

(** ** The conversion *)

Section Conversion.
Context (Sys : system) (E : image_files) (L : docx_library).
Context (cfg : DocumentConfig).


Lemma convert_start input_file output_file working_dir w content :
  let work_dir := resolve_dir Sys working_dir in
  let input_path := resolve_in Sys work_dir input_file in
  let output_path := resolve_in Sys work_dir output_file in
  let img_dir := path_join Sys work_dir (lit "img") in
  work_dir ∈ files w → input_path ∈ files w →
  img_dir ∈ files w ∨ mkdir_succeeds Sys img_dir = true →
  read_text Sys input_path = Some content →
  ∃ w1,
    convert Sys E L cfg input_file output_file working_dir w
    = (temp_md ← _create_temp_markdown Sys content work_dir input_path;
       try_finally
         (_run_pandoc_conversion Sys temp_md output_path
            (_extract_title_from_markdown content);;
          post_process_file Sys E L cfg output_path
            (_extract_title_from_markdown content)
            (image_ref_of_match <$> findall content) work_dir;;
          log INFO ConversionSuccessful)
         (_cleanup_temp_markdown Sys temp_md)) w1 ∧
    files w1 = {[img_dir]} ∪ files w.
Proof.
  intros work_dir input_path output_path img_dir Hwork Hinput Himg Hread.
  unfold convert.
  erewrite bind_run; cycle 1.
  { unfold _setup_paths, path_exists. fold work_dir. run_monad.
    by rewrite (bool_decide_eq_true_2 _ Hwork). }
  cbn beta iota. fold input_path output_path.
  erewrite bind_run; cycle 1.
  { unfold path_exists. run_monad. by rewrite (bool_decide_eq_true_2 _ Hinput). }
  cbn [negb].
  assert (∃ wA, (if negb (markdown_suffix Sys input_path)
                 then log WARNING NotMarkdownFile else mret ()) w
                = (Ok (), wA) ∧ files wA = files w) as (wA & HA & HfA).
  { destruct (negb _); by eexists. }
  rewrite (bind_run _ _ _ _ _ HA).
  assert (∃ wB, _create_image_directory Sys work_dir wA = (Ok img_dir, wB) ∧
                files wB = {[img_dir]} ∪ files w)
    as (wB & HB & HfB).
  { unfold _create_image_directory, path_exists. fold img_dir. run_monad.
    rewrite HfA. case_bool_decide as Hdir; cbn [negb].
    - eexists. split; [done|]. rewrite HfA.
      symmetry. apply subseteq_union_1_L. by apply singleton_subseteq_l.
    - destruct Himg as [Himg|Himg]; [done|]. rewrite Himg.
      eexists. split; [done|]. cbn. by rewrite HfA. }
  rewrite (bind_run _ _ _ _ _ HB).
  erewrite bind_run; cycle 1.
  { unfold _read_markdown_content. by rewrite Hread. }
  cbv zeta.
  erewrite bind_run; cycle 1.
  { apply extract_image_references_refs. }
  eexists. split; [reflexivity|]. done.
Qed.

Lemma create_temp_markdown_run content work_dir input_path w :
  let temp_md :=
    path_join Sys work_dir (lit "temp_" ++ path_name Sys input_path) in
  _create_temp_markdown Sys content work_dir input_path w
  = match write_text Sys temp_md (_remove_image_references content) with
    | Written =>
        (Ok temp_md, {| files := {[temp_md]} ∪ files w; records := records w |})
    | WriteFailed =>
        (Raise IOError,
         {| files := {[temp_md]} ∪ files w; records := records w |})
    | OpenFailed => (Raise IOError, w)
    end.
Proof.
  intros temp_md. unfold _create_temp_markdown, write_file. fold temp_md.
  by destruct (write_text Sys temp_md _).
Qed.

(** X13: when the temporary Markdown file cannot be written, [convert]
    raises [IOError] before the [try] whose [finally] clause would delete
    it: if the failure comes once the file is open, the file is left
    behind.  No file that was there is gone. *)
Theorem temp_markdown_not_written input_file output_file working_dir w
    content :
  let work_dir := resolve_dir Sys working_dir in
  let input_path := resolve_in Sys work_dir input_file in
  let img_dir := path_join Sys work_dir (lit "img") in
  let temp_md :=
    path_join Sys work_dir (lit "temp_" ++ path_name Sys input_path) in
  let outcome := write_text Sys temp_md (_remove_image_references content) in
  work_dir ∈ files w → input_path ∈ files w →
  img_dir ∈ files w ∨ mkdir_succeeds Sys img_dir = true →
  read_text Sys input_path = Some content →
  outcome ≠ Written →
  ∃ w',
    convert Sys E L cfg input_file output_file working_dir w
    = (Raise IOError, w') ∧
    files w'
    = (if outcome is WriteFailed then {[temp_md]} else ∅)
      ∪ ({[img_dir]} ∪ files w).
Proof.
  intros work_dir input_path img_dir temp_md outcome Hwork Hinput Himg Hread
    Hwrite.
  destruct (convert_start input_file output_file working_dir w content
              Hwork Hinput Himg Hread) as (w1 & -> & Hfiles).
  unfold mbind at 1, M_bind at 1. rewrite create_temp_markdown_run.
  fold work_dir input_path img_dir temp_md in Hfiles |- *. fold outcome.
  destruct outcome; [done| |]; eexists; (split; [reflexivity|]); cbn [files].
  - by rewrite Hfiles, (left_id_L ∅ (∪)).
  - by rewrite Hfiles.
Qed.
End Conversion.

(** ** The files the conversion leaves *)

Lemma keeps_bind {A B} p (m : M world A) (k : A → M world B) (P : A → Prop) :
  keeps p m → (∀ w a w1, m w = (Ok a, w1) → P a) →
  (∀ a, P a → keeps p (k a)) → keeps p (m ≫= k).
Proof.
  intros Hm HP Hk w Hp. unfold mbind, M_bind. specialize (Hm w Hp).
  destruct (m w) as [[a|e] w1] eqn:Hmw; cbn [snd] in *; [|done].
  apply Hk; [by eapply HP|done].
Qed.

Lemma keeps_then {A B} p (m : M world A) (k : M world B) :
  keeps p m → keeps p k → keeps p (m ≫= λ _, k).
Proof.
  intros Hm Hk. apply (keeps_bind p m _ (λ _, True)); [done|done|by intros].
Qed.

Lemma keeps_try_finally {A} p (body : M world A) cleanup :
  keeps p body → keeps p cleanup → keeps p (try_finally body cleanup).
Proof.
  intros Hbody Hclean w Hp. unfold try_finally. specialize (Hbody w Hp).
  destruct (body w) as [r w1]. specialize (Hclean w1 Hbody).
  by destruct (cleanup w1) as [[[]|e] w2].
Qed.

Lemma keeps_try_except {A} p (body : M world A) handles handler :
  keeps p body → (∀ e, keeps p (handler e)) →
  keeps p (try_except body handles handler).
Proof.
  intros Hbody Hhandler w Hp. unfold try_except. specialize (Hbody w Hp).
  destruct (body w) as [[a|e] w1]; [done|].
  destruct (handles e); [by apply Hhandler|done].
Qed.

Lemma keeps_same_files {A} p (m : M world A) :
  (∀ w, files (m w).2 = files w) → keeps p m.
Proof. intros Hm w Hp. by rewrite Hm. Qed.

Section Files.
Context (Sys : system) (E : image_files) (L : docx_library).
Context (cfg : DocumentConfig).

Lemma keeps_write_file p q content : keeps p (write_file Sys q content).
Proof.
  intros w Hp. unfold write_file.
  destruct (write_text Sys q content); cbn; try done;
    apply elem_of_union; by right.
Qed.

Lemma keeps_cleanup p q handler :
  p ≠ q →
  keeps p (try_except (A := unit)
             (found ← path_exists q;
              if (found : bool) then unlink Sys q else mret ())
             (λ _, true) (λ _, log WARNING handler)).
Proof.
  intros Hpq. apply keeps_try_except; [|intros e; by apply keeps_same_files].
  intros w Hp. unfold path_exists, unlink. run_monad.
  case_bool_decide; [|done]. destruct (unlink_succeeds Sys q); [|done].
  cbn. apply elem_of_difference. split; [done|].
  by intros ->%elem_of_singleton.
Qed.

Lemma keeps_pandoc_handler p e : keeps p (pandoc_handler e).
Proof. apply keeps_same_files. intros w. by destruct e. Qed.

Lemma keeps_run_pandoc_conversion p input_path output_path title :
  p ≠ path_join Sys (path_parent Sys input_path) (lit "adjust_headers.lua") →
  (∀ fs, p ∈ fs →
         p ∈ (run_pandoc Sys input_path output_path title
                (path_join Sys (path_parent Sys input_path)
                   (lit "adjust_headers.lua")) fs).2) →
  keeps p (_run_pandoc_conversion Sys input_path output_path title).
Proof.
  intros Hlua Hpandoc. unfold _run_pandoc_conversion.
  set (lua_path := path_join Sys (path_parent Sys input_path)
                     (lit "adjust_headers.lua")) in *.
  apply (keeps_bind p _ _ (λ a, a = lua_path)).
  - apply keeps_try_except.
    + intros w Hp. unfold _create_lua_script, write_file, path_exists.
      fold lua_path. run_monad.
      case_bool_decide; destruct (write_text Sys lua_path LUA_SCRIPT);
        cbn; try done; apply elem_of_union; by right.
    + intros e. apply keeps_then; [apply keeps_pandoc_handler|].
      by apply keeps_same_files.
  - intros w a w1. unfold try_except, _create_lua_script, write_file,
      path_exists. fold lua_path. run_monad.
    case_bool_decide; destruct (write_text Sys lua_path LUA_SCRIPT);
      cbn; try (by intros [= <-]); by destruct e.
  - intros a ->. apply keeps_try_finally; [|by apply keeps_cleanup].
    apply keeps_try_except; [|apply keeps_pandoc_handler].
    apply keeps_then; [|by apply keeps_same_files].
    intros w Hp. unfold subprocess_run.
    specialize (Hpandoc (files w) Hp).
    destruct (run_pandoc Sys input_path output_path title lua_path (files w))
      as [[] fs]; done.
Qed.

Lemma keeps_create_image_directory p work_dir :
  keeps p (_create_image_directory Sys work_dir).
Proof.
  intros w Hp. unfold _create_image_directory, path_exists. run_monad.
  case_bool_decide; cbn [negb]; [done|].
  destruct (mkdir_succeeds Sys _); [|done]. cbn.
  apply elem_of_union. by right.
Qed.

(** X14: [convert] deletes nothing but its two temporary files: a file
    at another path that was there before the call, and that pandoc
    leaves alone, is there after the call, whether [convert] returns or
    raises. *)
Theorem convert_keeps_files input_file output_file working_dir p w :
  let work_dir := resolve_dir Sys working_dir in
  let input_path := resolve_in Sys work_dir input_file in
  let output_path := resolve_in Sys work_dir output_file in
  let temp_md :=
    path_join Sys work_dir (lit "temp_" ++ path_name Sys input_path) in
  let lua_path :=
    path_join Sys (path_parent Sys temp_md) (lit "adjust_headers.lua") in
  p ≠ temp_md → p ≠ lua_path →
  (∀ title fs,
     p ∈ fs → p ∈ (run_pandoc Sys temp_md output_path title lua_path fs).2) →
  p ∈ files w →
  p ∈ files (convert Sys E L cfg input_file output_file working_dir w).2.
Proof.
  intros work_dir input_path output_path temp_md lua_path Htemp Hlua Hpandoc.
  revert w. change (keeps p (convert Sys E L cfg input_file output_file
                               working_dir)).
  unfold convert.
  apply (keeps_bind p _ _ (λ a, a = (work_dir, input_path, output_path))).
  { apply keeps_same_files. intros w. unfold _setup_paths, path_exists.
    run_monad. by case_bool_decide. }
  { intros w a w1. unfold _setup_paths, path_exists. fold work_dir.
    run_monad. case_bool_decide; cbn [negb]; [|done]. by intros [= <- _]. }
  intros a ->. cbn beta iota.
  apply (keeps_bind p _ _ (λ _, True)); [|done|].
  { apply keeps_same_files. intros w. by unfold path_exists. }
  intros found _. destruct (negb found); [by apply keeps_same_files|].
  apply keeps_then.
  { apply keeps_same_files. intros w. by destruct (negb _). }
  apply keeps_then; [apply keeps_create_image_directory|].
  apply (keeps_bind p _ _ (λ _, True)); [|done|].
  { apply keeps_same_files. intros w. unfold _read_markdown_content.
    by destruct (read_text Sys input_path). }
  intros content _. cbv zeta.
  apply (keeps_bind p _ _ (λ _, True)); [|done|].
  { apply keeps_same_files. intros w.
    by rewrite extract_image_references_refs. }
  intros refs _.
  apply (keeps_bind p _ _ (λ a, a = temp_md)).
  { intros w Hp. rewrite create_temp_markdown_run.
    destruct (write_text Sys _ _); cbn; try done; apply elem_of_union;
      by right. }
  { intros w a w1. rewrite create_temp_markdown_run.
    destruct (write_text Sys _ _); by intros [= <- _]. }
  intros a ->. apply keeps_try_finally; [|by apply keeps_cleanup].
  apply keeps_then.
  { apply keeps_run_pandoc_conversion; [exact Hlua|].
    intros fs. apply Hpandoc. }
  apply keeps_then; [|by apply keeps_same_files].
  apply keeps_same_files. intros w. apply post_process_file_files.
Qed.
End Files.


Section Success.
Context (Sys : system) (E : image_files) (L : docx_library).
Context (cfg : DocumentConfig).



End Success.

Section Pandoc.
Context (Sys : system) (E : image_files) (L : docx_library).
Context (cfg : DocumentConfig).

Lemma cleanup_run q message w :
  ∃ w' warnings,
    try_except (A := unit)
      (found ← path_exists q;
       if (found : bool) then unlink Sys q else mret ())
      (λ _, true) (λ _, log WARNING message) w
    = (Ok (), w') ∧
    records w' = records w ++ warnings ∧
    Forall (λ r, r.1 = WARNING) warnings.
Proof.
  unfold try_except, path_exists, unlink. run_monad.
  case_bool_decide; [|by exists w, []; rewrite app_nil_r].
  destruct (unlink_succeeds Sys q); cbn.
  - eexists _, []. by rewrite app_nil_r.
  - eexists _, _. split; [done|]. split; [done|]. by repeat constructor.
Qed.

(** X16: when pandoc does not complete, [convert] raises: [RuntimeError]
    for an exit status other than zero, and the exception itself when the
    process could not be run.  The error is logged, and the two
    [finally] clauses add nothing to the log but their own warnings. *)
Theorem pandoc_failure input_file output_file working_dir w content outcome :
  let work_dir := resolve_dir Sys working_dir in
  let input_path := resolve_in Sys work_dir input_file in
  let output_path := resolve_in Sys work_dir output_file in
  let img_dir := path_join Sys work_dir (lit "img") in
  let temp_md :=
    path_join Sys work_dir (lit "temp_" ++ path_name Sys input_path) in
  let lua_path :=
    path_join Sys (path_parent Sys temp_md) (lit "adjust_headers.lua") in
  let title := _extract_title_from_markdown content in
  work_dir ∈ files w → input_path ∈ files w →
  img_dir ∈ files w ∨ mkdir_succeeds Sys img_dir = true →
  read_text Sys input_path = Some content →
  write_text Sys temp_md (_remove_image_references content) = Written →
  write_text Sys lua_path LUA_SCRIPT = Written →
  (∀ fs, (run_pandoc Sys temp_md output_path title lua_path fs).1 = outcome) →
  outcome ≠ Completed →
  ∃ w' before warnings,
    convert Sys E L cfg input_file output_file working_dir w
    = (Raise (if outcome is NonZeroExit then RuntimeError else OtherError),
       w') ∧
    records w'
    = before
      ++ [(ERROR, if outcome is NonZeroExit then PandocFailed else PandocError)]
      ++ warnings ∧
    Forall (λ r, r.1 = WARNING) warnings.
Proof.
  intros work_dir input_path output_path img_dir temp_md lua_path title
    Hwork Hinput Himg Hread Hwrite_md Hwrite_lua Hpandoc Hfailed.
  destruct (convert_start Sys E L cfg input_file output_file working_dir w
              content Hwork Hinput Himg Hread) as (w1 & -> & _).
  unfold mbind at 1, M_bind at 1. rewrite create_temp_markdown_run.
  fold work_dir input_path output_path temp_md title. rewrite Hwrite_md.
  set (w2 := {| files := {[temp_md]} ∪ files w1; records := records w1 |}).
  unfold try_finally at 1. unfold mbind at 1, M_bind at 1.
  unfold _run_pandoc_conversion. unfold mbind at 1, M_bind at 1.
  assert (∃ w3, try_except (_create_lua_script Sys temp_md) (λ _, true)
                  (λ e, pandoc_handler e;; raise e) w2 = (Ok lua_path, w3))
    as [w3 ->].
  { unfold try_except, _create_lua_script, write_file. fold lua_path.
    rewrite Hwrite_lua. unfold path_exists, modify_files. run_monad.
    case_bool_decide; cbn; by eexists. }
  unfold try_finally at 1. fold lua_path.
  unfold try_except at 1. unfold mbind at 1, M_bind at 1.
  unfold subprocess_run at 1. specialize (Hpandoc (files w3)).
  destruct (run_pandoc Sys temp_md output_path title lua_path (files w3))
    as [o fs]. cbn [fst] in Hpandoc. subst o.
  set (w4 := {| files := fs; records := records w3 |}).
  set (msg := if outcome is NonZeroExit then PandocFailed else PandocError).
  set (e := if outcome is NonZeroExit then RuntimeError else OtherError).
  destruct (cleanup_run lua_path CouldNotDeleteLua (emit (ERROR, msg) w4))
    as (w5 & warnings1 & Hclean1 & Hrec1 & Hwarn1).
  destruct (cleanup_run temp_md CouldNotDeleteTempMarkdown w5)
    as (w6 & warnings2 & Hclean2 & Hrec2 & Hwarn2).
  fold (_cleanup_lua_script Sys lua_path) in Hclean1.
  fold (_cleanup_temp_markdown Sys temp_md) in Hclean2.
  exists w6, (records w4), (warnings1 ++ warnings2).
  split; [|split].
  - destruct outcome; [done| |]; cbn [pandoc_handler]; run_monad;
      fold w4; subst msg e; cbn beta iota;
      rewrite Hclean1; cbn beta iota; by rewrite Hclean2.
  - rewrite Hrec2, Hrec1. cbn. by rewrite <- !app_assoc.
  - by apply Forall_app.
Qed.
End Pandoc.


Lemma temp_markdown_not_written_witness :
  ∃ w',
    convert full_disk no_images quiet_library default_config
      (lit "doc.md") (lit "doc.docx") None work_directory
    = (Raise IOError, w') ∧
    lit "/work/temp_doc.md" ∈ files w'.
Proof.
  destruct (temp_markdown_not_written full_disk no_images quiet_library
              default_config (lit "doc.md") (lit "doc.docx") None
              work_directory (lit "Some text."))
    as (w' & Hrun & Hfiles).
  - apply (bool_decide_unpack _). vm_compute. exact I.
  - apply (bool_decide_unpack _). vm_compute. exact I.
  - right. reflexivity.
  - reflexivity.
  - discriminate.
  - exists w'. split; [exact Hrun|]. rewrite Hfiles.
    apply (bool_decide_unpack _). vm_compute. exact I.
Defined.

Lemma convert_keeps_files_witness :
  lit "/work/doc.md"
  ∈ files (convert (machine true) no_images quiet_library default_config
             (lit "doc.md") (lit "doc.docx") None work_directory).2.
Proof.
  apply (convert_keeps_files (machine true) no_images quiet_library
           default_config (lit "doc.md") (lit "doc.docx") None).
  - vm_compute. congruence.
  - vm_compute. congruence.
  - intros title fs Hp. cbn. apply elem_of_union. by right.
  - apply (bool_decide_unpack _). vm_compute. exact I.
Defined.


Lemma pandoc_failure_witness :
  ∃ w' before warnings,
    convert failing_pandoc no_images quiet_library default_config
      (lit "doc.md") (lit "doc.docx") None work_directory
    = (Raise RuntimeError, w') ∧
    records w' = before ++ [(ERROR, PandocFailed)] ++ warnings.
Proof.
  destruct (pandoc_failure failing_pandoc no_images quiet_library
              default_config (lit "doc.md") (lit "doc.docx") None
              work_directory (lit "Some text.") NonZeroExit)
    as (w' & before & warnings & Hrun & Hrec & _).
  - apply (bool_decide_unpack _). vm_compute. exact I.
  - apply (bool_decide_unpack _). vm_compute. exact I.
  - right. reflexivity.
  - reflexivity.
  - reflexivity.
  - reflexivity.
  - reflexivity.
  - discriminate.
  - exists w', before, warnings. split; [exact Hrun|exact Hrec].
Defined.

(** ** The preset styles *)

Lemma preset_footers :
  footer_text_or_default (Some REPORT_FOOTER) = REPORT_FOOTER ∧
  footer_text_or_default (Some NOTE_FOOTER) = NOTE_FOOTER ∧
  footer_has_keys REPORT_FOOTER = true ∧ footer_has_keys NOTE_FOOTER = true ∧
  REPORT_FOOTER ≠ default_footer_text ∧ NOTE_FOOTER ≠ default_footer_text.
Proof.
  assert (∀ a b, footer_has_keys
            (FooterDict (<[lit "odd" := a]> (<[lit "even" := b]> ∅))) = true)
    as Hkeys.
  { intros a b. unfold footer_has_keys.
    rewrite !bool_decide_eq_true_2; [done| |].
    - rewrite lookup_insert_ne by (vm_compute; congruence).
      by rewrite lookup_insert_eq.
    - by rewrite lookup_insert_eq. }
  assert (∀ a b, footer_text_or_default
            (Some (FooterDict (<[lit "odd" := a]> (<[lit "even" := b]> ∅))))
          = FooterDict (<[lit "odd" := a]> (<[lit "even" := b]> ∅)))
    as Htrue.
  { intros a b. unfold footer_text_or_default, footer_truthy.
    rewrite bool_decide_eq_false_2; [done|].
    intros Hempty. apply (f_equal (λ m, m !! lit "odd")) in Hempty.
    by rewrite lookup_insert_eq, lookup_empty in Hempty. }
  assert (∀ a b, a ≠ lit "Page" →
            FooterDict (<[lit "odd" := a]> (<[lit "even" := b]> ∅))
            ≠ default_footer_text) as Hne.
  { intros a b Ha Heq.
    apply (f_equal (λ f, if f is FooterDict d then d !! lit "odd" else None))
      in Heq.
    unfold default_footer_text in Heq. rewrite !lookup_insert_eq in Heq.
    congruence. }
  repeat split; try apply Hkeys; try apply Htrue;
    apply Hne; vm_compute; congruence.
Qed.

(** X17: a preset called without [base_font_size], [margins],
    [line_spacing], [heading_colors] and [footer_text] builds a
    configuration, whatever the other keywords are: the report with the
    constructor's margins and its own colors and footer, the note with
    margins of 1.5 cm, grey headings and its footer, on legal paper
    unless the call says otherwise. *)
Theorem preset_styles_are_accepted kw :
  kw_base_font_size kw = None → kw_margins kw = None →
  kw_line_spacing kw = None → kw_heading_colors kw = None →
  kw_footer_text kw = None →
  (∃ cfg, create_report_style kw = Ok cfg ∧
          heading_colors cfg = default_heading_colors ∧
          footer_text cfg = REPORT_FOOTER ∧
          margins cfg = [Int 2; Int 2; Int 2; Int 2] ∧
          style cfg = default REPORT (kw_style kw) ∧
          paper_size cfg = default LETTER (kw_paper_size kw)) ∧
  (∃ cfg, create_note_style kw = Ok cfg ∧
          heading_colors cfg = NOTE_COLORS ∧
          footer_text cfg = NOTE_FOOTER ∧
          margins cfg = [ONE_AND_A_HALF; ONE_AND_A_HALF; ONE_AND_A_HALF;
                         ONE_AND_A_HALF] ∧
          style cfg = default NOTE (kw_style kw) ∧
          paper_size cfg = default LEGAL (kw_paper_size kw)).
Proof.
  intros Hsize Hmargins Hspacing Hcolors Hfooter.
  destruct preset_footers as (Hreport & Hnote & Hkr & Hkn & _).
  split.
  - unfold create_report_style, call_init, update, DocumentConfig_init,
      _validate.
    rewrite Hsize, Hmargins, Hspacing, Hcolors, Hfooter.
    cbn [kw_style kw_paper_size kw_author kw_date kw_heading_colors
         kw_footer_text kw_font_name kw_base_font_size kw_margins
         kw_line_spacing kw_generate_toc kw_language kw_center_title
         union option_union union_with option_union_with default
         base_font_size margins line_spacing heading_colors footer_text
         arg_base_font_size arg_margins arg_line_spacing arg_heading_colors
         arg_footer_text default_args].
    unfold id. rewrite Hreport, Hkr. cbn.
    eexists. split; [reflexivity|]. cbn.
    repeat split; by destruct (kw_style kw), (kw_paper_size kw).
  - unfold create_note_style, call_init, update, DocumentConfig_init,
      _validate.
    rewrite Hsize, Hmargins, Hspacing, Hcolors, Hfooter.
    cbn [kw_style kw_paper_size kw_author kw_date kw_heading_colors
         kw_footer_text kw_font_name kw_base_font_size kw_margins
         kw_line_spacing kw_generate_toc kw_language kw_center_title
         union option_union union_with option_union_with default
         base_font_size margins line_spacing heading_colors footer_text
         arg_base_font_size arg_margins arg_line_spacing arg_heading_colors
         arg_footer_text default_args].
    unfold id. rewrite Hnote, Hkn.
    assert (existsb lt0 [ONE_AND_A_HALF; ONE_AND_A_HALF; ONE_AND_A_HALF;
                         ONE_AND_A_HALF] = false) as -> by by vm_compute.
    assert (le0 (Finite Float.SCALE) = false) as -> by by vm_compute.
    cbn.
    eexists. split; [reflexivity|]. cbn.
    repeat split; by destruct (kw_style kw), (kw_paper_size kw).
Qed.

Lemma preset_styles_are_accepted_witness :
  (∃ cfg, create_report_style no_kwargs = Ok cfg ∧
          footer_text cfg = REPORT_FOOTER) ∧
  (∃ cfg, create_note_style no_kwargs = Ok cfg ∧
          heading_colors cfg = NOTE_COLORS ∧ paper_size cfg = LEGAL).
Proof.
  destruct (preset_styles_are_accepted no_kwargs eq_refl eq_refl eq_refl
              eq_refl eq_refl)
    as [(report & Hreport & _ & Hfooter & _)
        (note & Hnote & Hcolors & _ & _ & _ & Hpaper)].
  split.
  - exists report. split; [exact Hreport|exact Hfooter].
  - exists note. split; [exact Hnote|]. split; [exact Hcolors|].
    rewrite Hpaper. reflexivity.
Defined.

Lemma call_init_fields kw cfg :
  call_init kw = Ok cfg →
  heading_colors cfg
  = heading_colors_or_default (default None (kw_heading_colors kw)) ∧
  footer_text cfg = footer_text_or_default (default None (kw_footer_text kw)).
Proof.
  unfold call_init, DocumentConfig_init.
  destruct (_validate _) as [[]|]; [|done]. by intros [= <-].
Qed.

(** X18: a preset called with [heading_colors] or [footer_text] given as
    [None] or as an empty dict does not keep its own colors or footer:
    the configuration, if one is built, has the defaults of the
    constructor, the blue headings and the footer ["Page"]. *)
Theorem false_override_takes_constructor_default kw cfg :
  create_report_style kw = Ok cfg ∨ create_note_style kw = Ok cfg →
  (kw_heading_colors kw = Some None ∨ kw_heading_colors kw = Some (Some []) →
   heading_colors cfg = default_heading_colors) ∧
  (∀ f, kw_footer_text kw = Some f →
        (∀ x, f = Some x → footer_truthy x = false) →
        footer_text cfg = default_footer_text ∧
        footer_text cfg ≠ REPORT_FOOTER ∧ footer_text cfg ≠ NOTE_FOOTER).
Proof.
  intros Hbuilt.
  assert (heading_colors cfg
          = heading_colors_or_default
              (default (Some []) (kw_heading_colors kw))
          ∨ kw_heading_colors kw = None) as Hcolors.
  { destruct Hbuilt as [H|H]; apply call_init_fields in H as [H _];
      rewrite H; cbn [update kw_heading_colors];
      destruct (kw_heading_colors kw) as [[c|]|]; cbn; auto. }
  assert (∀ f, kw_footer_text kw = Some f →
               footer_text cfg = footer_text_or_default f) as Hfooter.
  { intros f Hf.
    destruct Hbuilt as [H|H]; apply call_init_fields in H as [_ H];
      rewrite H; cbn [update kw_footer_text]; by rewrite Hf. }
  destruct preset_footers as (_ & _ & _ & _ & Hreport & Hnote).
  split.
  - intros [Hc|Hc]; rewrite Hc in Hcolors;
      by destruct Hcolors as [->|?].
  - intros f Hf Hfalse. rewrite (Hfooter f Hf).
    assert (footer_text_or_default f = default_footer_text) as ->.
    { destruct f as [x|]; [|done]. cbn. by rewrite (Hfalse x). }
    split; [done|]. split; congruence.
Qed.

Lemma false_override_takes_constructor_default_witness :
  ∃ cfg, create_note_style empty_dicts = Ok cfg ∧
         heading_colors cfg = default_heading_colors ∧
         footer_text cfg = default_footer_text.
Proof.
  assert (∃ cfg, create_note_style empty_dicts = Ok cfg) as [cfg Hcfg].
  { eexists. vm_compute. reflexivity. }
  destruct (false_override_takes_constructor_default empty_dicts cfg
              (or_intror Hcfg)) as [Hcolors Hfooter].
  exists cfg. split; [done|]. split.
  - apply Hcolors. by right.
  - apply (Hfooter (Some (FooterDict ∅)) eq_refl). by intros x [= <-].
Defined.

(** ** Post-processing *)

Lemma insert_single_image_doc E para refs img_dir (s : docx_state) :
  the_doc (_insert_single_image E para refs img_dir s).2 = the_doc s.
Proof.
  unfold _insert_single_image, assign_text.
  destruct refs as [|ref refs]; [done|].
  run_monad.
  destruct (negb (suffix_supported E _)); cbn beta iota;
    (destruct (file_exists E _) as [[]|];
     [destruct (add_picture E _) as [[w h]|]| |]);
    cbn beta iota; try done;
    by destruct (xml_compatible _).
Qed.

Lemma process_paragraphs_doc E cfg img_dir paragraphs :
  ∀ refs (s : docx_state),
    the_doc (process_paragraphs E cfg img_dir paragraphs refs s).2 = the_doc s.
Proof.
  induction paragraphs as [|para rest IH]; intros refs s; [done|].
  rewrite process_paragraphs_cons.
  match goal with
  | |- context [(if ?c then ?a else ?b) s] =>
      assert (the_doc ((if c then a else b) s).2 = the_doc s) as Hone;
      [|destruct ((if c then a else b) s) as [[[para' refs1]|e] s1]]
  end.
  { destruct (_ && _); [apply insert_single_image_doc|].
    by repeat case_bool_decide. }
  - cbn [snd] in Hone. specialize (IH refs1 s1).
    destruct (process_paragraphs E cfg img_dir rest refs1 s1)
      as [[[rest' refs2]|e] s2]; cbn [snd] in *; congruence.
  - done.
Qed.

Lemma process_paragraphs_and_images_run E cfg refs work_dir s :
  Forall (resolves E (joinpath E work_dir (lit "img"))) refs →
  ∃ paragraphs' refs' s',
    _process_paragraphs_and_images E cfg refs work_dir s = (Ok refs', s') ∧
    the_doc s' = with_paragraphs (λ _, paragraphs') (the_doc s) ∧
    Forall2 kept (d_paragraphs (the_doc s)) paragraphs' ∧
    (refs = [] →
     Forall2 (λ p p', text p' = text p) (d_paragraphs (the_doc s))
       paragraphs').
Proof.
  intros Hresolve.
  destruct (process_paragraphs_kept E cfg (joinpath E work_dir (lit "img"))
              (d_paragraphs (the_doc s)) refs s Hresolve)
    as (ps & refs' & s1 & Hloop & Hkept & Hnil).
  pose proof (process_paragraphs_doc E cfg (joinpath E work_dir (lit "img"))
                (d_paragraphs (the_doc s)) refs s) as Hdoc.
  rewrite Hloop in Hdoc. cbn [snd] in Hdoc.
  exists ps, refs', {| the_doc := with_paragraphs (λ _, ps) (the_doc s1);
                       the_log := the_log s1 |}.
  split; [|split; [by rewrite Hdoc|split; [done|]]].
  - unfold _process_paragraphs_and_images, mbind, M_bind, get.
    by rewrite Hloop.
  - intros Hrefs. by destruct (Hnil Hrefs).
Qed.

Lemma process_footnotes_frame cfg s :
  ∃ s',
    _process_footnotes cfg s = (Ok (), s') ∧
    d_paragraphs (the_doc s') = d_paragraphs (the_doc s) ∧
    d_default_lang (the_doc s') = d_default_lang (the_doc s) ∧
    dom (d_styles (the_doc s')) = dom (d_styles (the_doc s)).
Proof.
  eexists. split; [apply process_footnotes_run|]. cbv zeta.
  destruct (d_styles (the_doc s) !! "Footnote Text"%string); [|done].
  destruct (d_styles (the_doc s) !! "Footnote Reference"%string); cbn;
    by rewrite ?dom_alter_L.
Qed.

(** X19: post-processing gets as far as the footers whenever the
    configuration is one [_validate] accepts, with values the library
    stores and four margins, looking for the file of each image reference
    under [work_dir / "img"] answers and its alt text is text the
    document takes, and the document has a ['Title'] style or no
    paragraph that holds the title: from there on the outcome is that of
    [_setup_footers] and of saving.  The document then has as many
    paragraphs as before, with the same texts if there is no image
    reference, the styles it had, and the configured language. *)
Theorem post_processing_reaches_footers E L cfg title refs work_dir s :
  _validate cfg = Ok () → storable cfg →
  Forall (resolves E (joinpath E work_dir (lit "img"))) refs →
  (∀ i, (i < 4)%nat → ∃ x, margins cfg !! i = Some x ∧ at_most 50 x) →
  is_Some (d_styles (the_doc s) !! "Title"%string)
  ∨ (∀ p, p ∈ d_paragraphs (the_doc s) → text p ≠ title) →
  ∃ s',
    _post_process_document E L cfg title refs work_dir s
    = (_setup_footers L cfg;;
       s ← get;
       if save_succeeds L (the_doc s) then mret () else raise IOError) s' ∧
    length (d_paragraphs (the_doc s')) = length (d_paragraphs (the_doc s)) ∧
    (refs = [] →
     text <$> d_paragraphs (the_doc s') = text <$> d_paragraphs (the_doc s)) ∧
    dom (d_styles (the_doc s')) = dom (d_styles (the_doc s)) ∧
    d_default_lang (the_doc s') = Some (language cfg).
Proof.
  intros Hv _ Hresolve Hmargins Htitle. unfold _post_process_document.
  destruct (apply_global_styles_run cfg s Hv Hmargins)
    as (styles1 & geometry & Hglobal & Hdom1 & _).
  rewrite (bind_run _ _ _ _ _ Hglobal).
  match type of Hglobal with _ = (_, ?s) => set (s1 := s) in * end.
  destruct (style_main_title_returns cfg title s1) as (ps2 & Hmain & Htext2).
  { destruct Htitle as [Hstyle|Hnone]; [left|by right].
    apply elem_of_dom. cbn. rewrite Hdom1. by apply elem_of_dom. }
  rewrite (bind_run _ _ _ _ _ Hmain).
  set (s2 := with_body ps2 s1) in *.
  destruct (process_paragraphs_and_images_run E cfg refs work_dir s2 Hresolve)
    as (ps3 & refs3 & s3 & Hloop & Hdoc3 & Hkept & Hnil).
  rewrite (bind_run _ _ _ _ _ Hloop).
  destruct (_process_tables cfg s3) as [r4 s4] eqn:Htables.
  assert (r4 = Ok () ∧ d_paragraphs (the_doc s4) = d_paragraphs (the_doc s3) ∧
          d_styles (the_doc s4) = d_styles (the_doc s3) ∧
          d_default_lang (the_doc s4) = d_default_lang (the_doc s3))
    as (-> & Hparas4 & Hstyles4 & Hlang4).
  { unfold _process_tables, modify_doc, modify in Htables.
    by injection Htables as <- <-. }
  rewrite (bind_run _ _ _ _ _ Htables).
  destruct (process_footnotes_frame cfg s4)
    as (s5 & Hfoot & Hparas5 & Hlang5 & Hdom5).
  rewrite (bind_run _ _ _ _ _ Hfoot).
  exists s5. split; [done|].
  cbn [the_doc d_paragraphs d_default_lang d_styles] in *.
  rewrite Hparas5, Hlang5, Hdom5, Hparas4, Hlang4, Hstyles4, Hdoc3. cbn.
  assert (length ps2 = length (d_paragraphs (the_doc s))) as Hlen2.
  { by rewrite <- (length_fmap text), Htext2, length_fmap. }
  split; [|split; [|done]].
  - apply Forall2_length in Hkept. cbn in Hkept. congruence.
  - intros Hrefs. specialize (Hnil Hrefs). cbn in Hnil.
    transitivity (text <$> ps2); [|exact Htext2].
    clear -Hnil. induction Hnil as [|p p' ps ps' Hp _ IH]; [done|].
    cbn. by rewrite Hp, IH.
Qed.

Lemma post_processing_reaches_footers_witness :
  ∃ s',
    _post_process_document no_images quiet_library default_config
      (lit "Report") [image_ref_of_match (lit "x", lit "p.png")]
      (lit "/work") titled_state = (Ok (), s').
Proof.
  destruct (post_processing_reaches_footers no_images quiet_library
              default_config (lit "Report")
              [image_ref_of_match (lit "x", lit "p.png")] (lit "/work")
              titled_state)
    as (s' & Hrun & _).
  - vm_compute. reflexivity.
  - storable_values.
  - constructor; [|constructor]. split; [by eexists|reflexivity].
  - intros [|[|[|[|i]]]] Hi; try lia; (eexists; split; [reflexivity|]);
      vm_compute; split; congruence.
  - left. by eexists.
  - rewrite Hrun. by eexists.
Defined.
